(** * TidyBot Army Timeline: a shallow embedding of [script.js]

    The carousel controller of [script.js] is embedded as state-passing
    functions over a record holding the script's globals ([activityLog],
    [currentIndex], [isAnimating], [renderedRange]), the part of the page it
    writes to, the pending timer and animation-frame callbacks and the
    console.  JavaScript exceptions are kept: every operation returns an
    [Outcome] together with the state reached when it returned or threw.

    Numbers are integers ([Z]).  In particular the argument of
    [goToIndex] is an integer, as it is in every call the script makes
    (from [goToPrev], [goToNext], the click on a node, [goToFirst],
    [goToLast] and [addEntry]); what the exported function does with
    another value is not modelled, and every statement about [goToIndex]
    is about integer arguments.  Strings are held as the bytes of their
    UTF-8 encoding, and the string operations count the 16-bit units
    JavaScript counts.

    Entry objects are kept in an object store and the array holds
    references, so that [addEntry], which writes to the object it is
    given, is seen to do so.  An entry may lack its timestamp or its
    files, and rendering it then throws.

    The page is taken to provide every element [script.js] looks up in
    [elements], and no card or node but those the script renders.  The
    script renders by writing templates to [innerHTML]; the two strips
    are held as the lists of the values put into the templates, one item
    per template written.  That is the list of elements the page then
    holds exactly when none of these values contains markup, which is
    what [plain] says of a text, and the statements about the rendered
    items assume it of the entries and show it of the strips.  A card's
    layout width is the same for all cards and is a component of the
    state.  The decorative background
    ([initHoneycomb], [initParallax]), the hover effect
    ([initMouseTracking]) and [positionRobot], whose body is empty, share
    no state with the timeline and are left out. *)

From stdpp Require Import base list strings pretty.
From Stdlib Require Import ZArith Lia Ascii.

Open Scope Z_scope.

(** ** JavaScript values used by the script *)

(** [String(n)] for an integer-valued number. *)
Definition jsString (n : Z) : string := pretty n.

Fixpoint replicate_char (n : nat) (c : ascii) : string :=
  match n with
  | O => EmptyString
  | S k => String c (replicate_char k c)
  end.

(** [s.padStart(width, c)]: pads on the left, never truncates. *)
Definition padStart (width : nat) (c : ascii) (s : string) : string :=
  replicate_char (width - String.length s) c +:+ s.

(** [s.split(' ')[0]]: the text before the first space. *)
Fixpoint beforeSpace (s : string) : string :=
  match s with
  | EmptyString => EmptyString
  | String c r => if Ascii.eqb c " "%char then EmptyString else String c (beforeSpace r)
  end.

(** A string is held as the bytes of its UTF-8 encoding, where JavaScript
    counts the 16-bit units of UTF-16: a character of one, two or three
    bytes is one unit, a character of four bytes is two (a surrogate
    pair).  [utf8Width c] is the number of bytes of the character that
    starts with the byte [c]. *)
Definition utf8Width (c : ascii) : nat :=
  let b := nat_of_ascii c in
  if (b <? 192)%nat then 1%nat
  else if (b <? 224)%nat then 2%nat
  else if (b <? 240)%nat then 3%nat
  else 4%nat.

Fixpoint dropBytes (m : nat) (s : string) : string :=
  match m, s with
  | O, _ => s
  | S _, EmptyString => EmptyString
  | S k, String _ r => dropBytes k r
  end.

(** The second half of the surrogate pair of a four-byte character, given
    the three bytes after its first one; it is held in the three-byte form
    of its code point, [0xDC00 + (the low ten bits of the character)]. *)
Definition lowSurrogate (r : string) : string :=
  match r with
  | String _ (String b3 (String b4 _)) =>
      String (ascii_of_nat 237)
        (String (ascii_of_nat (176 + nat_of_ascii b3 mod 16))
           (String b4 EmptyString))
  | _ => EmptyString
  end.

(** [s.slice(n)] for a non-negative [n]: [s] without its first [n] units.
    Cutting a surrogate pair in two leaves its second half. *)
Fixpoint slice (n : nat) (s : string) : string :=
  match n with
  | O => s
  | S k =>
      match s with
      | EmptyString => EmptyString
      | String c r =>
          match utf8Width c, k with
          | 4%nat, O => lowSurrogate r +:+ dropBytes 3 r
          | 4%nat, S k' => slice k' (dropBytes 3 r)
          | w, _ => slice k (dropBytes (w - 1) r)
          end
      end
  end.

(** A template literal prints an absent property as the text "undefined". *)
Definition interpolate (v : option string) : string :=
  match v with
  | Some s => s
  | None => "undefined"
  end.

(** Assigning [undefined] to [textContent] empties the element. *)
Definition textContentOf (v : option string) : string :=
  match v with
  | Some s => s
  | None => EmptyString
  end.

Inductive JSError : Type :=
  | TypeError.

Inductive Outcome (A : Type) : Type :=
  | Ret (a : A)
  | Throw (e : JSError).
Arguments Ret {A} a.
Arguments Throw {A} e.

Definition obind {A B : Type} (o : Outcome A) (f : A -> Outcome B) : Outcome B :=
  match o with
  | Ret a => f a
  | Throw e => Throw e
  end.

(** ** Log entries *)

(** An entry object.  [logs/README.md] requires five fields, but nothing
    checks an element of the fetched array or an object handed to
    [addEntry], so a field may be absent ([None]); a field that is there
    holds a value of the type the README gives it.  The script calls a
    method on [timestamp] and on [files], which throws when the field is
    absent.  It uses [type] only as a property key and [title] and
    [description] only in a template, where an absent field counts as the
    text "undefined": such a field is held as that text.  [e_id] and
    [e_status] are absent until the script sets them. *)
Record Entry : Type := mkEntry {
  e_timestamp : option string;
  e_type : string;
  e_title : string;
  e_description : string;
  e_files : option (list string);
  e_id : option string;
  e_status : option string
}.

(** Entry objects live in an object store; the script's array holds
    references to them. *)
Abbreviation loc := nat (only parsing).

Definition withIdStatus (e : Entry) (i : string) : Entry :=
  {| e_timestamp := e_timestamp e; e_type := e_type e; e_title := e_title e;
     e_description := e_description e; e_files := e_files e;
     e_id := Some i; e_status := Some "completed" |}.

(** [String(n).padStart(3, '0')] *)
Definition pad3 (n : Z) : string := padStart 3 "0"%char (jsString n).

(** ** Type registry *)

Record TypeInfo : Type := mkTypeInfo {
  label : string;
  color : string
}.

Definition typeConfig : list (string * TypeInfo) :=
  [ ("setup", mkTypeInfo "Setup" "#9d4edd");
    ("feature", mkTypeInfo "Feature" "#39ff14");
    ("fix", mkTypeInfo "Bug Fix" "#ff3366");
    ("refactor", mkTypeInfo "Refactor" "#ff6b00");
    ("test", mkTypeInfo "Testing" "#00d4ff");
    ("docs", mkTypeInfo "Docs" "#6b6b7b");
    ("deploy", mkTypeInfo "Deploy" "#ff6b00") ].

Fixpoint ownProperty (k : string) (o : list (string * TypeInfo)) : option TypeInfo :=
  match o with
  | [] => None
  | (k', v) :: r => if String.eqb k k' then Some v else ownProperty k r
  end.

(** [typeConfig] is an object literal, so a lookup that misses its own keys
    continues in [Object.prototype].  These are the property names every
    object inherits from it; each holds a function or an object. *)
Definition objectPrototypeKeys : list string :=
  [ "constructor"; "__proto__"; "hasOwnProperty"; "isPrototypeOf";
    "propertyIsEnumerable"; "toLocaleString"; "toString"; "valueOf";
    "__defineGetter__"; "__defineSetter__"; "__lookupGetter__";
    "__lookupSetter__" ].

Inductive PropValue : Type :=
  | OwnValue (t : TypeInfo)
  | Inherited
  | Undefined.

(** [typeConfig[k]] *)
Definition typeConfigGet (k : string) : PropValue :=
  match ownProperty k typeConfig with
  | Some t => OwnValue t
  | None => if bool_decide (k ∈ objectPrototypeKeys) then Inherited else Undefined
  end.

(** [typeConfig[k].color] and [typeConfig[k].label]: reading a property of
    [undefined] throws; an inherited function or object has neither
    property. *)
Definition getColor (v : PropValue) : Outcome (option string) :=
  match v with
  | OwnValue t => Ret (Some (color t))
  | Inherited => Ret None
  | Undefined => Throw TypeError
  end.

Definition getLabel (v : PropValue) : Outcome (option string) :=
  match v with
  | OwnValue t => Ret (Some (label t))
  | Inherited => Ret None
  | Undefined => Throw TypeError
  end.

(** ** The page *)

(** One [.timeline-node] of the marker strip: the values that
    [createNodeHTML] puts into its template.  Written to [innerHTML], one
    instance of the template is one element with these texts as long as
    the values hold no markup (see [plain]). *)
Record NodeView : Type := mkNode {
  n_index : Z;
  n_active : bool;
  n_color : string;
  n_number : string;
  n_title : string
}.

(** One [.event-card] of the card strip: the values that
    [createCardHTML] puts into its template, under the same proviso. *)
Record CardView : Type := mkCard {
  c_index : Z;
  c_active : bool;
  c_prev : bool;
  c_next : bool;
  c_number : string;
  c_date : string;
  c_color : string;
  c_label : string;
  c_title : string;
  c_description : string;
  c_files : list string
}.

(** [.events-slider]: its [translateX(-offset px)], whether its inline
    [transition] is ['none'], and whether the last write of the transform was
    made with the transition enabled (the strip slides) or not (it snaps). *)
Record Slider : Type := mkSlider {
  sl_offset : Z;
  sl_transitionNone : bool;
  sl_animated : bool
}.

(** A text element animated by [animateText]. *)
Record TextEl : Type := mkTextEl {
  el_text : string;
  el_shown : bool
}.

Inductive HeaderEl : Type :=
  | EntryNumber
  | EntryType.

Record Range : Type := mkRange {
  r_start : Z;
  r_end : Z
}.

Inductive Diagnostic : Type :=
  | ConsoleError (msg : string)
  | ConsoleWarn (msg : string)
  | ConsoleLog (msg : string)
  | Uncaught (e : JSError).

(** Callbacks handed to [setTimeout] and [requestAnimationFrame]. *)
Inductive TimerTask : Type :=
  | SetText (el : HeaderEl) (newText : option string)
  | SlideDone
  | JumpDone
  | ResizeSnap.

Inductive FrameTask : Type :=
  | JumpFrame.

(** The state of a page: the object store, the four globals of the script,
    the elements it writes to, the layout width of a card, the last
    [touchstart] position, the clock in milliseconds with the pending
    timers in firing order and the pending animation frames, the console,
    and whether the listeners of [init] are installed. *)
Record State : Type := mkState {
  heap : list Entry;
  activityLog : list loc;
  currentIndex : Z;
  isAnimating : bool;
  renderedRange : Range;
  timelineNodes : list NodeView;
  cardsRow : list CardView;
  eventsSlider : Slider;
  entryNumber : TextEl;
  entryType : TextEl;
  counterCurrent : string;
  prevBtn_disabled : bool;
  nextBtn_disabled : bool;
  cardWidth : Z;
  touchStartX : Z;
  now : Z;
  timers : list (Z * TimerTask);
  frames : list FrameTask;
  console : list Diagnostic;
  listening : bool
}.

(** Assignments to one component of the state. *)
Definition set_heap (v : list Entry) (s : State) : State :=
  {| heap := v; activityLog := activityLog s; currentIndex := currentIndex s;
     isAnimating := isAnimating s; renderedRange := renderedRange s;
     timelineNodes := timelineNodes s; cardsRow := cardsRow s;
     eventsSlider := eventsSlider s; entryNumber := entryNumber s;
     entryType := entryType s; counterCurrent := counterCurrent s;
     prevBtn_disabled := prevBtn_disabled s; nextBtn_disabled := nextBtn_disabled s;
     cardWidth := cardWidth s; touchStartX := touchStartX s; now := now s;
     timers := timers s; frames := frames s; console := console s;
     listening := listening s |}.

Definition set_activityLog (v : list loc) (s : State) : State :=
  {| heap := heap s; activityLog := v; currentIndex := currentIndex s;
     isAnimating := isAnimating s; renderedRange := renderedRange s;
     timelineNodes := timelineNodes s; cardsRow := cardsRow s;
     eventsSlider := eventsSlider s; entryNumber := entryNumber s;
     entryType := entryType s; counterCurrent := counterCurrent s;
     prevBtn_disabled := prevBtn_disabled s; nextBtn_disabled := nextBtn_disabled s;
     cardWidth := cardWidth s; touchStartX := touchStartX s; now := now s;
     timers := timers s; frames := frames s; console := console s;
     listening := listening s |}.

Definition set_currentIndex (v : Z) (s : State) : State :=
  {| heap := heap s; activityLog := activityLog s; currentIndex := v;
     isAnimating := isAnimating s; renderedRange := renderedRange s;
     timelineNodes := timelineNodes s; cardsRow := cardsRow s;
     eventsSlider := eventsSlider s; entryNumber := entryNumber s;
     entryType := entryType s; counterCurrent := counterCurrent s;
     prevBtn_disabled := prevBtn_disabled s; nextBtn_disabled := nextBtn_disabled s;
     cardWidth := cardWidth s; touchStartX := touchStartX s; now := now s;
     timers := timers s; frames := frames s; console := console s;
     listening := listening s |}.

Definition set_isAnimating (v : bool) (s : State) : State :=
  {| heap := heap s; activityLog := activityLog s; currentIndex := currentIndex s;
     isAnimating := v; renderedRange := renderedRange s;
     timelineNodes := timelineNodes s; cardsRow := cardsRow s;
     eventsSlider := eventsSlider s; entryNumber := entryNumber s;
     entryType := entryType s; counterCurrent := counterCurrent s;
     prevBtn_disabled := prevBtn_disabled s; nextBtn_disabled := nextBtn_disabled s;
     cardWidth := cardWidth s; touchStartX := touchStartX s; now := now s;
     timers := timers s; frames := frames s; console := console s;
     listening := listening s |}.

Definition set_renderedRange (v : Range) (s : State) : State :=
  {| heap := heap s; activityLog := activityLog s; currentIndex := currentIndex s;
     isAnimating := isAnimating s; renderedRange := v;
     timelineNodes := timelineNodes s; cardsRow := cardsRow s;
     eventsSlider := eventsSlider s; entryNumber := entryNumber s;
     entryType := entryType s; counterCurrent := counterCurrent s;
     prevBtn_disabled := prevBtn_disabled s; nextBtn_disabled := nextBtn_disabled s;
     cardWidth := cardWidth s; touchStartX := touchStartX s; now := now s;
     timers := timers s; frames := frames s; console := console s;
     listening := listening s |}.

Definition set_timelineNodes (v : list NodeView) (s : State) : State :=
  {| heap := heap s; activityLog := activityLog s; currentIndex := currentIndex s;
     isAnimating := isAnimating s; renderedRange := renderedRange s;
     timelineNodes := v; cardsRow := cardsRow s; eventsSlider := eventsSlider s;
     entryNumber := entryNumber s; entryType := entryType s;
     counterCurrent := counterCurrent s; prevBtn_disabled := prevBtn_disabled s;
     nextBtn_disabled := nextBtn_disabled s; cardWidth := cardWidth s;
     touchStartX := touchStartX s; now := now s; timers := timers s;
     frames := frames s; console := console s; listening := listening s |}.

Definition set_cardsRow (v : list CardView) (s : State) : State :=
  {| heap := heap s; activityLog := activityLog s; currentIndex := currentIndex s;
     isAnimating := isAnimating s; renderedRange := renderedRange s;
     timelineNodes := timelineNodes s; cardsRow := v; eventsSlider := eventsSlider s;
     entryNumber := entryNumber s; entryType := entryType s;
     counterCurrent := counterCurrent s; prevBtn_disabled := prevBtn_disabled s;
     nextBtn_disabled := nextBtn_disabled s; cardWidth := cardWidth s;
     touchStartX := touchStartX s; now := now s; timers := timers s;
     frames := frames s; console := console s; listening := listening s |}.

Definition set_eventsSlider (v : Slider) (s : State) : State :=
  {| heap := heap s; activityLog := activityLog s; currentIndex := currentIndex s;
     isAnimating := isAnimating s; renderedRange := renderedRange s;
     timelineNodes := timelineNodes s; cardsRow := cardsRow s; eventsSlider := v;
     entryNumber := entryNumber s; entryType := entryType s;
     counterCurrent := counterCurrent s; prevBtn_disabled := prevBtn_disabled s;
     nextBtn_disabled := nextBtn_disabled s; cardWidth := cardWidth s;
     touchStartX := touchStartX s; now := now s; timers := timers s;
     frames := frames s; console := console s; listening := listening s |}.

Definition set_entryNumber (v : TextEl) (s : State) : State :=
  {| heap := heap s; activityLog := activityLog s; currentIndex := currentIndex s;
     isAnimating := isAnimating s; renderedRange := renderedRange s;
     timelineNodes := timelineNodes s; cardsRow := cardsRow s;
     eventsSlider := eventsSlider s; entryNumber := v; entryType := entryType s;
     counterCurrent := counterCurrent s; prevBtn_disabled := prevBtn_disabled s;
     nextBtn_disabled := nextBtn_disabled s; cardWidth := cardWidth s;
     touchStartX := touchStartX s; now := now s; timers := timers s;
     frames := frames s; console := console s; listening := listening s |}.

Definition set_entryType (v : TextEl) (s : State) : State :=
  {| heap := heap s; activityLog := activityLog s; currentIndex := currentIndex s;
     isAnimating := isAnimating s; renderedRange := renderedRange s;
     timelineNodes := timelineNodes s; cardsRow := cardsRow s;
     eventsSlider := eventsSlider s; entryNumber := entryNumber s; entryType := v;
     counterCurrent := counterCurrent s; prevBtn_disabled := prevBtn_disabled s;
     nextBtn_disabled := nextBtn_disabled s; cardWidth := cardWidth s;
     touchStartX := touchStartX s; now := now s; timers := timers s;
     frames := frames s; console := console s; listening := listening s |}.

Definition set_counterCurrent (v : string) (s : State) : State :=
  {| heap := heap s; activityLog := activityLog s; currentIndex := currentIndex s;
     isAnimating := isAnimating s; renderedRange := renderedRange s;
     timelineNodes := timelineNodes s; cardsRow := cardsRow s;
     eventsSlider := eventsSlider s; entryNumber := entryNumber s;
     entryType := entryType s; counterCurrent := v;
     prevBtn_disabled := prevBtn_disabled s; nextBtn_disabled := nextBtn_disabled s;
     cardWidth := cardWidth s; touchStartX := touchStartX s; now := now s;
     timers := timers s; frames := frames s; console := console s;
     listening := listening s |}.

Definition set_prevBtn_disabled (v : bool) (s : State) : State :=
  {| heap := heap s; activityLog := activityLog s; currentIndex := currentIndex s;
     isAnimating := isAnimating s; renderedRange := renderedRange s;
     timelineNodes := timelineNodes s; cardsRow := cardsRow s;
     eventsSlider := eventsSlider s; entryNumber := entryNumber s;
     entryType := entryType s; counterCurrent := counterCurrent s;
     prevBtn_disabled := v; nextBtn_disabled := nextBtn_disabled s;
     cardWidth := cardWidth s; touchStartX := touchStartX s; now := now s;
     timers := timers s; frames := frames s; console := console s;
     listening := listening s |}.

Definition set_nextBtn_disabled (v : bool) (s : State) : State :=
  {| heap := heap s; activityLog := activityLog s; currentIndex := currentIndex s;
     isAnimating := isAnimating s; renderedRange := renderedRange s;
     timelineNodes := timelineNodes s; cardsRow := cardsRow s;
     eventsSlider := eventsSlider s; entryNumber := entryNumber s;
     entryType := entryType s; counterCurrent := counterCurrent s;
     prevBtn_disabled := prevBtn_disabled s; nextBtn_disabled := v;
     cardWidth := cardWidth s; touchStartX := touchStartX s; now := now s;
     timers := timers s; frames := frames s; console := console s;
     listening := listening s |}.

Definition set_touchStartX (v : Z) (s : State) : State :=
  {| heap := heap s; activityLog := activityLog s; currentIndex := currentIndex s;
     isAnimating := isAnimating s; renderedRange := renderedRange s;
     timelineNodes := timelineNodes s; cardsRow := cardsRow s;
     eventsSlider := eventsSlider s; entryNumber := entryNumber s;
     entryType := entryType s; counterCurrent := counterCurrent s;
     prevBtn_disabled := prevBtn_disabled s; nextBtn_disabled := nextBtn_disabled s;
     cardWidth := cardWidth s; touchStartX := v; now := now s; timers := timers s;
     frames := frames s; console := console s; listening := listening s |}.

Definition set_now (v : Z) (s : State) : State :=
  {| heap := heap s; activityLog := activityLog s; currentIndex := currentIndex s;
     isAnimating := isAnimating s; renderedRange := renderedRange s;
     timelineNodes := timelineNodes s; cardsRow := cardsRow s;
     eventsSlider := eventsSlider s; entryNumber := entryNumber s;
     entryType := entryType s; counterCurrent := counterCurrent s;
     prevBtn_disabled := prevBtn_disabled s; nextBtn_disabled := nextBtn_disabled s;
     cardWidth := cardWidth s; touchStartX := touchStartX s; now := v;
     timers := timers s; frames := frames s; console := console s;
     listening := listening s |}.

Definition set_timers (v : list (Z * TimerTask)) (s : State) : State :=
  {| heap := heap s; activityLog := activityLog s; currentIndex := currentIndex s;
     isAnimating := isAnimating s; renderedRange := renderedRange s;
     timelineNodes := timelineNodes s; cardsRow := cardsRow s;
     eventsSlider := eventsSlider s; entryNumber := entryNumber s;
     entryType := entryType s; counterCurrent := counterCurrent s;
     prevBtn_disabled := prevBtn_disabled s; nextBtn_disabled := nextBtn_disabled s;
     cardWidth := cardWidth s; touchStartX := touchStartX s; now := now s; timers := v;
     frames := frames s; console := console s; listening := listening s |}.

Definition set_frames (v : list FrameTask) (s : State) : State :=
  {| heap := heap s; activityLog := activityLog s; currentIndex := currentIndex s;
     isAnimating := isAnimating s; renderedRange := renderedRange s;
     timelineNodes := timelineNodes s; cardsRow := cardsRow s;
     eventsSlider := eventsSlider s; entryNumber := entryNumber s;
     entryType := entryType s; counterCurrent := counterCurrent s;
     prevBtn_disabled := prevBtn_disabled s; nextBtn_disabled := nextBtn_disabled s;
     cardWidth := cardWidth s; touchStartX := touchStartX s; now := now s;
     timers := timers s; frames := v; console := console s; listening := listening s |}.

Definition set_console (v : list Diagnostic) (s : State) : State :=
  {| heap := heap s; activityLog := activityLog s; currentIndex := currentIndex s;
     isAnimating := isAnimating s; renderedRange := renderedRange s;
     timelineNodes := timelineNodes s; cardsRow := cardsRow s;
     eventsSlider := eventsSlider s; entryNumber := entryNumber s;
     entryType := entryType s; counterCurrent := counterCurrent s;
     prevBtn_disabled := prevBtn_disabled s; nextBtn_disabled := nextBtn_disabled s;
     cardWidth := cardWidth s; touchStartX := touchStartX s; now := now s;
     timers := timers s; frames := frames s; console := v; listening := listening s |}.

Definition set_listening (v : bool) (s : State) : State :=
  {| heap := heap s; activityLog := activityLog s; currentIndex := currentIndex s;
     isAnimating := isAnimating s; renderedRange := renderedRange s;
     timelineNodes := timelineNodes s; cardsRow := cardsRow s;
     eventsSlider := eventsSlider s; entryNumber := entryNumber s;
     entryType := entryType s; counterCurrent := counterCurrent s;
     prevBtn_disabled := prevBtn_disabled s; nextBtn_disabled := nextBtn_disabled s;
     cardWidth := cardWidth s; touchStartX := touchStartX s; now := now s;
     timers := timers s; frames := frames s; console := console s; listening := v |}.

(** ** Statements of the script: state and exceptions *)

(** A statement runs from a state and either returns a value or throws; the
    state it reached is kept in both cases. *)
Definition M (A : Type) : Type := State -> Outcome A * State.

#[global] Instance M_ret : MRet M := fun A a s => (Ret a, s).
#[global] Instance M_bind : MBind M := fun A B f m s =>
  match m s with
  | (Ret a, s') => f a s'
  | (Throw e, s') => (Throw e, s')
  end.

Definition modify (f : State -> State) : M unit := fun s => (Ret tt, f s).
Definition gets {A : Type} (f : State -> A) : M A := fun s => (Ret (f s), s).
Definition lift {A : Type} (o : Outcome A) : M A := fun s => (o, s).
Definition when (b : bool) (m : M unit) : M unit := if b then m else mret tt.

(** ** Configuration *)

Definition CARD_BUFFER : Z := 3.

(** Delay of the [setTimeout] that ends a transition in [goToIndex]. *)
Definition TRANSITION_MS : Z := 750.

Definition TEXT_MS : Z := 200.
Definition RESIZE_MS : Z := 100.
Definition GAP : Z := 24.

(** ** Reading the store *)

(** [activityLog.length] *)
Definition entryCount (s : State) : Z := Z.of_nat (length (activityLog s)).

(** [activityLog[i]]: [undefined] outside the array. *)
Definition refAt (s : State) (i : Z) : option loc :=
  if i <? 0 then None else activityLog s !! Z.to_nat i.

(** The object [activityLog[i]] refers to. *)
Definition entryAt (s : State) (i : Z) : option Entry :=
  refAt s i ≫= fun l => heap s !! l.

(** ** Loading *)

Inductive Json : Type :=
  | JArray (entries : list Entry)
  | JOther.

(** What [fetch('logs/entries.json')] followed by [response.json()] gave. *)
Inductive FetchResult : Type :=
  | FetchRejected
  | JsonRejected
  | Parsed (j : Json).

(** [entries.map((entry, index) => ({...entry, id: ..., status: ...}))] *)
Definition assignIds (entries : list Entry) : list Entry :=
  imap (fun index entry => withIdStatus entry (pad3 (Z.of_nat index + 1))) entries.

Definition loadFailed : Diagnostic := ConsoleError "Failed to load activity log:".

(** [loadActivityLog]: the [catch] covers a rejected fetch, a body that is
    not JSON, and a parsed value without [map] (anything but an array). *)
Definition loadActivityLog (r : FetchResult) : M (list loc) :=
  match r with
  | Parsed (JArray entries) =>
      h ← gets heap;
      modify (set_heap (h ++ assignIds entries));;
      modify (set_activityLog (seq (length h) (length entries)));;
      gets activityLog
  | _ =>
      c ← gets console;
      modify (set_console (c ++ [loadFailed]));;
      modify (set_activityLog []);;
      gets activityLog
  end.

(** ** Viewport window *)

(** Lines 102-103 of [updateRenderedCards], with the buffer and the length
    as arguments. *)
Definition computeRange (currentIndex bufferSize entryCount : Z) : Range :=
  {| r_start := Z.max 0 (currentIndex - bufferSize);
     r_end := Z.min (entryCount - 1) (currentIndex + bufferSize) |}.

Definition range_eqb (a b : Range) : bool :=
  (r_start a =? r_start b) && (r_end a =? r_end b).

(** ** Rendering *)

Definition createNodeHTML (entry : option Entry) (index : Z) (isActive : bool)
  : Outcome NodeView :=
  match entry with
  | None => Throw TypeError
  | Some e =>
      obind (getColor (typeConfigGet (e_type e))) (fun c =>
      obind (match e_timestamp e with
             | Some t => Ret (slice 5 (beforeSpace t))
             | None => Throw TypeError
             end) (fun d =>
      obind (getLabel (typeConfigGet (e_type e))) (fun l =>
      Ret {| n_index := index; n_active := isActive;
             n_color := interpolate c;
             n_number := d;
             n_title := interpolate l |})))
  end.

Definition createCardHTML (entry : option Entry) (index : Z)
  (isActive isPrev isNext : bool) : Outcome CardView :=
  match entry with
  | None => Throw TypeError
  | Some e =>
      obind (getColor (typeConfigGet (e_type e))) (fun c =>
      obind (getLabel (typeConfigGet (e_type e))) (fun l =>
      obind (match e_files e with
             | Some files => Ret files
             | None => Throw TypeError
             end) (fun files =>
      Ret {| c_index := index; c_active := isActive; c_prev := isPrev;
             c_next := isNext;
             c_number := "#" +:+ interpolate (e_id e);
             c_date := interpolate (e_timestamp e);
             c_color := interpolate c;
             c_label := interpolate l;
             c_title := e_title e;
             c_description := e_description e;
             c_files := files |})))
  end.

(** The [for] loop of [updateRenderedCards] over the indices [idxs]. *)
Fixpoint renderItems (s : State) (idxs : list Z)
  : Outcome (list NodeView * list CardView) :=
  match idxs with
  | [] => Ret ([], [])
  | i :: rest =>
      let entry := entryAt s i in
      let isActive := i =? currentIndex s in
      let isPrev := i =? currentIndex s - 1 in
      let isNext := i =? currentIndex s + 1 in
      obind (createNodeHTML entry i isActive) (fun n =>
      obind (createCardHTML entry i isActive isPrev isNext) (fun c =>
      obind (renderItems s rest) (fun '(ns, cs) =>
      Ret (n :: ns, c :: cs))))
  end.

Definition refreshCard (ci : Z) (c : CardView) : CardView :=
  let a := c_index c =? ci in
  let p := negb a && (c_index c =? ci - 1) in
  let n := negb a && negb p && (c_index c =? ci + 1) in
  {| c_index := c_index c; c_active := a; c_prev := p; c_next := n;
     c_number := c_number c; c_date := c_date c; c_color := c_color c;
     c_label := c_label c; c_title := c_title c;
     c_description := c_description c; c_files := c_files c |}.

Definition refreshNode (ci : Z) (n : NodeView) : NodeView :=
  {| n_index := n_index n; n_active := n_index n =? ci; n_color := n_color n;
     n_number := n_number n; n_title := n_title n |}.

Definition updateCardActiveStates : M unit :=
  ci ← gets currentIndex;
  cards ← gets cardsRow;
  modify (set_cardsRow (refreshCard ci <$> cards));;
  nodes ← gets timelineNodes;
  modify (set_timelineNodes (refreshNode ci <$> nodes)).

Definition updateRenderedCards (forceRerender : bool) : M bool :=
  ci ← gets currentIndex;
  n ← gets entryCount;
  rr ← gets renderedRange;
  let new := computeRange ci CARD_BUFFER n in
  if negb forceRerender && range_eqb new rr then
    updateCardActiveStates;;
    mret false
  else
    modify (set_renderedRange new);;
    s ← gets id;
    '(nodesHTML, cardsHTML) ←
      lift (renderItems s (seqZ (r_start new) (r_end new - r_start new + 1)));
    modify (set_timelineNodes nodesHTML);;
    modify (set_cardsRow cardsHTML);;
    mret true.

(** ** Timers and animation frames *)

(** Queue [task] at [due], after every timer due no later. *)
Fixpoint enqueue (due : Z) (task : TimerTask) (q : list (Z * TimerTask))
  : list (Z * TimerTask) :=
  match q with
  | [] => [(due, task)]
  | (d, t) :: rest =>
      if d <=? due then (d, t) :: enqueue due task rest
      else (due, task) :: (d, t) :: rest
  end.

Definition setTimeout (task : TimerTask) (delay : Z) : M unit :=
  modify (fun s => set_timers (enqueue (now s + delay) task (timers s)) s).

Definition requestAnimationFrame (task : FrameTask) : M unit :=
  modify (fun s => set_frames (frames s ++ [task]) s).

(** ** Header and slider *)

Definition headerEl (el : HeaderEl) (s : State) : TextEl :=
  match el with
  | EntryNumber => entryNumber s
  | EntryType => entryType s
  end.

Definition set_headerEl (el : HeaderEl) (v : TextEl) : State -> State :=
  match el with
  | EntryNumber => set_entryNumber v
  | EntryType => set_entryType v
  end.

(** [element.textContent === newText] *)
Definition sameText (t : string) (newText : option string) : bool :=
  match newText with
  | Some n => String.eqb t n
  | None => false
  end.

Definition animateText (el : HeaderEl) (newText : option string) : M unit :=
  e ← gets (headerEl el);
  if sameText (el_text e) newText then mret tt
  else
    modify (set_headerEl el {| el_text := el_text e; el_shown := false |});;
    setTimeout (SetText el newText) TEXT_MS.

Definition updateUI : M unit :=
  ci ← gets currentIndex;
  s ← gets id;
  let entry := entryAt s ci in
  totalEntries ← gets entryCount;
  animateText EntryNumber (Some (pad3 (ci + 1)));;
  l ← lift (match entry with
            | None => Throw TypeError
            | Some e => getLabel (typeConfigGet (e_type e))
            end);
  animateText EntryType l;;
  modify (set_counterCurrent ("#" +:+ pad3 (ci + 1)));;
  modify (set_prevBtn_disabled (ci =? 0));;
  modify (set_nextBtn_disabled (ci =? totalEntries - 1)).

(** The position, within the rendered strip, of the last card whose
    [data-index] is [ci]; [None] stands for [-1]. *)
Fixpoint findActive (ci : Z) (pos : Z) (cards : list CardView) : option Z :=
  match cards with
  | [] => None
  | c :: rest =>
      match findActive ci (pos + 1) rest with
      | Some p => Some p
      | None => if c_index c =? ci then Some pos else None
      end
  end.

Definition updateSliderPosition (animate : bool) : M unit :=
  cards ← gets cardsRow;
  ci ← gets currentIndex;
  match cards, findActive ci 0 cards with
  | [], _ => mret tt
  | _, None => mret tt
  | _, Some activeCardIndex =>
      w ← gets cardWidth;
      sl ← gets eventsSlider;
      let offset := activeCardIndex * (w + GAP) in
      if negb animate then
        modify (set_eventsSlider
                  {| sl_offset := offset; sl_transitionNone := false;
                     sl_animated := false |})
      else
        modify (set_eventsSlider
                  {| sl_offset := offset;
                     sl_transitionNone := sl_transitionNone sl;
                     sl_animated := negb (sl_transitionNone sl) |})
  end.

(** ** Navigation *)

(** [cards[0]?.offsetWidth || 500] *)
Definition firstCardWidth (s : State) : Z :=
  match cardsRow s with
  | [] => 500
  | _ :: _ => if cardWidth s =? 0 then 500 else cardWidth s
  end.

(** [goToIndex(index)] for an integer [index]. *)
Definition goToIndex (index : Z) : M unit :=
  busy ← gets isAnimating;
  n ← gets entryCount;
  if busy || (index <? 0) || (index >=? n) then mret tt
  else
    modify (set_isAnimating true);;
    modify (set_currentIndex index);;
    rr ← gets renderedRange;
    let isRendered := (index >=? r_start rr) && (index <=? r_end rr) in
    if isRendered then
      updateCardActiveStates;;
      updateSliderPosition true;;
      updateUI;;
      setTimeout SlideDone TRANSITION_MS
    else
      sl ← gets eventsSlider;
      modify (set_eventsSlider
                {| sl_offset := sl_offset sl; sl_transitionNone := true;
                   sl_animated := sl_animated sl |});;
      updateRenderedCards true;;
      w ← gets firstCardWidth;
      modify (set_eventsSlider
                {| sl_offset := (CARD_BUFFER - 1) * (w + GAP);
                   sl_transitionNone := false; sl_animated := false |});;
      requestAnimationFrame JumpFrame;;
      setTimeout JumpDone TRANSITION_MS.

Definition goToPrev : M unit :=
  ci ← gets currentIndex;
  if ci >? 0 then goToIndex (ci - 1) else mret tt.

Definition goToNext : M unit :=
  ci ← gets currentIndex;
  n ← gets entryCount;
  if ci <? n - 1 then goToIndex (ci + 1) else mret tt.

(** ** Callbacks *)

Definition timerCallback (t : TimerTask) : M unit :=
  match t with
  | SetText el newText =>
      modify (set_headerEl el
                {| el_text := textContentOf newText; el_shown := true |})
  | SlideDone =>
      didRerender ← updateRenderedCards false;
      when didRerender (updateSliderPosition false);;
      modify (set_isAnimating false)
  | JumpDone => modify (set_isAnimating false)
  | ResizeSnap => updateSliderPosition false
  end.

Definition frameCallback (t : FrameTask) : M unit :=
  match t with
  | JumpFrame => updateSliderPosition true;; updateUI
  end.

(** A callback run by the event loop: an exception it throws is reported
    and the loop goes on. *)
Definition runCallback (m : M unit) (s : State) : State :=
  match m s with
  | (Ret _, s') => s'
  | (Throw e, s') => set_console (console s' ++ [Uncaught e]) s'
  end.

Definition isDue (t : Z) (p : Z * TimerTask) : bool := fst p <=? t.

(** Let [dt] milliseconds pass: the timers that are due fire in order. *)
Definition advance (dt : Z) (s : State) : State :=
  let t := now s + dt in
  let due := filter (fun p => isDue t p = true) (timers s) in
  let rest := filter (fun p => isDue t p = false) (timers s) in
  foldl (fun st p => runCallback (timerCallback (snd p)) st)
        (set_timers rest (set_now t s)) due.

(** The next animation frame: the queued frame callbacks run in order. *)
Definition runFrames (s : State) : State :=
  foldl (fun st t => runCallback (frameCallback t) st)
        (set_frames [] s) (frames s).

(** ** Start-up *)

Definition bindEvents : M unit := modify (set_listening true).

Definition loadedMessage (n : Z) : Diagnostic :=
  ConsoleLog ("Timeline loaded with " +:+ jsString n
              +:+ " entries (virtual scrolling enabled)").

(** [init].  [initMouseTracking] and [positionRobot] only touch styling and
    are left out; the listeners installed here are those of [dispatch]. *)
Definition init : M unit :=
  n ← gets entryCount;
  modify (set_currentIndex (n - 1));;
  updateRenderedCards false;;
  updateUI;;
  updateSliderPosition false;;
  bindEvents;;
  c ← gets console;
  modify (set_console (c ++ [loadedMessage n])).

Definition noEntries : Diagnostic := ConsoleWarn "No log entries found".

(** The [DOMContentLoaded] handler, resumed with the result of the fetch.
    The decorative background it draws first shares no state with the
    timeline. *)
Definition startup (r : FetchResult) : M unit :=
  loadActivityLog r;;
  n ← gets entryCount;
  if n =? 0 then
    c ← gets console;
    modify (set_console (c ++ [noEntries]))
  else init.

(** ** Input events *)

Inductive Event : Type :=
  | ClickPrev
  | ClickNext
  | ClickNode (index : Z)
  | KeyDown (key : string)
  | TouchStart (screenX : Z)
  | TouchEnd (screenX : Z)
  | Wheel (deltaY : Z)
  | Resize.

Definition isResizeSnap (p : Z * TimerTask) : bool :=
  match snd p with
  | ResizeSnap => true
  | _ => false
  end.

(** The listeners of [bindEvents] and the debounced resize listener of
    [init].  Nothing listens before [init] has run; a disabled button
    receives no click; only a rendered node can be clicked. *)
Definition dispatch (ev : Event) : M unit :=
  on ← gets listening;
  if negb on then mret tt
  else
    match ev return M unit with
    | ClickPrev =>
        d ← gets prevBtn_disabled;
        when (negb d) goToPrev
    | ClickNext =>
        d ← gets nextBtn_disabled;
        when (negb d) goToNext
    | ClickNode index =>
        nodes ← gets timelineNodes;
        if bool_decide (index ∈ n_index <$> nodes) then goToIndex index
        else mret tt
    | KeyDown key =>
        when (String.eqb key "ArrowLeft") goToPrev;;
        when (String.eqb key "ArrowRight") goToNext
    | TouchStart x => modify (set_touchStartX x)
    | TouchEnd x =>
        x0 ← gets touchStartX;
        let diff := x0 - x in
        if Z.abs diff >? 50 then
          if diff >? 0 then goToNext else goToPrev
        else mret tt
    | Wheel deltaY => if deltaY >? 0 then goToNext else goToPrev
    | Resize =>
        q ← gets timers;
        modify (set_timers (filter (fun p => isResizeSnap p = false) q));;
        setTimeout ResizeSnap RESIZE_MS
    end.

(** ** Exported API: [window.TidyBotTimeline] *)

Definition goToFirst : M unit := goToIndex 0.

Definition goToLast : M unit :=
  n ← gets entryCount;
  goToIndex (n - 1).

Definition getCurrentEntry (s : State) : option loc := refAt s (currentIndex s).
Definition getAllEntries (s : State) : list loc := activityLog s.
Definition getEntryCount (s : State) : Z := entryCount s.

(** [addEntry(entry)]: [entry] is a reference to the caller's object, which
    is written to and then pushed. *)
Definition addEntry (entry : loc) : M unit :=
  n ← gets entryCount;
  h ← gets heap;
  modify (set_heap (alter (fun e => withIdStatus e (pad3 (n + 1))) entry h));;
  log ← gets activityLog;
  modify (set_activityLog (log ++ [entry]));;
  n' ← gets entryCount;
  goToIndex (n' - 1).

(** [reload], resumed with the result of the fetch. *)
Definition reload (r : FetchResult) : M unit :=
  loadActivityLog r;;
  n ← gets entryCount;
  modify (set_currentIndex (n - 1));;
  modify (set_renderedRange {| r_start := 0; r_end := 0 |});;
  updateRenderedCards true;;
  updateUI;;
  updateSliderPosition false.

(** The caller creates an entry object. *)
Definition newObject (e : Entry) (s : State) : loc * State :=
  (length (heap s), set_heap (heap s ++ [e]) s).

(** ** Reading results *)

Definition stateOf {A : Type} (r : Outcome A * State) : State := snd r.

Definition returned {A : Type} (r : Outcome A * State) : bool :=
  match fst r with
  | Ret _ => true
  | Throw _ => false
  end.

(** The identifier of the stored entry [i], read as a number. *)
Definition digitValue (c : ascii) : option Z :=
  let n := Z.of_nat (nat_of_ascii c) in
  if (48 <=? n) && (n <=? 57) then Some (n - 48) else None.

Fixpoint parseDigits (acc : Z) (s : string) : option Z :=
  match s with
  | EmptyString => Some acc
  | String c r =>
      match digitValue c with
      | Some d => parseDigits (10 * acc + d) r
      | None => None
      end
  end.

Definition idNumber (e : Entry) : option Z :=
  match e_id e with
  | Some (String c r) => parseDigits 0 (String c r)
  | _ => None
  end.

(** ** Sample data *)

Definition pageLoad (width : Z) : State :=
  {| heap := []; activityLog := []; currentIndex := 0; isAnimating := false;
     renderedRange := {| r_start := 0; r_end := 0 |};
     timelineNodes := []; cardsRow := [];
     eventsSlider := {| sl_offset := 0; sl_transitionNone := false;
                        sl_animated := false |};
     entryNumber := {| el_text := "001"; el_shown := true |};
     entryType := {| el_text := ""; el_shown := true |};
     counterCurrent := "#001";
     prevBtn_disabled := false; nextBtn_disabled := false;
     cardWidth := width; touchStartX := 0; now := 0; timers := []; frames := [];
     console := []; listening := false |}.

Definition rawEntry (ty title : string) : Entry :=
  {| e_timestamp := Some "2024-10-24 09:00"; e_type := ty; e_title := title;
     e_description := "Brief description."; e_files := Some ["package.json"];
     e_id := None; e_status := None |}.

Definition sampleLog (n : nat) : list Entry :=
  (fun i => rawEntry "feature" ("Entry " +:+ jsString (Z.of_nat i))) <$> seq 0 n.

Definition sampleState (n : nat) : State :=
  stateOf (startup (Parsed (JArray (sampleLog n))) (pageLoad 500)).

(** A page that shows one entry, materialized by a [reload]. *)
Definition singlePage : State :=
  stateOf (reload (Parsed (JArray (sampleLog 1))) (sampleState 5)).

Definition otherLog : list Entry := [rawEntry "fix" "Other"].

(** A second [reload] on that page, of another one-entry log, stopped just
    before its call of [updateRenderedCards(true)]. *)
Definition midReload : State :=
  set_renderedRange {| r_start := 0; r_end := 0 |}
    (set_currentIndex 0
       (stateOf (loadActivityLog (Parsed (JArray otherLog)) singlePage))).

(** ** Sessions *)

(** What can happen to a loaded page: time passes, a frame is drawn, an
    input event arrives, or the embedding page calls the exported API
    ([goToIndex] with an integer). *)
Inductive Action : Type :=
  | Elapse (dt : Z)
  | NextFrame
  | Input (ev : Event)
  | CallGoToIndex (index : Z)
  | CallGoToFirst
  | CallGoToLast
  | CallAddEntry (entry : loc)
  | CallReload (r : FetchResult).

Definition perform (a : Action) (s : State) : State :=
  match a with
  | Elapse dt => advance dt s
  | NextFrame => runFrames s
  | Input ev => runCallback (dispatch ev) s
  | CallGoToIndex index => stateOf (goToIndex index s)
  | CallGoToFirst => stateOf (goToFirst s)
  | CallGoToLast => stateOf (goToLast s)
  | CallAddEntry entry => stateOf (addEntry entry s)
  | CallReload r => stateOf (reload r s)
  end.

Definition run (acts : list Action) (s : State) : State :=
  foldl (fun st a => perform a st) s acts.

(** Milliseconds that pass during [a], and during [acts]. *)
Definition duration (a : Action) : Z :=
  match a with
  | Elapse dt => dt
  | _ => 0
  end.

Definition elapsed (acts : list Action) : Z :=
  foldr (fun a t => duration a + t) 0 acts.

Definition forwardInTime (a : Action) : Prop :=
  match a with
  | Elapse dt => 0 <= dt
  | _ => True
  end.

(** Actions that only navigate: neither [addEntry] nor [reload]. *)
Definition navigates (a : Action) : Prop :=
  match a with
  | CallAddEntry _ | CallReload _ => False
  | _ => True
  end.

Definition isTransition (t : TimerTask) : bool :=
  match t with
  | SlideDone | JumpDone => true
  | _ => false
  end.

(** No transition is under way: the guard is down and no end-of-transition
    timer is pending. *)
Definition idle (s : State) : Prop :=
  isAnimating s = false /\
  forall p, p ∈ timers s -> isTransition (snd p) = false.

Definition inWindow (r : Range) (i : Z) : Prop := r_start r <= i <= r_end r.

(** The content of a card and of a node, without the active/prev/next
    flags. *)
Definition cardContent (c : CardView)
  : Z * string * string * string * string * string * string * list string :=
  (c_index c, c_number c, c_date c, c_color c, c_label c, c_title c,
   c_description c, c_files c).

Definition nodeContent (n : NodeView) : Z * string * string * string :=
  (n_index n, n_color n, n_number n, n_title n).

(** The fetch did not yield an array of entries. *)
Definition fetchFailed (r : FetchResult) : bool :=
  match r with
  | Parsed (JArray _) => false
  | _ => true
  end.

(** ** Frame conditions *)

(** A statement [m] respects a relation [R] on states when every run of
    [m], returning or throwing, ends in a state related to its start. *)
Definition respects (R : relation State) {A : Type} (m : M A) : Prop :=
  forall s, R s (snd (m s)).

(** The object store and the array are untouched. *)
Definition sameStore (s s' : State) : Prop :=
  heap s' = heap s /\ activityLog s' = activityLog s.

(** The rendered window is untouched. *)
Definition sameRange (s s' : State) : Prop :=
  renderedRange s' = renderedRange s.

(** Nothing the navigation guard looks at has changed. *)
Definition steady (s s' : State) : Prop :=
  sameStore s s' /\
  currentIndex s' = currentIndex s /\
  isAnimating s' = isAnimating s /\
  now s' = now s /\
  listening s' = listening s.

(** Moreover, any timer that was added is not the end of a transition. *)
Definition quiet (s s' : State) : Prop :=
  steady s s' /\
  forall p, p ∈ timers s' -> p ∈ timers s \/ isTransition (snd p) = false.

(** As [quiet], but a timer due one transition time from now may have
    been added as well. *)
Definition timedQuiet (s s' : State) : Prop :=
  steady s s' /\
  forall p, p ∈ timers s' ->
    p ∈ timers s \/ isTransition (snd p) = false \/ fst p = now s + TRANSITION_MS.

(** The guard and the clock are as before and no end-of-transition timer
    was added; the store may have changed. *)
Definition guardKept (s s' : State) : Prop :=
  isAnimating s' = isAnimating s /\
  now s' = now s /\
  forall p, p ∈ timers s' -> p ∈ timers s \/ isTransition (snd p) = false.

(** While a transition that ends at [T] is under way. *)
Definition transitioningUntil (T : Z) (s : State) : Prop :=
  isAnimating s = true /\
  now s < T /\
  forall p, p ∈ timers s -> isTransition (snd p) = true -> T <= fst p.

(** The window is the one [updateRenderedCards] computes for the current
    index, and that index is in the array. *)
Definition windowCurrent (s : State) : Prop :=
  0 <= currentIndex s < entryCount s /\
  renderedRange s = computeRange (currentIndex s) CARD_BUFFER (entryCount s).

(** [m] never throws. *)
Definition returns {A : Type} (m : M A) : Prop :=
  forall s, returned (m s) = true.

(** [typeConfig[entry.type].label] can be read for the current entry. *)
Definition labelReadable (s : State) : bool :=
  match entryAt s (currentIndex s) with
  | Some e =>
      match typeConfigGet (e_type e) with
      | Undefined => false
      | _ => true
      end
  | None => false
  end.

(** The current index is in the array and in the rendered window. *)
Definition indexInWindow (s : State) : Prop :=
  0 <= currentIndex s < entryCount s /\
  inWindow (renderedRange s) (currentIndex s).

(** The store and the index are untouched, and the index stays in the
    window if it was. *)
Definition keepsFocus (s s' : State) : Prop :=
  sameStore s s' /\
  currentIndex s' = currentIndex s /\
  (indexInWindow s -> indexInWindow s').

(** Time passes or a frame is drawn; nothing is asked of the page. *)
Definition passive (a : Action) : Prop :=
  match a with
  | Elapse _ | NextFrame => True
  | _ => False
  end.

(** The pending timers that end a transition. *)
Definition transitionTimers (s : State) : list (Z * TimerTask) :=
  filter (fun p => isTransition (snd p) = true) (timers s).

Definition sameTransitions (s s' : State) : Prop :=
  transitionTimers s' = transitionTimers s.

(** At most one transition is pending, and none when the guard is down. *)
Definition guarded (s : State) : Prop :=
  (length (transitionTimers s) <= 1)%nat /\
  (isAnimating s = false -> transitionTimers s = []).

Definition guardedStays (s s' : State) : Prop := guarded s -> guarded s'.

(** The globals as the script initialises them (lines 8 and 47-49), before
    anything is scheduled or listened to. *)
Definition scriptStart (s : State) : Prop :=
  activityLog s = [] /\ currentIndex s = 0 /\ isAnimating s = false /\
  renderedRange s = {| r_start := 0; r_end := 0 |} /\
  timers s = [] /\ frames s = [] /\ listening s = false.

(** States a page can be in. *)
Inductive reachable : State -> Prop :=
  | reachable_start (s : State) : scriptStart s -> reachable s
  | reachable_startup (s : State) (r : FetchResult) :
      reachable s -> reachable (stateOf (startup r s))
  | reachable_perform (s : State) (a : Action) :
      reachable s -> reachable (perform a s).

(** ** Rendered strips *)

(** The indices of the window [r], in order. *)
Definition windowIndices (r : Range) : list Z :=
  seqZ (r_start r) (r_end r - r_start r + 1).

(** Both strips hold one item per index of [renderedRange], in order. *)
Definition showsWindow (s : State) : Prop :=
  c_index <$> cardsRow s = windowIndices (renderedRange s) /\
  n_index <$> timelineNodes s = windowIndices (renderedRange s).

(** The strips are what the loop of [updateRenderedCards] would build now
    for [renderedRange]. *)
Definition faithful (s : State) : Prop :=
  renderItems s (windowIndices (renderedRange s)) =
    Ret (timelineNodes s, cardsRow s).

(** [typeConfig[entry.type]] is not [undefined]. *)
Definition typeReadable (entry : option Entry) : bool :=
  match entry with
  | Some e =>
      match typeConfigGet (e_type e) with
      | Undefined => false
      | _ => true
      end
  | None => false
  end.

(** ** Text without markup *)

(** The templates are written to [innerHTML] without escaping.  A text
    that holds none of [<], [&], the null character and the carriage
    return is read back by the HTML parser as that text and nothing
    else. *)
Definition plainChar (c : ascii) : bool :=
  negb (Ascii.eqb c "<" || Ascii.eqb c "&" || Ascii.eqb c "000" || Ascii.eqb c "013").

Fixpoint plain (s : string) : bool :=
  match s with
  | EmptyString => true
  | String c r => plainChar c && plain r
  end.

(** The text of the entry as its author wrote it holds no markup. *)
Definition plainText (e : Entry) : bool :=
  plain (interpolate (e_timestamp e)) && plain (e_title e) &&
  plain (e_description e) && forallb plain (default [] (e_files e)).

(** What the templates print of the entry, its id included, holds no
    markup. *)
Definition plainEntry (entry : option Entry) : bool :=
  match entry with
  | Some e => plain (interpolate (e_id e)) && plainText e
  | None => true
  end.

Definition plainCard (c : CardView) : bool :=
  plain (c_number c) && plain (c_date c) && plain (c_color c) &&
  plain (c_label c) && plain (c_title c) && plain (c_description c) &&
  forallb plain (c_files c).

Definition plainNode (n : NodeView) : bool :=
  plain (n_color n) && plain (n_number n) && plain (n_title n).

(** The entries of the array hold no markup. *)
Definition plainStore (s : State) : Prop :=
  Forall (fun i => plainEntry (entryAt s i) = true) (seqZ 0 (entryCount s)).

(** The strips were written from values without markup, so that the page
    holds exactly one card and one node for each item of the two lists. *)
Definition plainStrips (s : State) : Prop :=
  Forall (fun c => plainCard c = true) (cardsRow s) /\
  Forall (fun n => plainNode n = true) (timelineNodes s).

(** The templates can be evaluated on the entry: its type can be looked
    up and it has a timestamp and files. *)
Definition renderable (entry : option Entry) : bool :=
  typeReadable entry &&
  match entry with
  | Some e => bool_decide (is_Some (e_timestamp e)) && bool_decide (is_Some (e_files e))
  | None => false
  end.

(** Every position of the array refers to an object that can be rendered
    and holds no markup. *)
Definition wellFormed (s : State) : Prop :=
  Forall (fun i => renderable (entryAt s i) && plainEntry (entryAt s i) = true)
         (seqZ 0 (entryCount s)).

(** The store is well formed and the strips hold no markup: the page
    shows the cards and nodes of the two lists and no others. *)
Definition clean (s : State) : Prop := wellFormed s /\ plainStrips s.

Definition staysClean (s s' : State) : Prop := clean s -> clean s'.

(** ** Resting position *)

(** The offset at which the card of the current index sits in the focal
    position: its place in the rendered strip times the stride. *)
Definition restingOffset (s : State) : Z :=
  (currentIndex s - r_start (renderedRange s)) * (cardWidth s + GAP).

(** The slider as [updateSliderPosition] leaves it. *)
Definition sliderAt (offset : Z) (animate : bool) (old : Slider) : Slider :=
  if animate then
    {| sl_offset := offset; sl_transitionNone := sl_transitionNone old;
       sl_animated := negb (sl_transitionNone old) |}
  else
    {| sl_offset := offset; sl_transitionNone := false; sl_animated := false |}.

(** ** Pages in good order *)

(** The store is well formed and the current index is in the array. *)
Definition sound (s : State) : Prop :=
  wellFormed s /\ 0 <= currentIndex s < entryCount s.

(** The strips hold the rendered window, the current index is in it, and
    the slider is at the resting offset of the current card. *)
Definition atRest (s : State) : Prop :=
  showsWindow s /\ inWindow (renderedRange s) (currentIndex s) /\
  sl_offset (eventsSlider s) = restingOffset s.

(** Nothing was written to the console. *)
Definition silent (s s' : State) : Prop := console s' = console s.

(** Neither the strips, the window, the slider nor the layout changed. *)
Definition sameScene (s s' : State) : Prop :=
  cardsRow s' = cardsRow s /\ timelineNodes s' = timelineNodes s /\
  renderedRange s' = renderedRange s /\ eventsSlider s' = eventsSlider s /\
  cardWidth s' = cardWidth s.

(** The layout width of a card is untouched. *)
Definition sameWidth (s s' : State) : Prop := cardWidth s' = cardWidth s.

(** From a well-formed store [m] returns and leaves a well-formed store. *)
Definition safe {A : Type} (m : M A) : Prop :=
  forall s, wellFormed s -> returned (m s) = true /\ wellFormed (snd (m s)).

(** A page in good order stays so and nothing is written to the console. *)
Definition orderly (s s' : State) : Prop :=
  sound s -> sound s' /\ console s' = console s.

(** ** A one-entry page with nothing rendered *)

(** The array holds one entry, which is current, the window is [0..0] and
    both strips are empty. *)
Definition blank (s : State) : Prop :=
  entryCount s = 1 /\ currentIndex s = 0 /\
  renderedRange s = {| r_start := 0; r_end := 0 |} /\
  cardsRow s = [] /\ timelineNodes s = [].

Definition staysBlank (s s' : State) : Prop := blank s -> blank s'.

(** ** Header and controls *)

Definition isSetText (t : TimerTask) : bool :=
  match t with
  | SetText _ _ => true
  | _ => false
  end.

Definition sameEl (a b : HeaderEl) : bool :=
  match a, b with
  | EntryNumber, EntryNumber | EntryType, EntryType => true
  | _, _ => false
  end.

(** The two header texts are untouched. *)
Definition sameHeader (s s' : State) : Prop :=
  entryNumber s' = entryNumber s /\ entryType s' = entryType s.

(** The counter and the two buttons are untouched. *)
Definition sameControls (s s' : State) : Prop :=
  counterCurrent s' = counterCurrent s /\
  prevBtn_disabled s' = prevBtn_disabled s /\
  nextBtn_disabled s' = nextBtn_disabled s.

(** The state [animateText] leaves. *)
Definition textAnimated (el : HeaderEl) (newText : option string) (s : State) : State :=
  if sameText (el_text (headerEl el s)) newText then s
  else set_timers (enqueue (now s + TEXT_MS) (SetText el newText) (timers s))
         (set_headerEl el {| el_text := el_text (headerEl el s); el_shown := false |} s).

(** ** Resizing *)



(** Nothing that places the slider has changed, nor the slider. *)
Definition still (s s' : State) : Prop :=
  sameScene s s' /\ currentIndex s' = currentIndex s /\
  listening s' = listening s /\ isAnimating s' = isAnimating s.


(** ** Timestamps *)

Fixpoint noSpace (s : string) : bool :=
  match s with
  | EmptyString => true
  | String c r => negb (Ascii.eqb c " "%char) && noSpace r
  end.

(** Every character of [s] is an ASCII character: one byte here, one
    unit for JavaScript. *)
Fixpoint isAscii (s : string) : bool :=
  match s with
  | EmptyString => true
  | String c r => (nat_of_ascii c <? 128)%nat && isAscii r
  end.

(** ** Strips *)

(** Both strips hold the same items. *)
Definition sameStrips (s s' : State) : Prop :=
  cardsRow s' = cardsRow s /\ timelineNodes s' = timelineNodes s.

(** * Properties *)

(** ** The monad *)

Lemma bind_unfold {A B : Type} (m : M A) (f : A -> M B) (s : State) :
  (m ≫= f) s =
  match m s with
  | (Ret a, s') => f a s'
  | (Throw e, s') => (Throw e, s')
  end.
Proof. reflexivity. Qed.

Lemma bind_gets {A B : Type} (g : State -> A) (f : A -> M B) (s : State) :
  (gets g ≫= f) s = f (g s) s.
Proof. reflexivity. Qed.

Lemma bind_modify {B : Type} (g : State -> State) (f : unit -> M B) (s : State) :
  (modify g ≫= f) s = f tt (g s).
Proof. reflexivity. Qed.

Lemma only_TypeError (e : JSError) : e = TypeError.
Proof. destruct e. reflexivity. Qed.

Section Frame.
Context (R : relation State) `{!PreOrder R}.

Lemma respects_ret {A : Type} (a : A) : respects R (mret a).
Proof. intros s. simpl. reflexivity. Qed.

Lemma respects_bind {A B : Type} (m : M A) (f : A -> M B) :
  respects R m -> (forall a, respects R (f a)) -> respects R (m ≫= f).
Proof.
  intros Hm Hf s. rewrite bind_unfold. specialize (Hm s).
  destruct (m s) as [[a|e] s']; simpl in *.
  - etransitivity; [exact Hm | apply Hf].
  - exact Hm.
Qed.

Lemma respects_gets {A : Type} (f : State -> A) : respects R (gets f).
Proof. intros s. simpl. reflexivity. Qed.

Lemma respects_lift {A : Type} (o : Outcome A) : respects R (lift o).
Proof. intros s. simpl. reflexivity. Qed.

Lemma respects_modify (f : State -> State) :
  (forall s, R s (f s)) -> respects R (modify f).
Proof. intros H s. simpl. apply H. Qed.

Lemma respects_when (b : bool) (m : M unit) :
  respects R m -> respects R (when b m).
Proof. intros H. destruct b; simpl; [exact H | apply respects_ret]. Qed.

Lemma respects_runCallback (m : M unit) :
  respects R m ->
  (forall s e, R s (set_console (console s ++ [Uncaught e]) s)) ->
  forall s, R s (runCallback m s).
Proof.
  intros Hm Hc s. unfold runCallback. specialize (Hm s).
  destruct (m s) as [[a|e] s']; simpl in *; [exact Hm |].
  etransitivity; [exact Hm | apply Hc].
Qed.

Lemma respects_foldl {T : Type} (f : State -> T -> State) (l : list T) :
  (forall s t, t ∈ l -> R s (f s t)) -> forall s, R s (foldl f s l).
Proof.
  induction l as [|t l IH]; intros H s; simpl; [reflexivity |].
  etransitivity; [apply H; left |].
  apply IH. intros s' t' Ht'. apply H. right. exact Ht'.
Qed.
End Frame.

#[global] Instance sameStore_preorder : PreOrder sameStore.
Proof.
  split; [intros s; split; reflexivity |].
  intros a b c [H1 H2] [H3 H4]; split; congruence.
Qed.

#[global] Instance sameRange_preorder : PreOrder sameRange.
Proof. split; [intros s; reflexivity | intros a b c H1 H2; unfold sameRange in *; congruence]. Qed.

#[global] Instance steady_preorder : PreOrder steady.
Proof.
  split.
  - intros s. unfold steady. repeat split.
  - intros a b c (Hs1 & Hc1 & Ha1 & Hn1 & Hl1) (Hs2 & Hc2 & Ha2 & Hn2 & Hl2).
    unfold steady. split; [etransitivity; eassumption |].
    repeat split; congruence.
Qed.

#[global] Instance quiet_preorder : PreOrder quiet.
Proof.
  split.
  - intros s. split; [reflexivity |]. intros p Hp. left. exact Hp.
  - intros a b c [Hs1 Ht1] [Hs2 Ht2].
    split; [etransitivity; eassumption |].
    intros p Hp. destruct (Ht2 p Hp) as [Hb | Hb]; [apply Ht1, Hb | right; exact Hb].
Qed.

Ltac frame_side :=
  unfold staysClean, clean, plainStrips,
    sameStrips, sameHeader, sameControls, staysBlank, blank, orderly, sound,
    wellFormed, entryCount, entryAt, refAt,
    silent, sameWidth, sameScene, guardedStays, guarded, sameTransitions,
    transitionTimers, timedQuiet, guardKept, quiet, steady, sameStore, sameRange;
  simpl; intuition.

Ltac frame_step :=
  lazymatch goal with
  | |- respects _ (_ ≫= _) => apply respects_bind; [ typeclasses eauto | | intros ? ]
  | |- respects _ (mret _) => apply respects_ret; typeclasses eauto
  | |- respects _ (gets _) => apply respects_gets; typeclasses eauto
  | |- respects _ (lift _) => apply respects_lift; typeclasses eauto
  | |- respects _ (when _ _) => apply respects_when; [ typeclasses eauto | ]
  | |- respects _ (modify _) => solve [apply respects_modify; intros ?; frame_side]
  | |- respects _ (let _ := _ in _) => cbv zeta
  | |- respects _ (if ?b then _ else _) => destruct b
  | |- respects _ (match ?x with _ => _ end) => destruct x
  end.

Create HintDb frame.

Ltac frame := repeat frame_step; eauto with frame.

(** ** Timers *)

Lemma elem_of_enqueue (p : Z * TimerTask) (d : Z) (t : TimerTask) (q : list (Z * TimerTask)) :
  p ∈ enqueue d t q <-> p = (d, t) \/ p ∈ q.
Proof.
  induction q as [|[d' t'] q IH]; simpl.
  - rewrite list_elem_of_singleton. split; [auto | intros [H|H]; [exact H | inversion H]].
  - destruct (d' <=? d).
    + rewrite !elem_of_cons, IH. tauto.
    + rewrite !elem_of_cons. tauto.
Qed.

Lemma setTimeout_quiet (t : TimerTask) (d : Z) :
  isTransition t = false -> respects quiet (setTimeout t d).
Proof.
  intros Ht. unfold setTimeout. apply respects_modify. intros s.
  unfold quiet, steady, sameStore. simpl. repeat split.
  intros p Hp. apply elem_of_enqueue in Hp. destruct Hp as [-> | Hp]; [right; exact Ht | left; exact Hp].
Qed.

Lemma setTimeout_sameStore (t : TimerTask) (d : Z) : respects sameStore (setTimeout t d).
Proof. unfold setTimeout. frame. Qed.

Lemma setTimeout_sameRange (t : TimerTask) (d : Z) : respects sameRange (setTimeout t d).
Proof. unfold setTimeout. frame. Qed.

Lemma setTimeout_steady (t : TimerTask) (d : Z) : respects steady (setTimeout t d).
Proof. unfold setTimeout. frame. Qed.

#[global] Hint Resolve setTimeout_sameStore setTimeout_sameRange setTimeout_steady : frame.

(** ** What rendering and the header leave alone *)

Lemma quiet_steady {A : Type} (m : M A) : respects quiet m -> respects steady m.
Proof. intros H s. apply (H s). Qed.

Lemma steady_sameStore {A : Type} (m : M A) : respects steady m -> respects sameStore m.
Proof. intros H s. apply (H s). Qed.

Lemma set_headerEl_quiet (el : HeaderEl) (v : TextEl) :
  respects quiet (modify (set_headerEl el v)).
Proof. apply respects_modify. intros s. destruct el; frame_side. Qed.

Lemma set_headerEl_sameRange (el : HeaderEl) (v : TextEl) :
  respects sameRange (modify (set_headerEl el v)).
Proof. apply respects_modify. intros s. destruct el; frame_side. Qed.

#[global] Hint Resolve set_headerEl_quiet set_headerEl_sameRange : frame.

Lemma updateCardActiveStates_quiet : respects quiet updateCardActiveStates.
Proof. unfold updateCardActiveStates. frame. Qed.

Lemma updateCardActiveStates_sameRange : respects sameRange updateCardActiveStates.
Proof. unfold updateCardActiveStates. frame. Qed.

Lemma animateText_quiet (el : HeaderEl) (t : option string) :
  respects quiet (animateText el t).
Proof.
  unfold animateText. frame. apply setTimeout_quiet. reflexivity.
Qed.

Lemma animateText_sameRange (el : HeaderEl) (t : option string) :
  respects sameRange (animateText el t).
Proof.
  unfold animateText. frame.
Qed.

#[global] Hint Resolve updateCardActiveStates_quiet updateCardActiveStates_sameRange
  animateText_quiet animateText_sameRange : frame.

Lemma updateUI_quiet : respects quiet updateUI.
Proof. unfold updateUI. frame. Qed.

Lemma updateUI_sameRange : respects sameRange updateUI.
Proof. unfold updateUI. frame. Qed.

Lemma updateSliderPosition_quiet (animate : bool) :
  respects quiet (updateSliderPosition animate).
Proof. unfold updateSliderPosition. frame. Qed.

Lemma updateSliderPosition_sameRange (animate : bool) :
  respects sameRange (updateSliderPosition animate).
Proof. unfold updateSliderPosition. frame. Qed.

Lemma updateRenderedCards_quiet (force : bool) :
  respects quiet (updateRenderedCards force).
Proof. unfold updateRenderedCards. frame. Qed.

#[global] Hint Resolve updateUI_quiet updateUI_sameRange updateSliderPosition_quiet
  updateSliderPosition_sameRange updateRenderedCards_quiet : frame.

(** ** The rendered window *)

Lemma range_eqb_eq (a b : Range) : range_eqb a b = true <-> a = b.
Proof.
  unfold range_eqb. rewrite andb_true_iff, !Z.eqb_eq.
  destruct a, b; simpl. split; [intros [-> ->]; reflexivity | intros H; inversion H; auto].
Qed.

Lemma computeRange_bounds (ci b n : Z) :
  0 <= ci <= n - 1 -> 0 <= b ->
  let r := computeRange ci b n in
  r_start r <= ci <= r_end r /\ 0 <= r_start r /\ r_end r <= n - 1 /\
  r_end r - r_start r <= 2 * b.
Proof. intros Hci Hb. unfold computeRange. simpl. lia. Qed.

(** However [updateRenderedCards] ends, [renderedRange] is then the window
    computed from the current index. *)
Lemma updateRenderedCards_range (force : bool) (s : State) :
  renderedRange (snd (updateRenderedCards force s)) =
  computeRange (currentIndex s) CARD_BUFFER (entryCount s).
Proof.
  unfold updateRenderedCards. rewrite !bind_gets.
  destruct (negb force && range_eqb _ _) eqn:E.
  - apply andb_true_iff in E. destruct E as [_ E]. apply range_eqb_eq in E.
    rewrite bind_unfold.
    pose proof (updateCardActiveStates_sameRange s) as Hr. unfold sameRange in Hr.
    destruct (updateCardActiveStates s) as [[[]|e] s']; simpl in *; congruence.
  - rewrite bind_modify, bind_gets, bind_unfold. unfold lift.
    destruct (renderItems _ _) as [[ns cs]|e]; reflexivity.
Qed.

#[global] Hint Resolve quiet_steady : frame.

(** Splits [R s (snd (m s))] off as a frame condition on [m]. *)
Ltac as_frame :=
  lazymatch goal with
  | |- ?R ?s0 (snd (?m ?s0)) =>
      let H := fresh in
      cut (respects R m); [ intros H; exact (H s0) | ]
  end.

(** ** goToIndex *)

Lemma goToIndex_rejected (s : State) (index : Z) :
  isAnimating s = true \/ index < 0 \/ entryCount s <= index ->
  goToIndex index s = (Ret tt, s).
Proof.
  intros H. unfold goToIndex. rewrite !bind_gets.
  destruct (isAnimating s) eqn:Ea; simpl; [reflexivity |].
  destruct (index <? 0) eqn:E1; simpl; [reflexivity |].
  destruct (index >=? entryCount s) eqn:E2; simpl; [reflexivity |].
  exfalso. destruct H as [H | [H | H]]; [discriminate | lia | lia].
Qed.

Lemma requestAnimationFrame_steady (t : FrameTask) : respects steady (requestAnimationFrame t).
Proof. unfold requestAnimationFrame. frame. Qed.

#[global] Hint Resolve requestAnimationFrame_steady : frame.

(** An accepted request raises the guard and moves the index; whatever
    follows, returning or throwing, keeps both. *)
Lemma goToIndex_accepted (s : State) (index : Z) :
  isAnimating s = false -> 0 <= index < entryCount s ->
  steady (set_currentIndex index (set_isAnimating true s)) (snd (goToIndex index s)).
Proof.
  intros Ha Hi. unfold goToIndex. rewrite !bind_gets. rewrite Ha.
  replace (index <? 0) with false by lia.
  replace (index >=? entryCount s) with false by lia.
  simpl. rewrite !bind_modify.
  as_frame. frame.
Qed.

Lemma goToIndex_accepted_state (s : State) (index : Z) :
  isAnimating s = false -> 0 <= index < entryCount s ->
  let s1 := stateOf (goToIndex index s) in
  isAnimating s1 = true /\ currentIndex s1 = index /\
  heap s1 = heap s /\ activityLog s1 = activityLog s /\ now s1 = now s.
Proof.
  intros Ha Hi.
  destruct (goToIndex_accepted s index Ha Hi) as ([Hh Hl] & Hc & Hf & Hn & _).
  simpl in *. unfold stateOf. auto.
Qed.

(** C1: for a current index inside a non-empty array and a non-negative
    buffer, the window is [max(0, ci - b) .. min(n - 1, ci + b)]; it
    contains the current index, lies inside the array and spans at most
    [2 * b]; and whenever [updateRenderedCards] has run, [renderedRange] is
    that window for the buffer of three, so the same bounds hold for it. *)
Theorem window_after_render (ci b n : Z) :
  0 <= ci <= n - 1 -> 0 <= b -> 1 <= n ->
  computeRange ci b n =
    {| r_start := Z.max 0 (ci - b); r_end := Z.min (n - 1) (ci + b) |} /\
  (let r := computeRange ci b n in
   r_start r <= ci <= r_end r /\ 0 <= r_start r /\ r_end r <= n - 1 /\
   r_end r - r_start r <= 2 * b) /\
  forall (s : State) (force : bool),
    currentIndex s = ci -> entryCount s = n ->
    let s' := stateOf (updateRenderedCards force s) in
    currentIndex s' = ci /\ entryCount s' = n /\
    renderedRange s' = computeRange ci CARD_BUFFER n /\
    r_start (renderedRange s') <= currentIndex s' <= r_end (renderedRange s') /\
    0 <= r_start (renderedRange s') /\ r_end (renderedRange s') <= n - 1 /\
    r_end (renderedRange s') - r_start (renderedRange s') <= 2 * CARD_BUFFER.
Proof.
  intros Hci Hb Hn. split; [reflexivity |]. split; [apply computeRange_bounds; assumption |].
  intros s force Hc He s'.
  destruct (updateRenderedCards_quiet force s) as [([Hh Hl] & Hc' & _) _].
  fold (stateOf (updateRenderedCards force s)) in Hh, Hl, Hc'. fold s' in Hh, Hl, Hc'.
  assert (Hr : renderedRange s' = computeRange ci CARD_BUFFER n).
  { unfold s', stateOf. rewrite updateRenderedCards_range. congruence. }
  assert (He' : entryCount s' = n) by (unfold entryCount in *; congruence).
  rewrite Hr, Hc', Hc. repeat split; try assumption; try reflexivity;
    unfold computeRange, CARD_BUFFER; simpl; lia.
Qed.

Lemma window_after_render_witness :
  (0 <= 4 <= 5 - 1 /\ 0 <= 3 /\ 1 <= 5) /\
  renderedRange (stateOf (updateRenderedCards true (sampleState 5))) =
    {| r_start := 1; r_end := 4 |}.
Proof.
  assert (H1 : 0 <= 4 <= 5 - 1) by lia.
  assert (H2 : 0 <= 3) by lia.
  assert (H3 : 1 <= 5) by lia.
  split; [auto |].
  destruct (window_after_render 4 3 5 H1 H2 H3) as (_ & _ & H).
  destruct (H (sampleState 5) true eq_refl eq_refl) as (_ & _ & Hr & _).
  exact Hr.
Defined.

(** C2: while [isAnimating] is set, [goToIndex] returns at once and leaves
    the whole state as it was: index, window, page, timers and frames.  In
    particular a request made after an accepted one finds the index the
    first request set and starts nothing. *)
Theorem second_request_rejected (s0 : State) (i j : Z) :
  (forall s, isAnimating s = true -> goToIndex j s = (Ret tt, s)) /\
  (isAnimating s0 = false -> 0 <= i < entryCount s0 ->
   let s1 := stateOf (goToIndex i s0) in
   isAnimating s1 = true /\ currentIndex s1 = i /\
   goToIndex j s1 = (Ret tt, s1) /\
   currentIndex (stateOf (goToIndex j s1)) = i /\
   timers (stateOf (goToIndex j s1)) = timers s1 /\
   frames (stateOf (goToIndex j s1)) = frames s1 /\
   eventsSlider (stateOf (goToIndex j s1)) = eventsSlider s1).
Proof.
  split.
  - intros s Hs. apply goToIndex_rejected. left. exact Hs.
  - intros Ha Hi s1.
    destruct (goToIndex_accepted_state s0 i Ha Hi) as (Hf & Hc & _).
    fold s1 in Hf, Hc.
    assert (Hrej : goToIndex j s1 = (Ret tt, s1)) by (apply goToIndex_rejected; left; exact Hf).
    rewrite Hrej. simpl. repeat split; assumption.
Qed.

Lemma second_request_rejected_witness :
  (isAnimating (sampleState 5) = false /\ 0 <= 0 < entryCount (sampleState 5)) /\
  goToIndex 2 (stateOf (goToIndex 0 (sampleState 5))) =
    (Ret tt, stateOf (goToIndex 0 (sampleState 5))).
Proof.
  assert (Ha : isAnimating (sampleState 5) = false) by reflexivity.
  assert (Hi : 0 <= 0 < entryCount (sampleState 5)) by (vm_compute; split; [discriminate | reflexivity]).
  split; [auto |].
  destruct (second_request_rejected (sampleState 5) 0 2) as [_ H].
  destruct (H Ha Hi) as (_ & _ & Hr & _).
  exact Hr.
Defined.

(** C3: on a non-empty array, [goToPrev] at index 0 and [goToNext] at the
    last index return at once and leave the whole state as it was. *)
Theorem boundary_requests_are_noops (s : State) :
  0 < entryCount s ->
  (currentIndex s = 0 -> goToPrev s = (Ret tt, s)) /\
  (currentIndex s = entryCount s - 1 -> goToNext s = (Ret tt, s)).
Proof.
  intros Hn. split; intros Hc.
  - unfold goToPrev. rewrite bind_gets, Hc. reflexivity.
  - unfold goToNext. rewrite !bind_gets, Hc.
    replace (entryCount s - 1 <? entryCount s - 1) with false by lia. reflexivity.
Qed.

Lemma boundary_requests_are_noops_witness :
  (0 < entryCount (sampleState 1) /\ currentIndex (sampleState 1) = 0 /\
   currentIndex (sampleState 1) = entryCount (sampleState 1) - 1) /\
  goToPrev (sampleState 1) = (Ret tt, sampleState 1) /\
  goToNext (sampleState 1) = (Ret tt, sampleState 1).
Proof.
  assert (Hn : 0 < entryCount (sampleState 1)) by reflexivity.
  assert (H0 : currentIndex (sampleState 1) = 0) by reflexivity.
  assert (H1 : currentIndex (sampleState 1) = entryCount (sampleState 1) - 1) by reflexivity.
  split; [auto |].
  destruct (boundary_requests_are_noops (sampleState 1) Hn) as [Hp Hx].
  split; [exact (Hp H0) | exact (Hx H1)].
Defined.

(** ** Skipping the render *)

Lemma refreshCard_flags (ci : Z) (c : CardView) :
  c_active (refreshCard ci c) = (c_index c =? ci) /\
  c_prev (refreshCard ci c) = (c_index c =? ci - 1) /\
  c_next (refreshCard ci c) = (c_index c =? ci + 1).
Proof.
  simpl. split; [reflexivity |].
  destruct (c_index c =? ci) eqn:E1; destruct (c_index c =? ci - 1) eqn:E2;
    destruct (c_index c =? ci + 1) eqn:E3; simpl; split; try reflexivity; lia.
Qed.

Lemma refreshCard_content (ci : Z) (cards : list CardView) :
  cardContent <$> (refreshCard ci <$> cards) = cardContent <$> cards.
Proof. rewrite <- list_fmap_compose. apply list_fmap_ext. intros _ c _. reflexivity. Qed.

Lemma refreshNode_content (ci : Z) (nodes : list NodeView) :
  nodeContent <$> (refreshNode ci <$> nodes) = nodeContent <$> nodes.
Proof. rewrite <- list_fmap_compose. apply list_fmap_ext. intros _ n _. reflexivity. Qed.

Lemma updateRenderedCards_skip (s : State) :
  computeRange (currentIndex s) CARD_BUFFER (entryCount s) = renderedRange s ->
  updateRenderedCards false s =
    (Ret false,
     set_timelineNodes (refreshNode (currentIndex s) <$> timelineNodes s)
       (set_cardsRow (refreshCard (currentIndex s) <$> cardsRow s) s)).
Proof.
  intros Hw. unfold updateRenderedCards. rewrite !bind_gets.
  replace (range_eqb _ (renderedRange s)) with true
    by (symmetry; apply range_eqb_eq; exact Hw).
  reflexivity.
Qed.

Lemma renderable_inv (entry : option Entry) :
  renderable entry = true ->
  exists e t files,
    entry = Some e /\ e_timestamp e = Some t /\ e_files e = Some files /\
    typeConfigGet (e_type e) <> Undefined.
Proof.
  unfold renderable, typeReadable. destruct entry as [e|]; [| discriminate].
  intros H. apply andb_true_iff in H. destruct H as [Ht H].
  apply andb_true_iff in H. destruct H as [H1 H2].
  apply bool_decide_eq_true in H1. apply bool_decide_eq_true in H2.
  destruct H1 as [t Et]. destruct H2 as [files Ef].
  exists e, t, files. repeat split; try assumption.
  intros Hu. rewrite Hu in Ht. discriminate.
Qed.

Lemma renderable_typeReadable (entry : option Entry) :
  renderable entry = true -> typeReadable entry = true.
Proof. unfold renderable. intros H. apply andb_true_iff in H. apply H. Qed.

Lemma createNodeHTML_readable (entry : option Entry) (i : Z) (a : bool) :
  renderable entry = true -> exists n, createNodeHTML entry i a = Ret n.
Proof.
  intros H. destruct (renderable_inv entry H) as (e & t & files & -> & Et & Ef & Hu).
  unfold createNodeHTML. rewrite Et.
  destruct (typeConfigGet (e_type e)); [simpl; eauto | simpl; eauto | contradiction].
Qed.

Lemma createCardHTML_readable (entry : option Entry) (i : Z) (a p n : bool) :
  renderable entry = true -> exists c, createCardHTML entry i a p n = Ret c.
Proof.
  intros H. destruct (renderable_inv entry H) as (e & t & files & -> & Et & Ef & Hu).
  unfold createCardHTML. rewrite Ef.
  destruct (typeConfigGet (e_type e)); [simpl; eauto | simpl; eauto | contradiction].
Qed.

Lemma renderItems_readable (s : State) (idxs : list Z) :
  Forall (fun i => renderable (entryAt s i) = true) idxs ->
  exists ns cs, renderItems s idxs = Ret (ns, cs).
Proof.
  induction 1 as [|i rest Hi _ [ns [cs IH]]]; simpl; [eauto |].
  destruct (createNodeHTML_readable _ i (i =? currentIndex s) Hi) as [n ->].
  destruct (createCardHTML_readable _ i (i =? currentIndex s) (i =? currentIndex s - 1)
              (i =? currentIndex s + 1) Hi) as [c ->].
  simpl. rewrite IH. simpl. eauto.
Qed.

(** The loop reads the array and the current index only. *)
Lemma renderItems_set_renderedRange (w : Range) (s : State) (idxs : list Z) :
  renderItems (set_renderedRange w s) idxs = renderItems s idxs.
Proof.
  induction idxs as [|i rest IH]; [reflexivity |].
  cbn [renderItems]. rewrite IH. reflexivity.
Qed.

(** What a forced [updateRenderedCards] does. *)
Lemma updateRenderedCards_forced (s : State) :
  let w := computeRange (currentIndex s) CARD_BUFFER (entryCount s) in
  updateRenderedCards true s =
    match renderItems s (windowIndices w) with
    | Ret (ns, cs) =>
        (Ret true, set_cardsRow cs (set_timelineNodes ns (set_renderedRange w s)))
    | Throw e => (Throw e, set_renderedRange w s)
    end.
Proof.
  cbv zeta. unfold updateRenderedCards. rewrite !bind_gets. cbn [negb andb].
  rewrite bind_modify, bind_gets, bind_unfold. unfold lift, id, windowIndices.
  rewrite renderItems_set_renderedRange.
  destruct (renderItems _ _) as [[ns cs]|e]; reflexivity.
Qed.

(** C4 (as amended): [computeRange] is a function of its three arguments;
    when the window it gives equals [renderedRange] and no re-render is
    forced, [updateRenderedCards] returns [false], keeps every card and
    node with its content and only recomputes the active/prev/next flags
    from the current index; and a forced [updateRenderedCards] never
    skips, whatever the comparison gives: it sets [renderedRange] to the
    computed window and either replaces both strips by what the loop
    builds for that window and returns [true], which it does whenever every
    entry of the window can be rendered, or throws what the loop throws
    and leaves both strips as they were. *)
Theorem unforced_render_skips_unchanged_window (s : State) :
  (forall ci b n ci' b' n', ci = ci' -> b = b' -> n = n' ->
     computeRange ci b n = computeRange ci' b' n') /\
  (computeRange (currentIndex s) CARD_BUFFER (entryCount s) = renderedRange s ->
   let r := updateRenderedCards false s in
   let ci := currentIndex s in
   fst r = Ret false /\
   stateOf r =
     set_timelineNodes (refreshNode ci <$> timelineNodes s)
       (set_cardsRow (refreshCard ci <$> cardsRow s) s) /\
   renderedRange (stateOf r) = renderedRange s /\
   cardContent <$> cardsRow (stateOf r) = cardContent <$> cardsRow s /\
   nodeContent <$> timelineNodes (stateOf r) = nodeContent <$> timelineNodes s /\
   (forall c, c ∈ cardsRow (stateOf r) ->
      c_active c = (c_index c =? ci) /\ c_prev c = (c_index c =? ci - 1) /\
      c_next c = (c_index c =? ci + 1)) /\
   (forall n, n ∈ timelineNodes (stateOf r) -> n_active n = (n_index n =? ci))) /\
  (let w := computeRange (currentIndex s) CARD_BUFFER (entryCount s) in
   let r := updateRenderedCards true s in
   fst r <> Ret false /\
   renderedRange (stateOf r) = w /\
   (forall ns cs, renderItems s (windowIndices w) = Ret (ns, cs) ->
      r = (Ret true, set_cardsRow cs (set_timelineNodes ns (set_renderedRange w s)))) /\
   (forall err, renderItems s (windowIndices w) = Throw err ->
      r = (Throw err, set_renderedRange w s) /\
      cardsRow (stateOf r) = cardsRow s /\
      timelineNodes (stateOf r) = timelineNodes s) /\
   (Forall (fun i => renderable (entryAt s i) = true) (windowIndices w) ->
    fst r = Ret true)).
Proof.
  split; [intros; subst; reflexivity |]. split.
  - intros Hw. cbv zeta. rewrite (updateRenderedCards_skip s Hw). unfold stateOf. simpl.
    split; [reflexivity |]. split; [reflexivity |]. split; [reflexivity |].
    split; [apply refreshCard_content |]. split; [apply refreshNode_content |].
    split.
    + intros c Hc. apply list_elem_of_fmap in Hc. destruct Hc as (c0 & -> & _).
      apply (refreshCard_flags (currentIndex s) c0).
    + intros n Hn. apply list_elem_of_fmap in Hn. destruct Hn as (n0 & -> & _).
      reflexivity.
  - cbv zeta. pose proof (updateRenderedCards_forced s) as Hf. cbv zeta in Hf.
    set (w := computeRange (currentIndex s) CARD_BUFFER (entryCount s)) in *.
    rewrite Hf. clear Hf. unfold stateOf.
    split; [destruct (renderItems s (windowIndices w)) as [[ns cs]|e]; discriminate |].
    split; [destruct (renderItems s (windowIndices w)) as [[ns cs]|e]; reflexivity |].
    split; [intros ns cs E; rewrite E; reflexivity |].
    split; [intros err E; rewrite E; repeat split |].
    intros Hall. destruct (renderItems_readable s (windowIndices w) Hall) as (ns & cs & E).
    rewrite E. reflexivity.
Qed.

Lemma unforced_render_skips_unchanged_window_witness :
  computeRange (currentIndex (sampleState 5)) CARD_BUFFER (entryCount (sampleState 5)) =
    renderedRange (sampleState 5) /\
  fst (updateRenderedCards false (sampleState 5)) = Ret false.
Proof.
  assert (Hw : computeRange (currentIndex (sampleState 5)) CARD_BUFFER
                 (entryCount (sampleState 5)) = renderedRange (sampleState 5))
    by reflexivity.
  split; [exact Hw |].
  destruct (unforced_render_skips_unchanged_window (sampleState 5)) as (_ & Hskip & _).
  destruct (Hskip Hw) as (Hr & _).
  exact Hr.
Defined.

(** C4, as stated, fails when the re-render is forced: a page shows the
    window [0..0]; inside a [reload] of another one-entry log the computed
    window is again [0..0] and equals [renderedRange], yet
    [updateRenderedCards] reports a re-render and replaces the card. *)
Lemma forced_render_despite_unchanged_window :
  renderedRange singlePage = {| r_start := 0; r_end := 0 |} /\
  c_title <$> cardsRow singlePage = ["Entry 0"] /\
  reload (Parsed (JArray otherLog)) singlePage =
    (updateRenderedCards true ≫= fun _ =>
     updateUI ≫= fun _ => updateSliderPosition false) midReload /\
  computeRange (currentIndex midReload) CARD_BUFFER (entryCount midReload) =
    renderedRange midReload /\
  renderedRange midReload = renderedRange singlePage /\
  fst (updateRenderedCards true midReload) = Ret true /\
  c_title <$> cardsRow midReload = ["Entry 0"] /\
  c_title <$> cardsRow (stateOf (updateRenderedCards true midReload)) = ["Other"].
Proof.
  split; [vm_compute; reflexivity |].
  split; [vm_compute; reflexivity |].
  split; [vm_compute; reflexivity |].
  split; [vm_compute; reflexivity |].
  split; [vm_compute; reflexivity |].
  split; [vm_compute; reflexivity |].
  split; vm_compute; reflexivity.
Qed.

(** The spec's scenario: five entries, started at the newest; the window
    is [1..4], and a request for index 0, outside it, materializes
    [0..3]. *)
Example five_entries_scenario :
  renderedRange (sampleState 5) = {| r_start := 1; r_end := 4 |} /\
  renderedRange (stateOf (goToIndex 0 (sampleState 5))) = {| r_start := 0; r_end := 3 |} /\
  currentIndex (advance TRANSITION_MS (runFrames (stateOf (goToIndex 0 (sampleState 5))))) = 0 /\
  isAnimating (advance TRANSITION_MS (runFrames (stateOf (goToIndex 0 (sampleState 5))))) = false.
Proof.
  split; [vm_compute; reflexivity |].
  split; [vm_compute; reflexivity |].
  split; vm_compute; reflexivity.
Qed.

(** The comparison also skips the first render of a one-entry log:
    [renderedRange] starts as [0..0], which is the window [init] computes,
    so no card is materialized. *)
Example one_entry_log_is_not_rendered :
  returned (startup (Parsed (JArray (sampleLog 1))) (pageLoad 500)) = true /\
  getEntryCount (sampleState 1) = 1 /\
  cardsRow (sampleState 1) = [] /\ timelineNodes (sampleState 1) = [].
Proof.
  split; [vm_compute; reflexivity |].
  split; [vm_compute; reflexivity |].
  split; vm_compute; reflexivity.
Qed.

(** ** Loading *)

Lemma goToIndex_empty (s : State) (j : Z) :
  activityLog s = [] -> goToIndex j s = (Ret tt, s).
Proof.
  intros He. apply goToIndex_rejected. unfold entryCount. rewrite He. simpl. lia.
Qed.

Lemma loadActivityLog_failed (r : FetchResult) (s : State) :
  fetchFailed r = true ->
  loadActivityLog r s =
    (Ret [], set_activityLog [] (set_console (console s ++ [loadFailed]) s)).
Proof. destruct r as [| |[entries|]]; simpl; intros H; [reflexivity | reflexivity | discriminate | reflexivity]. Qed.

(** C5: when the fetch is rejected, the body is not JSON or the parsed
    value is not an array, [loadActivityLog] returns (it does not throw)
    the empty array, which is then the store, after reporting the failure
    on the console; the start-up handler then warns that there are no
    entries and returns without running [init]: no listener is installed,
    the page is untouched, and every navigation request is a no-op. *)
Theorem failed_load_is_soft (r : FetchResult) (s : State) :
  fetchFailed r = true ->
  let l := loadActivityLog r s in
  let s' := stateOf (startup r s) in
  fst l = Ret [] /\
  activityLog (stateOf l) = [] /\
  console (stateOf l) = console s ++ [loadFailed] /\
  startup r s =
    (Ret tt,
     set_console ((console s ++ [loadFailed]) ++ [noEntries]) (set_activityLog [] s)) /\
  getEntryCount s' = 0 /\
  listening s' = listening s /\
  (forall j, goToIndex j s' = (Ret tt, s')) /\
  goToFirst s' = (Ret tt, s') /\
  goToLast s' = (Ret tt, s') /\
  (listening s = false -> forall ev, dispatch ev s' = (Ret tt, s')).
Proof.
  intros Hf.
  assert (Hs : startup r s =
    (Ret tt,
     set_console ((console s ++ [loadFailed]) ++ [noEntries]) (set_activityLog [] s))).
  { unfold startup. rewrite bind_unfold, (loadActivityLog_failed r s Hf). reflexivity. }
  cbv zeta. rewrite (loadActivityLog_failed r s Hf), Hs. unfold stateOf. simpl.
  repeat split; try reflexivity.
  - intros j. apply goToIndex_empty. reflexivity.
  - apply goToIndex_empty. reflexivity.
  - unfold goToLast. rewrite bind_gets. apply goToIndex_empty. reflexivity.
  - intros Hl ev. unfold dispatch. rewrite bind_gets. simpl. rewrite Hl. reflexivity.
Qed.

Lemma failed_load_is_soft_witness :
  fetchFailed JsonRejected = true /\
  startup JsonRejected (pageLoad 500) =
    (Ret tt,
     set_console [loadFailed; noEntries] (set_activityLog [] (pageLoad 500))).
Proof.
  assert (Hf : fetchFailed JsonRejected = true) by reflexivity.
  split; [exact Hf |].
  destruct (failed_load_is_soft JsonRejected (pageLoad 500) Hf) as (_ & _ & _ & Hs & _).
  exact Hs.
Defined.

(** ** Type registry lookups *)

Lemma typeConfigGet_undefined (k : string) :
  ownProperty k typeConfig = None -> k ∉ objectPrototypeKeys ->
  typeConfigGet k = Undefined.
Proof.
  intros Ho Hk. unfold typeConfigGet. rewrite Ho.
  rewrite bool_decide_eq_false_2 by exact Hk. reflexivity.
Qed.

Lemma createNodeHTML_undefined (e : Entry) (i : Z) (a : bool) :
  typeConfigGet (e_type e) = Undefined -> createNodeHTML (Some e) i a = Throw TypeError.
Proof. intros H. unfold createNodeHTML. rewrite H. reflexivity. Qed.

Lemma createCardHTML_undefined (e : Entry) (i : Z) (a p n : bool) :
  typeConfigGet (e_type e) = Undefined -> createCardHTML (Some e) i a p n = Throw TypeError.
Proof. intros H. unfold createCardHTML. rewrite H. reflexivity. Qed.

(** The loop stops at the first item that throws. *)
Lemma renderItems_throws (s : State) (idxs : list Z) (k : Z) :
  k ∈ idxs ->
  createNodeHTML (entryAt s k) k (k =? currentIndex s) = Throw TypeError ->
  renderItems s idxs = Throw TypeError.
Proof.
  intros Hk Hthrow. induction idxs as [|i rest IH]; [inversion Hk |].
  apply elem_of_cons in Hk. simpl. destruct Hk as [<- | Hk].
  - rewrite Hthrow. reflexivity.
  - destruct (createNodeHTML (entryAt s i) i (i =? currentIndex s)) as [n|e]; simpl;
      [| rewrite (only_TypeError e); reflexivity].
    destruct (createCardHTML _ _ _ _ _) as [c|e]; simpl;
      [| rewrite (only_TypeError e); reflexivity].
    rewrite (IH Hk). reflexivity.
Qed.

(** The names every object inherits are not keys of [typeConfig]. *)
Lemma typeConfigGet_inherited (k : string) :
  k ∈ objectPrototypeKeys -> typeConfigGet k = Inherited.
Proof.
  intros Hk. unfold objectPrototypeKeys in Hk.
  repeat (apply elem_of_cons in Hk; destruct Hk as [-> | Hk]; [reflexivity |]).
  inversion Hk.
Qed.

(** C6 (as amended): for an entry whose [type] is not a key of
    [typeConfig]: if the type is not a property name inherited from
    [Object.prototype] either, [createNodeHTML] and [createCardHTML] throw
    a [TypeError], and a forced render whose window holds such an entry
    throws it and leaves both strips as they were; if the type is such an
    inherited name, the lookup gives the inherited value and nothing
    throws on it: the node of an entry that has a timestamp and the card
    of an entry that has files are built with the colour and the label
    ["undefined"] (without the timestamp, or without the files, reading
    the missing field throws).  ["unknown"] is a type of the first kind,
    and the registry gives ["feature"] the label ["Feature"]. *)
Theorem unregistered_type_throws (e : Entry) :
  ownProperty (e_type e) typeConfig = None ->
  (e_type e ∉ objectPrototypeKeys ->
   (forall i a, createNodeHTML (Some e) i a = Throw TypeError) /\
   (forall i a p n, createCardHTML (Some e) i a p n = Throw TypeError) /\
   (forall (s : State) (k : Z),
      entryAt s k = Some e ->
      inWindow (computeRange (currentIndex s) CARD_BUFFER (entryCount s)) k ->
      let r := updateRenderedCards true s in
      fst r = Throw TypeError /\
      cardsRow (stateOf r) = cardsRow s /\
      timelineNodes (stateOf r) = timelineNodes s)) /\
  (e_type e ∈ objectPrototypeKeys ->
   typeConfigGet (e_type e) = Inherited /\
   (forall t i a, e_timestamp e = Some t ->
      createNodeHTML (Some e) i a =
        Ret {| n_index := i; n_active := a; n_color := "undefined";
               n_number := slice 5 (beforeSpace t); n_title := "undefined" |}) /\
   (forall files i a p n, e_files e = Some files ->
      createCardHTML (Some e) i a p n =
        Ret {| c_index := i; c_active := a; c_prev := p; c_next := n;
               c_number := "#" +:+ interpolate (e_id e);
               c_date := interpolate (e_timestamp e);
               c_color := "undefined"; c_label := "undefined";
               c_title := e_title e; c_description := e_description e;
               c_files := files |}) /\
   (forall i a, e_timestamp e = None -> createNodeHTML (Some e) i a = Throw TypeError) /\
   (forall i a p n, e_files e = None -> createCardHTML (Some e) i a p n = Throw TypeError)) /\
  typeConfigGet "unknown" = Undefined /\
  getLabel (typeConfigGet "feature") = Ret (Some "Feature").
Proof.
  intros Ho. split; [| split; [| split; reflexivity]].
  - intros Hk.
    pose proof (typeConfigGet_undefined _ Ho Hk) as Hu.
    split; [intros; apply createNodeHTML_undefined; exact Hu |].
    split; [intros; apply createCardHTML_undefined; exact Hu |].
    intros s k He [Hlo Hhi].
    unfold updateRenderedCards. rewrite !bind_gets. cbn [negb andb].
    rewrite bind_modify, bind_gets, bind_unfold. unfold lift, id.
    set (w := computeRange (currentIndex s) CARD_BUFFER (entryCount s)) in *.
    rewrite (renderItems_throws (set_renderedRange w s)
               (seqZ (r_start w) (r_end w - r_start w + 1)) k).
    + simpl. repeat split.
    + apply elem_of_seqZ. lia.
    + change (entryAt (set_renderedRange w s) k) with (entryAt s k). rewrite He.
      apply createNodeHTML_undefined. exact Hu.
  - intros Hk. pose proof (typeConfigGet_inherited _ Hk) as Hi.
    split; [exact Hi |].
    split; [intros t i a Et; unfold createNodeHTML; rewrite Hi, Et; reflexivity |].
    split; [intros files i a p n Ef; unfold createCardHTML; rewrite Hi, Ef; reflexivity |].
    split; [intros i a Et; unfold createNodeHTML; rewrite Hi, Et; reflexivity |].
    intros i a p n Ef. unfold createCardHTML. rewrite Hi, Ef. reflexivity.
Qed.

Lemma unregistered_type_throws_witness :
  (ownProperty (e_type (rawEntry "unknown" "t")) typeConfig = None /\
   e_type (rawEntry "unknown" "t") ∉ objectPrototypeKeys) /\
  createNodeHTML (Some (rawEntry "unknown" "t")) 0 true = Throw TypeError.
Proof.
  assert (Ho : ownProperty (e_type (rawEntry "unknown" "t")) typeConfig = None)
    by reflexivity.
  assert (Hk : e_type (rawEntry "unknown" "t") ∉ objectPrototypeKeys)
    by (apply (bool_decide_eq_false_1 (_ ∈ _)); vm_compute; reflexivity).
  split; [auto |].
  destruct (unregistered_type_throws (rawEntry "unknown" "t") Ho) as (Hthrow & _).
  destruct (Hthrow Hk) as (Hn & _).
  exact (Hn 0 true).
Defined.

(** C6, as stated, fails for a type that misses the registry but names a
    property every object inherits: the lookup yields that inherited value,
    nothing throws, and the node is rendered with the label and colour
    "undefined". *)
Lemma inherited_type_renders_undefined :
  ownProperty "constructor" typeConfig = None /\
  createNodeHTML (Some (rawEntry "constructor" "t")) 0 true =
    Ret {| n_index := 0; n_active := true; n_color := "undefined";
           n_number := "10-24"; n_title := "undefined" |} /\
  returned (startup (Parsed (JArray [rawEntry "constructor" "t"; rawEntry "constructor" "u"]))
              (pageLoad 500)) = true.
Proof.
  split; [vm_compute; reflexivity |].
  split; vm_compute; reflexivity.
Qed.

(** ** Statements that never throw *)

Lemma returns_ret {A : Type} (a : A) : returns (mret a).
Proof. intros s. reflexivity. Qed.

Lemma returns_gets {A : Type} (f : State -> A) : returns (gets f).
Proof. intros s. reflexivity. Qed.

Lemma returns_modify (f : State -> State) : returns (modify f).
Proof. intros s. reflexivity. Qed.

Lemma returns_bind {A B : Type} (m : M A) (f : A -> M B) :
  returns m -> (forall a, returns (f a)) -> returns (m ≫= f).
Proof.
  intros Hm Hf s. rewrite bind_unfold. specialize (Hm s).
  destruct (m s) as [[a|e] s']; [apply Hf | discriminate].
Qed.

Lemma returns_when (b : bool) (m : M unit) : returns m -> returns (when b m).
Proof. intros H. destruct b; [exact H | apply returns_ret]. Qed.

Create HintDb total.

Ltac total_step :=
  lazymatch goal with
  | |- returns (_ ≫= _) => apply returns_bind; [ | intros ? ]
  | |- returns (mret _) => apply returns_ret
  | |- returns (gets _) => apply returns_gets
  | |- returns (modify _) => apply returns_modify
  | |- returns (when _ _) => apply returns_when
  | |- returns (let _ := _ in _) => cbv zeta
  | |- returns (if ?b then _ else _) => destruct b
  | |- returns (match ?x with _ => _ end) => destruct x
  end.

Ltac total := repeat total_step; eauto with total.

Lemma setTimeout_returns (t : TimerTask) (d : Z) : returns (setTimeout t d).
Proof. unfold setTimeout. total. Qed.

Lemma requestAnimationFrame_returns (t : FrameTask) : returns (requestAnimationFrame t).
Proof. unfold requestAnimationFrame. total. Qed.

Lemma updateCardActiveStates_returns : returns updateCardActiveStates.
Proof. unfold updateCardActiveStates. total. Qed.

#[global] Hint Resolve setTimeout_returns requestAnimationFrame_returns
  updateCardActiveStates_returns : total.

Lemma animateText_returns (el : HeaderEl) (t : option string) : returns (animateText el t).
Proof. unfold animateText. total. Qed.

Lemma updateSliderPosition_returns (animate : bool) : returns (updateSliderPosition animate).
Proof. unfold updateSliderPosition. total. Qed.

#[global] Hint Resolve animateText_returns updateSliderPosition_returns : total.

(** A statement that never throws can be stepped over. *)
Lemma bind_returns {B : Type} (m : M unit) (f : unit -> M B) (s : State) :
  returns m -> (m ≫= f) s = f tt (snd (m s)).
Proof.
  intros Hm. rewrite bind_unfold. specialize (Hm s).
  destruct (m s) as [[[]|e] s']; [reflexivity | discriminate].
Qed.

Lemma bind_ret_inv {A B : Type} (m : M A) (f : A -> M B) (s s2 : State) (b : B) :
  (m ≫= f) s = (Ret b, s2) ->
  exists a s1, m s = (Ret a, s1) /\ f a s1 = (Ret b, s2).
Proof.
  rewrite bind_unfold. destruct (m s) as [[a|e] s1]; intros H; [| discriminate].
  exists a, s1. auto.
Qed.

Lemma labelReadable_steady (s s' : State) :
  steady s s' -> labelReadable s' = labelReadable s.
Proof.
  intros ([Hh Hl] & Hc & _). unfold labelReadable, entryAt, refAt.
  rewrite Hh, Hl, Hc. reflexivity.
Qed.

(** [updateUI] throws exactly when the label of the current entry cannot
    be read. *)
Lemma updateUI_returned (s : State) : returned (updateUI s) = labelReadable s.
Proof.
  unfold updateUI. rewrite !bind_gets. unfold id.
  rewrite (bind_returns _ _ _ (animateText_returns _ _)).
  rewrite bind_unfold. unfold lift, labelReadable.
  destruct (entryAt s (currentIndex s)) as [e|]; [| reflexivity].
  destruct (typeConfigGet (e_type e)); simpl; [| | reflexivity].
  - rewrite (bind_returns _ _ _ (animateText_returns _ _)). reflexivity.
  - rewrite (bind_returns _ _ _ (animateText_returns _ _)). reflexivity.
Qed.

(** ** The two cases of goToIndex *)

Lemma goToIndex_slide (s : State) (index : Z) :
  isAnimating s = false -> 0 <= index < entryCount s ->
  inWindow (renderedRange s) index ->
  goToIndex index s =
    (updateCardActiveStates ≫= fun _ =>
     updateSliderPosition true ≫= fun _ =>
     updateUI ≫= fun _ =>
     setTimeout SlideDone TRANSITION_MS)
      (set_currentIndex index (set_isAnimating true s)).
Proof.
  intros Ha Hi [Hlo Hhi]. unfold goToIndex. rewrite !bind_gets, Ha.
  replace (index <? 0) with false by lia.
  replace (index >=? entryCount s) with false by lia.
  cbn [orb]. rewrite !bind_modify, bind_gets.
  change (renderedRange (set_currentIndex index (set_isAnimating true s)))
    with (renderedRange s).
  replace (index >=? r_start (renderedRange s)) with true by lia.
  replace (index <=? r_end (renderedRange s)) with true by lia.
  reflexivity.
Qed.

Lemma goToIndex_slide_state (s : State) (index : Z) :
  isAnimating s = false -> 0 <= index < entryCount s ->
  inWindow (renderedRange s) index ->
  let r := goToIndex index s in
  returned r = labelReadable (set_currentIndex index s) /\
  renderedRange (stateOf r) = renderedRange s /\
  (returned r = true ->
   (now s + TRANSITION_MS, SlideDone) ∈ timers (stateOf r)).
Proof.
  intros Ha Hi Hw. cbv zeta. rewrite (goToIndex_slide s index Ha Hi Hw).
  set (s0 := set_currentIndex index (set_isAnimating true s)).
  rewrite (bind_returns _ _ _ updateCardActiveStates_returns).
  rewrite (bind_returns _ _ _ (updateSliderPosition_returns true)).
  set (sa := snd (updateCardActiveStates s0)).
  set (sb := snd (updateSliderPosition true sa)).
  assert (Hq : steady s0 sb).
  { etransitivity; [apply (updateCardActiveStates_quiet s0) | apply (updateSliderPosition_quiet true sa)]. }
  assert (Hr : sameRange s0 sb).
  { etransitivity; [apply (updateCardActiveStates_sameRange s0) | apply (updateSliderPosition_sameRange true sa)]. }
  pose proof (updateUI_returned sb) as Hu.
  pose proof (updateUI_quiet sb) as [Hqu _].
  pose proof (updateUI_sameRange sb) as Hru.
  rewrite (labelReadable_steady _ _ Hq) in Hu.
  rewrite bind_unfold. destruct (updateUI sb) as [[[]|e] sc]; simpl in *.
  - split; [transitivity (labelReadable s0); [rewrite <- Hu |]; reflexivity |].
    unfold sameRange in *. split; [etransitivity; [exact Hru | exact Hr] |].
    intros _. apply elem_of_enqueue. left.
    destruct Hq as (_ & _ & _ & Hn & _). destruct Hqu as (_ & _ & _ & Hn' & _).
    f_equal. rewrite Hn', Hn. reflexivity.
  - split; [transitivity (labelReadable s0); [rewrite <- Hu |]; reflexivity |].
    unfold sameRange in *. split; [etransitivity; [exact Hru | exact Hr] | discriminate].
Qed.

(** ** Loading an array and reloading *)

Lemma loadActivityLog_array (entries : list Entry) (s : State) :
  loadActivityLog (Parsed (JArray entries)) s =
    (Ret (seq (length (heap s)) (length entries)),
     set_activityLog (seq (length (heap s)) (length entries))
       (set_heap (heap s ++ assignIds entries) s)).
Proof. reflexivity. Qed.

Lemma length_assignIds (entries : list Entry) : length (assignIds entries) = length entries.
Proof. unfold assignIds. apply length_imap. Qed.

Lemma lookup_assignIds (entries : list Entry) (i : nat) :
  assignIds entries !! i =
  (fun e => withIdStatus e (pad3 (Z.of_nat i + 1))) <$> entries !! i.
Proof. unfold assignIds. apply list_lookup_imap. Qed.

(** After a load, position [i] of the array refers to the [i]-th new
    object. *)
Lemma entryAt_loaded (s : State) (h : list Entry) (entries : list Entry) (i : nat) :
  heap s = h ++ assignIds entries ->
  activityLog s = seq (length h) (length entries) ->
  entryAt s (Z.of_nat i) = assignIds entries !! i.
Proof.
  intros Hh Hl. unfold entryAt, refAt.
  destruct (Z.ltb_spec (Z.of_nat i) 0) as [Hneg | _]; [lia |].
  rewrite Nat2Z.id, Hl, Hh.
  destruct (decide (i < length entries)%nat) as [Hi | Hi].
  - rewrite lookup_seq_lt by exact Hi. simpl.
    rewrite lookup_app_r by lia. f_equal. lia.
  - rewrite lookup_seq_ge by lia. simpl. symmetry.
    apply lookup_ge_None. rewrite length_assignIds. lia.
Qed.

Lemma reload_array_state (entries : list Entry) (s s1 : State) :
  reload (Parsed (JArray entries)) s = (Ret tt, s1) ->
  let n := Z.of_nat (length entries) in
  heap s1 = heap s ++ assignIds entries /\
  activityLog s1 = seq (length (heap s)) (length entries) /\
  currentIndex s1 = n - 1 /\
  renderedRange s1 = computeRange (n - 1) CARD_BUFFER n /\
  labelReadable s1 = true /\
  isAnimating s1 = isAnimating s.
Proof.
  intros Hr n. unfold reload in Hr.
  rewrite bind_unfold, loadActivityLog_array in Hr.
  rewrite bind_gets, !bind_modify in Hr.
  set (sb := set_renderedRange _ _) in Hr.
  apply bind_ret_inv in Hr. destruct Hr as (d & sc & Hrender & Hr).
  apply bind_ret_inv in Hr. destruct Hr as ([] & sd & Hui & Hslide).
  pose proof (updateRenderedCards_quiet true sb) as [Hq1 _].
  pose proof (updateRenderedCards_range true sb) as Hw.
  rewrite Hrender in Hq1, Hw. simpl in Hq1, Hw.
  pose proof (updateUI_quiet sc) as [Hq2 _].
  pose proof (updateUI_sameRange sc) as Hr2.
  pose proof (updateUI_returned sc) as Hl2.
  rewrite Hui in Hq2, Hr2, Hl2. simpl in Hq2, Hr2, Hl2.
  pose proof (updateSliderPosition_quiet false sd) as [Hq3 _].
  pose proof (updateSliderPosition_sameRange false sd) as Hr3.
  rewrite Hslide in Hq3, Hr3. simpl in Hq3, Hr3.
  assert (Hq : steady sb s1) by (etransitivity; [exact Hq1 | etransitivity; eassumption]).
  assert (Hn : entryCount sb = n).
  { unfold entryCount, sb. simpl. rewrite length_seq. reflexivity. }
  destruct Hq as ([Hh Hlog] & Hc & Ha & _).
  split; [exact Hh |]. split; [exact Hlog |].
  split; [rewrite Hc; unfold sb; simpl; fold (entryCount s); unfold entryCount; simpl;
          rewrite length_seq; reflexivity |].
  split.
  - unfold sameRange in *. rewrite Hr3, Hr2, Hw, Hn. f_equal.
    unfold sb. simpl. unfold entryCount. simpl. rewrite length_seq. reflexivity.
  - split; [| exact Ha].
    rewrite (labelReadable_steady sc s1) by (etransitivity; eassumption).
    symmetry. exact Hl2.
Qed.

(** ** What navigation leaves in the store *)

#[global] Hint Resolve steady_sameStore : frame.

Lemma goToIndex_sameStore (index : Z) : respects sameStore (goToIndex index).
Proof. unfold goToIndex. frame. Qed.

#[global] Hint Resolve goToIndex_sameStore : frame.

Lemma goToPrev_sameStore : respects sameStore goToPrev.
Proof. unfold goToPrev. frame. Qed.

Lemma goToNext_sameStore : respects sameStore goToNext.
Proof. unfold goToNext. frame. Qed.

#[global] Hint Resolve goToPrev_sameStore goToNext_sameStore : frame.

Lemma dispatch_sameStore (ev : Event) : respects sameStore (dispatch ev).
Proof. unfold dispatch. frame. Qed.

Lemma timerCallback_sameStore (t : TimerTask) : respects sameStore (timerCallback t).
Proof.
  unfold timerCallback. frame.
Qed.

Lemma frameCallback_sameStore (t : FrameTask) : respects sameStore (frameCallback t).
Proof. unfold frameCallback. frame. Qed.

Lemma uncaught_sameStore (s : State) (e : JSError) :
  sameStore s (set_console (console s ++ [Uncaught e]) s).
Proof. split; reflexivity. Qed.

Lemma advance_sameStore (dt : Z) (s : State) : sameStore s (advance dt s).
Proof.
  unfold advance.
  match goal with
  | |- sameStore s (foldl _ ?s0 _) => transitivity s0; [split; reflexivity |]
  end.
  apply (respects_foldl sameStore). intros st p _.
  apply (respects_runCallback sameStore);
    [apply timerCallback_sameStore | apply uncaught_sameStore].
Qed.

Lemma runFrames_sameStore (s : State) : sameStore s (runFrames s).
Proof.
  unfold runFrames.
  match goal with
  | |- sameStore s (foldl _ ?s0 _) => transitivity s0; [split; reflexivity |]
  end.
  apply (respects_foldl sameStore). intros st p _.
  apply (respects_runCallback sameStore);
    [apply frameCallback_sameStore | apply uncaught_sameStore].
Qed.

Lemma perform_sameStore (a : Action) (s : State) :
  navigates a -> sameStore s (perform a s).
Proof.
  destruct a; simpl; intros Hn; try contradiction.
  - apply advance_sameStore.
  - apply runFrames_sameStore.
  - apply (respects_runCallback sameStore);
      [apply dispatch_sameStore | apply uncaught_sameStore].
  - apply goToIndex_sameStore.
  - apply goToIndex_sameStore.
  - unfold goToLast, stateOf. as_frame. frame.
Qed.

Lemma run_sameStore (acts : list Action) (s : State) :
  Forall navigates acts -> sameStore s (run acts s).
Proof.
  intros H. revert s. induction H as [|a acts Ha _ IH]; intros s; simpl.
  - reflexivity.
  - etransitivity; [apply perform_sameStore; exact Ha | apply IH].
Qed.

Lemma entryAt_sameStore (s s' : State) (k : Z) :
  sameStore s s' -> entryAt s' k = entryAt s k.
Proof. intros [Hh Hl]. unfold entryAt, refAt. rewrite Hh, Hl. reflexivity. Qed.

(** ** addEntry *)

Lemma addEntry_store (s : State) (entry : loc) :
  let s' := stateOf (addEntry entry s) in
  heap s' = alter (fun e => withIdStatus e (pad3 (entryCount s + 1))) entry (heap s) /\
  activityLog s' = activityLog s ++ [entry].
Proof.
  unfold addEntry, stateOf. rewrite !bind_gets, bind_modify, bind_gets, bind_modify, bind_gets.
  match goal with |- context [goToIndex ?i ?st] =>
    destruct (goToIndex_sameStore i st) as [Hh Hl]; rewrite Hh, Hl end.
  split; reflexivity.
Qed.

Lemma entryCount_snoc (s s' : State) (l : loc) :
  activityLog s' = activityLog s ++ [l] -> entryCount s' = entryCount s + 1.
Proof. intros H. unfold entryCount. rewrite H, length_app. simpl. lia. Qed.

Lemma refAt_last (s s' : State) (l : loc) :
  activityLog s' = activityLog s ++ [l] -> refAt s' (entryCount s) = Some l.
Proof.
  intros H. unfold refAt, entryCount.
  destruct (Z.ltb_spec (Z.of_nat (length (activityLog s))) 0) as [Hneg | _]; [lia |].
  rewrite Nat2Z.id, H. apply list_lookup_middle. reflexivity.
Qed.

Lemma addEntry_index (s : State) (entry : loc) :
  let s' := stateOf (addEntry entry s) in
  (isAnimating s = false -> currentIndex s' = entryCount s) /\
  (isAnimating s = true -> currentIndex s' = currentIndex s).
Proof.
  unfold addEntry, stateOf. rewrite !bind_gets, bind_modify, bind_gets, bind_modify, bind_gets.
  set (st := set_activityLog _ _).
  assert (Hn : entryCount st = entryCount s + 1) by (apply (entryCount_snoc s st entry); reflexivity).
  rewrite Hn. replace (entryCount s + 1 - 1) with (entryCount s) by lia.
  split; intros Ha.
  - assert (Hi : 0 <= entryCount s < entryCount st) by (unfold entryCount in *; lia).
    destruct (goToIndex_accepted_state st (entryCount s) Ha Hi) as (_ & Hc & _).
    exact Hc.
  - rewrite goToIndex_rejected by (left; exact Ha). reflexivity.
Qed.

(** C8 (as amended): [addEntry] pushes the caller's object on the array,
    so [getEntryCount] grows by one; the object gets the identifier of its
    one-based position, [n + 1] padded to three digits, and stands at the
    new last index [n]; if no transition is under way the current index
    moves there, so [getCurrentEntry] is the new entry, and otherwise the
    current index stays where it was. *)
Theorem addEntry_appends (s : State) (entry : loc) (e : Entry) :
  heap s !! entry = Some e ->
  let n := getEntryCount s in
  let s' := stateOf (addEntry entry s) in
  getEntryCount s' = n + 1 /\
  getAllEntries s' = getAllEntries s ++ [entry] /\
  entryAt s' n = Some (withIdStatus e (pad3 (n + 1))) /\
  (isAnimating s = false ->
   currentIndex s' = n /\ getCurrentEntry s' = Some entry /\
   entryAt s' (currentIndex s') = Some (withIdStatus e (pad3 (n + 1)))) /\
  (isAnimating s = true -> currentIndex s' = currentIndex s).
Proof.
  intros He n s'.
  destruct (addEntry_store s entry) as [Hh Hl]. fold s' in Hh, Hl.
  destruct (addEntry_index s entry) as [Hidle Hbusy]. fold s' in Hidle, Hbusy.
  pose proof (refAt_last s s' entry Hl) as Hlast.
  assert (Hnew : entryAt s' n = Some (withIdStatus e (pad3 (n + 1)))).
  { unfold entryAt, n, getEntryCount. rewrite Hlast. cbn [mbind option_bind].
    rewrite Hh, list_lookup_alter_eq, He. reflexivity. }
  split; [apply (entryCount_snoc s s' entry Hl) |].
  split; [exact Hl |]. split; [exact Hnew |].
  split; [| exact Hbusy].
  intros Ha. specialize (Hidle Ha). unfold getCurrentEntry. rewrite Hidle.
  split; [reflexivity |]. split; [exact Hlast | exact Hnew].
Qed.

Lemma addEntry_appends_witness :
  heap (snd (newObject (rawEntry "docs" "New") (sampleState 3))) !! 3%nat =
    Some (rawEntry "docs" "New") /\
  getEntryCount
    (stateOf (addEntry 3%nat (snd (newObject (rawEntry "docs" "New") (sampleState 3))))) =
  getEntryCount (snd (newObject (rawEntry "docs" "New") (sampleState 3))) + 1.
Proof.
  assert (He : heap (snd (newObject (rawEntry "docs" "New") (sampleState 3))) !! 3%nat =
               Some (rawEntry "docs" "New")) by reflexivity.
  split; [exact He |].
  destruct (addEntry_appends _ 3%nat _ He) as (Hn & _).
  exact Hn.
Defined.

(** C8, as stated, fails twice on the three-entry store of the scenario:
    the new entry's identifier is 4 ("004"), not the new last index 3; and
    when the entry is added during a transition the current entry is not
    the new one. *)
Lemma addEntry_id_is_not_last_index :
  let '(entry, s) := newObject (rawEntry "docs" "New") (sampleState 3) in
  let s' := stateOf (addEntry entry s) in
  let busy := stateOf (goToIndex 0 s) in
  let s'' := stateOf (addEntry entry busy) in
  (isAnimating s = false /\ getEntryCount s = 3 /\
   getEntryCount s' = 4 /\ getCurrentEntry s' = Some entry /\
   (entryAt s' (currentIndex s') ≫= e_id) = Some "004" /\
   (entryAt s' (currentIndex s') ≫= idNumber) = Some 4 /\
   getEntryCount s' - 1 = 3) /\
  (isAnimating busy = true /\ getEntryCount s'' = 4 /\
   getCurrentEntry s'' = Some 0%nat /\ getCurrentEntry s'' <> Some entry).
Proof. vm_compute. repeat split; discriminate. Qed.

(** ** Identifiers *)

Lemma addEntry_keeps_others (s : State) (entry : loc) (k : Z) :
  entry ∉ activityLog s -> 0 <= k < entryCount s ->
  entryAt (stateOf (addEntry entry s)) k = entryAt s k.
Proof.
  intros Hfresh Hk.
  destruct (addEntry_store s entry) as [Hh Hl].
  unfold entryAt, refAt. rewrite Hh, Hl.
  destruct (Z.ltb_spec k 0) as [Hneg | _]; [lia |].
  assert (Hlt : (Z.to_nat k < length (activityLog s))%nat) by (unfold entryCount in Hk; lia).
  rewrite lookup_app_l by exact Hlt.
  destruct (activityLog s !! Z.to_nat k) as [l|] eqn:El; [| reflexivity].
  cbn [mbind option_bind].
  apply list_lookup_alter_ne. intros ->.
  apply Hfresh. apply (list_elem_of_lookup_2 _ _ _ El).
Qed.

(** C9 (as amended): each entry of a loaded array stands at its position
    in source order and carries as identifier its one-based position,
    padded to three digits; navigation, input events, timers and frames
    never change what the array holds, and [addEntry] leaves every stored
    entry as it was unless it is handed an object already in the store. *)
Theorem loaded_ids_are_one_based (entries : list Entry) (s : State) :
  let s' := stateOf (loadActivityLog (Parsed (JArray entries)) s) in
  getEntryCount s' = Z.of_nat (length entries) /\
  (forall i e, entries !! i = Some e ->
     entryAt s' (Z.of_nat i) = Some (withIdStatus e (pad3 (Z.of_nat i + 1)))) /\
  (forall st acts k, Forall navigates acts -> entryAt (run acts st) k = entryAt st k) /\
  (forall st entry k, entry ∉ activityLog st -> 0 <= k < entryCount st ->
     entryAt (stateOf (addEntry entry st)) k = entryAt st k).
Proof.
  intros s'. split.
  { unfold s', getEntryCount, entryCount. rewrite loadActivityLog_array. simpl.
    rewrite length_seq. reflexivity. }
  split.
  { intros i e Hi. unfold s'. rewrite loadActivityLog_array.
    rewrite (entryAt_loaded _ (heap s) entries i) by reflexivity.
    rewrite lookup_assignIds, Hi. reflexivity. }
  split.
  - intros st acts k Hnav. apply entryAt_sameStore. apply run_sameStore. exact Hnav.
  - intros st entry k. apply addEntry_keeps_others.
Qed.

Lemma loaded_ids_are_one_based_witness :
  (e_id <$> entryAt (sampleState 3) 2) = Some (Some "003") /\
  entryAt (run [CallGoToIndex 0; Elapse 750; Input ClickNext] (sampleState 3)) 2 =
    entryAt (sampleState 3) 2.
Proof.
  destruct (loaded_ids_are_one_based (sampleLog 3) (pageLoad 500)) as (_ & Hid & Hnav & _).
  split.
  - change (entryAt (sampleState 3) 2)
      with (entryAt (stateOf (loadActivityLog (Parsed (JArray (sampleLog 3))) (pageLoad 500)))
              (Z.of_nat 2)).
    rewrite (Hid 2%nat _ eq_refl). reflexivity.
  - apply Hnav. repeat constructor.
Defined.

(** C9, as stated, fails: the identifier of the first loaded entry is 1
    ("001"), not its zero-based index 0; and the identifier of a stored
    entry changes when [addEntry] is handed that same object. *)
Lemma loaded_id_is_not_zero_based :
  let s := stateOf (loadActivityLog (Parsed (JArray (sampleLog 3))) (pageLoad 500)) in
  ((entryAt s 0 ≫= e_id) = Some "001" /\
   (entryAt s 0 ≫= idNumber) = Some 1 /\
   (entryAt s 0 ≫= idNumber) <> Some 0) /\
  (getAllEntries s !! 0%nat = Some 0%nat /\
   (entryAt (stateOf (addEntry 0%nat s)) 0 ≫= e_id) = Some "004").
Proof. vm_compute. repeat split; discriminate. Qed.


(** ** Holding the guard *)

#[global] Instance timedQuiet_preorder : PreOrder timedQuiet.
Proof.
  split.
  - intros s. split; [reflexivity |]. intros p Hp. left. exact Hp.
  - intros a b c [Hs1 Ht1] [Hs2 Ht2].
    split; [etransitivity; eassumption |].
    intros p Hp. destruct (Ht2 p Hp) as [Hb | [Hb | Hb]].
    + apply Ht1, Hb.
    + right. left. exact Hb.
    + right. right. destruct Hs1 as (_ & _ & _ & Hn & _). rewrite <- Hn. exact Hb.
Qed.

#[global] Instance guardKept_preorder : PreOrder guardKept.
Proof.
  split.
  - intros s. repeat split. intros p Hp. left. exact Hp.
  - intros a b c (Ha1 & Hn1 & Ht1) (Ha2 & Hn2 & Ht2).
    split; [congruence |]. split; [congruence |].
    intros p Hp. destruct (Ht2 p Hp) as [Hb | Hb]; [apply Ht1, Hb | right; exact Hb].
Qed.

Lemma quiet_timedQuiet {A : Type} (m : M A) : respects quiet m -> respects timedQuiet m.
Proof.
  intros H s. destruct (H s) as [Hs Ht]. split; [exact Hs |].
  intros p Hp. destruct (Ht p Hp) as [Hb | Hb]; auto.
Qed.

Lemma quiet_guardKept (s s' : State) : quiet s s' -> guardKept s s'.
Proof. intros [(_ & _ & Ha & Hn & _) Ht]. repeat split; assumption. Qed.

Lemma setTimeout_timedQuiet (t : TimerTask) :
  respects timedQuiet (setTimeout t TRANSITION_MS).
Proof.
  unfold setTimeout. apply respects_modify. intros s.
  split; [repeat split |]. simpl.
  intros p Hp. apply elem_of_enqueue in Hp. destruct Hp as [-> | Hp]; auto.
Qed.

#[global] Hint Resolve quiet_timedQuiet setTimeout_timedQuiet : frame.

Lemma requestAnimationFrame_timedQuiet (t : FrameTask) :
  respects timedQuiet (requestAnimationFrame t).
Proof. unfold requestAnimationFrame. frame. Qed.

#[global] Hint Resolve requestAnimationFrame_timedQuiet : frame.

(** The timers an accepted request leaves behind: those there before,
    timers that do not end a transition, and one due [TRANSITION_MS] from
    now. *)
Lemma goToIndex_accepted_timers (s : State) (index : Z) :
  isAnimating s = false -> 0 <= index < entryCount s ->
  forall p, p ∈ timers (snd (goToIndex index s)) ->
    p ∈ timers s \/ isTransition (snd p) = false \/ fst p = now s + TRANSITION_MS.
Proof.
  intros Ha Hi.
  cut (timedQuiet (set_currentIndex index (set_isAnimating true s)) (snd (goToIndex index s))).
  { intros [_ H]. exact H. }
  unfold goToIndex. rewrite !bind_gets. rewrite Ha.
  replace (index <? 0) with false by lia.
  replace (index >=? entryCount s) with false by lia.
  simpl. rewrite !bind_modify.
  as_frame. frame.
Qed.

Lemma transitioning_guardKept (T : Z) (s s' : State) :
  transitioningUntil T s -> guardKept s s' -> transitioningUntil T s'.
Proof.
  intros (Ha & Hn & Ht) (Ha' & Hn' & Ht'). split; [congruence |]. split; [lia |].
  intros p Hp Htr. destruct (Ht' p Hp) as [Hb | Hb]; [apply Ht; assumption | congruence].
Qed.

Lemma goToPrev_busy (s : State) : isAnimating s = true -> goToPrev s = (Ret tt, s).
Proof.
  intros Ha. unfold goToPrev. rewrite bind_gets.
  destruct (currentIndex s >? 0); [| reflexivity].
  apply goToIndex_rejected. left. exact Ha.
Qed.

Lemma goToNext_busy (s : State) : isAnimating s = true -> goToNext s = (Ret tt, s).
Proof.
  intros Ha. unfold goToNext. rewrite !bind_gets.
  destruct (currentIndex s <? entryCount s - 1); [| reflexivity].
  apply goToIndex_rejected. left. exact Ha.
Qed.

Lemma goToLast_busy (s : State) : isAnimating s = true -> goToLast s = (Ret tt, s).
Proof.
  intros Ha. unfold goToLast. rewrite bind_gets.
  apply goToIndex_rejected. left. exact Ha.
Qed.

Lemma uncaught_guardKept (s : State) (e : JSError) :
  guardKept s (set_console (console s ++ [Uncaught e]) s).
Proof. frame_side. Qed.

Lemma when_noop (b : bool) (m : M unit) (s : State) :
  m s = (Ret tt, s) -> when b m s = (Ret tt, s).
Proof. intros H. destruct b; [exact H | reflexivity]. Qed.

(** During a transition an input event navigates nowhere. *)
Lemma dispatch_busy (ev : Event) (s : State) :
  isAnimating s = true -> guardKept s (runCallback (dispatch ev) s).
Proof.
  intros Ha. unfold runCallback, dispatch. rewrite bind_gets.
  destruct (listening s); cbn [negb]; [| reflexivity].
  destruct ev.
  - rewrite bind_gets. destruct (prevBtn_disabled s); cbn [when negb]; [reflexivity |].
    rewrite goToPrev_busy by exact Ha. reflexivity.
  - rewrite bind_gets. destruct (nextBtn_disabled s); cbn [when negb]; [reflexivity |].
    rewrite goToNext_busy by exact Ha. reflexivity.
  - rewrite bind_gets. destruct (bool_decide _); [| reflexivity].
    rewrite goToIndex_rejected by (left; exact Ha). reflexivity.
  - rewrite bind_unfold.
    rewrite (when_noop _ goToPrev s (goToPrev_busy s Ha)).
    rewrite (when_noop _ goToNext s (goToNext_busy s Ha)). reflexivity.
  - frame_side.
  - rewrite bind_gets. destruct (Z.abs _ >? 50); [| reflexivity].
    destruct (_ >? 0);
      [rewrite goToNext_busy by exact Ha | rewrite goToPrev_busy by exact Ha]; reflexivity.
  - destruct (deltaY >? 0);
      [rewrite goToNext_busy by exact Ha | rewrite goToPrev_busy by exact Ha]; reflexivity.
  - rewrite bind_gets, bind_modify. simpl.
    split; [reflexivity |]. split; [reflexivity |]. simpl.
    intros p Hp. apply elem_of_enqueue in Hp. destruct Hp as [-> | Hp]; [right; reflexivity |].
    apply list_elem_of_filter in Hp. left. apply Hp.
Qed.

Lemma timerCallback_quiet (t : TimerTask) :
  isTransition t = false -> respects quiet (timerCallback t).
Proof. destruct t; intros Ht; try discriminate; unfold timerCallback; frame. Qed.

Lemma frameCallback_quiet (t : FrameTask) : respects quiet (frameCallback t).
Proof. unfold frameCallback. frame. Qed.

Lemma uncaught_quiet (s : State) (e : JSError) :
  quiet s (set_console (console s ++ [Uncaught e]) s).
Proof. frame_side. Qed.

Lemma advance_transitioning (T dt : Z) (s : State) :
  transitioningUntil T s -> now s + dt < T ->
  transitioningUntil T (advance dt s) /\ now (advance dt s) = now s + dt.
Proof.
  intros (Ha & Hn & Ht) Hdt. unfold advance.
  set (t := now s + dt).
  set (s0 := set_timers _ (set_now t s)).
  assert (H0 : transitioningUntil T s0).
  { split; [exact Ha |]. split; [exact Hdt |].
    intros p Hp. apply list_elem_of_filter in Hp. apply Ht, Hp. }
  assert (Hfold : guardKept s0
            (foldl (fun st p => runCallback (timerCallback (snd p)) st) s0
               (filter (fun p => isDue t p = true) (timers s)))).
  { apply (respects_foldl guardKept). intros st p Hp.
    apply list_elem_of_filter in Hp. destruct Hp as [Hdue Hp].
    apply quiet_guardKept. apply (respects_runCallback quiet); [| apply uncaught_quiet].
    apply timerCallback_quiet.
    destruct (isTransition (snd p)) eqn:Etr; [| reflexivity].
    specialize (Ht p Hp Etr). unfold isDue in Hdue. lia. }
  split; [exact (transitioning_guardKept T _ _ H0 Hfold) |].
  destruct Hfold as (_ & Hnow & _). rewrite Hnow. reflexivity.
Qed.

Lemma runFrames_quiet (s : State) : quiet s (runFrames s).
Proof.
  unfold runFrames.
  transitivity (set_frames [] s); [frame_side |].
  apply (respects_foldl quiet). intros st t _.
  apply (respects_runCallback quiet); [apply frameCallback_quiet | apply uncaught_quiet].
Qed.

Lemma loadActivityLog_guardKept (r : FetchResult) : respects guardKept (loadActivityLog r).
Proof. unfold loadActivityLog. frame. Qed.

Lemma respects_guardKept_of_quiet {A : Type} (m : M A) :
  respects quiet m -> respects guardKept m.
Proof. intros H s. apply quiet_guardKept, H. Qed.

#[global] Hint Resolve loadActivityLog_guardKept respects_guardKept_of_quiet : frame.

Lemma reload_guardKept (r : FetchResult) : respects guardKept (reload r).
Proof. unfold reload. frame. Qed.

Lemma addEntry_busy (entry : loc) (s : State) :
  isAnimating s = true -> guardKept s (stateOf (addEntry entry s)).
Proof.
  intros Ha. unfold addEntry, stateOf.
  rewrite !bind_gets, bind_modify, bind_gets, bind_modify, bind_gets.
  rewrite goToIndex_rejected by (left; exact Ha). frame_side.
Qed.

Lemma perform_transitioning (T : Z) (a : Action) (s : State) :
  transitioningUntil T s -> now s + duration a < T ->
  transitioningUntil T (perform a s) /\ now (perform a s) = now s + duration a.
Proof.
  intros Htr Hd.
  assert (Hkept : forall s', guardKept s s' ->
            transitioningUntil T s' /\ now s' = now s + 0).
  { intros s' Hk. split; [exact (transitioning_guardKept T s s' Htr Hk) |].
    destruct Hk as (_ & Hn & _). lia. }
  pose proof Htr as (Ha & _).
  destruct a; simpl in *.
  - apply advance_transitioning; assumption.
  - apply Hkept, quiet_guardKept, runFrames_quiet.
  - apply Hkept, dispatch_busy, Ha.
  - apply Hkept. rewrite goToIndex_rejected by (left; exact Ha). reflexivity.
  - apply Hkept. unfold goToFirst. rewrite goToIndex_rejected by (left; exact Ha). reflexivity.
  - apply Hkept. rewrite goToLast_busy by exact Ha. reflexivity.
  - apply Hkept, addEntry_busy, Ha.
  - apply Hkept, reload_guardKept.
Qed.

Lemma elapsed_cons (a : Action) (acts : list Action) :
  elapsed (a :: acts) = duration a + elapsed acts.
Proof. reflexivity. Qed.

Lemma elapsed_nonneg (acts : list Action) :
  Forall forwardInTime acts -> 0 <= elapsed acts.
Proof.
  induction 1 as [|a acts Ha _ IH]; [simpl; lia |].
  rewrite elapsed_cons. destruct a; simpl in *; lia.
Qed.

Lemma run_transitioning (T : Z) (acts : list Action) (s : State) :
  Forall forwardInTime acts ->
  transitioningUntil T s -> now s + elapsed acts < T ->
  transitioningUntil T (run acts s).
Proof.
  intros Hf. revert s. induction Hf as [|a acts Ha Hf IH]; intros s Htr Ht; [exact Htr |].
  rewrite elapsed_cons in Ht. pose proof (elapsed_nonneg acts Hf) as Hpos.
  destruct (perform_transitioning T a s Htr) as [Htr' Hn']; [lia |].
  change (run (a :: acts) s) with (run acts (perform a s)).
  apply IH; [exact Htr' | lia].
Qed.

(** ** Releasing the guard *)

Lemma windowCurrent_kept (s s' : State) :
  windowCurrent s -> steady s s' -> sameRange s s' -> windowCurrent s'.
Proof.
  intros [Hc Hw] ([_ Hl] & Hci & _) Hr. unfold windowCurrent, entryCount in *.
  unfold sameRange in Hr. rewrite Hl, Hci, Hr. split; assumption.
Qed.

Lemma timerCallback_sameRange (t : TimerTask) :
  isTransition t = false -> respects sameRange (timerCallback t).
Proof. destruct t; intros Ht; try discriminate; unfold timerCallback; frame. Qed.

Lemma slideDone_window (s : State) :
  windowCurrent s ->
  timerCallback SlideDone s =
    (Ret tt,
     set_isAnimating false
       (set_timelineNodes (refreshNode (currentIndex s) <$> timelineNodes s)
          (set_cardsRow (refreshCard (currentIndex s) <$> cardsRow s) s))).
Proof.
  intros [_ Hw]. unfold timerCallback.
  rewrite bind_unfold, (updateRenderedCards_skip s (eq_sym Hw)). reflexivity.
Qed.

(** With the window current, a timer callback keeps it current; the two
    that end a transition lower the guard, the others leave it. *)
Lemma timerCallback_window (t : TimerTask) (s : State) :
  windowCurrent s ->
  let s' := runCallback (timerCallback t) s in
  windowCurrent s' /\
  isAnimating s' = if isTransition t then false else isAnimating s.
Proof.
  intros Hw. destruct (isTransition t) eqn:Etr.
  - destruct t; try discriminate; unfold runCallback.
    + rewrite (slideDone_window s Hw). simpl. split; [exact Hw | reflexivity].
    + simpl. split; [exact Hw | reflexivity].
  - assert (Hq : quiet s (runCallback (timerCallback t) s)).
    { apply (respects_runCallback quiet);
        [apply timerCallback_quiet; exact Etr | apply uncaught_quiet]. }
    assert (Hr : sameRange s (runCallback (timerCallback t) s)).
    { apply (respects_runCallback sameRange);
        [apply timerCallback_sameRange; exact Etr | intros; reflexivity]. }
    destruct Hq as [Hs _]. split; [exact (windowCurrent_kept _ _ Hw Hs Hr) |].
    apply Hs.
Qed.

Lemma fire_releases (tasks : list (Z * TimerTask)) (s : State) :
  windowCurrent s ->
  isAnimating s = false \/ (exists p, p ∈ tasks /\ isTransition (snd p) = true) ->
  isAnimating (foldl (fun st p => runCallback (timerCallback (snd p)) st) s tasks) = false.
Proof.
  revert s. induction tasks as [|p tasks IH]; intros s Hw H; simpl.
  - destruct H as [H | (p & Hp & _)]; [exact H | inversion Hp].
  - destruct (timerCallback_window (snd p) s Hw) as [Hw' Ha'].
    apply IH; [exact Hw' |].
    destruct (isTransition (snd p)) eqn:Etr; [left; exact Ha' |].
    destruct H as [H | (q & Hq & Hqt)]; [left; congruence |].
    apply elem_of_cons in Hq. destruct Hq as [-> | Hq]; [congruence |].
    right. exists q. auto.
Qed.

(** C10: with the controller idle on a non-empty store, [goToIndex] at
    the current index is accepted: the state changes, the guard goes up and
    the index stays.  From then on, whatever happens on the page in less
    than 750 ms (timers, frames, input events, API calls), the guard stays
    up and every navigation request is dropped.  When the call returned and
    the window was the current one, the timer that ends the transition is
    due 750 ms after the call, and once it has fired the guard is down. *)
Theorem same_index_request_blocks (s : State) :
  idle s -> 0 <= currentIndex s < entryCount s ->
  let r := goToIndex (currentIndex s) s in
  let s1 := stateOf r in
  s1 <> s /\
  isAnimating s1 = true /\
  currentIndex s1 = currentIndex s /\
  (forall acts, Forall forwardInTime acts -> elapsed acts < TRANSITION_MS ->
     let st := run acts s1 in
     isAnimating st = true /\
     (forall j, goToIndex j st = (Ret tt, st)) /\
     goToPrev st = (Ret tt, st) /\ goToNext st = (Ret tt, st) /\
     goToFirst st = (Ret tt, st) /\ goToLast st = (Ret tt, st)) /\
  (returned r = true -> windowCurrent s ->
     (now s + TRANSITION_MS, SlideDone) ∈ timers s1 /\
     isAnimating (advance TRANSITION_MS s1) = false).
Proof.
  intros [Ha Hidle] Hi r s1.
  destruct (goToIndex_accepted_state s (currentIndex s) Ha Hi) as (Hf & Hc & Hh & Hl & Hn).
  fold r in Hf, Hc, Hh, Hl, Hn. fold s1 in Hf, Hc, Hh, Hl, Hn.
  split; [intros Heq; rewrite Heq in Hf; congruence |].
  split; [exact Hf |]. split; [exact Hc |]. split.
  - intros acts Hfw Hel st.
    assert (Htr : transitioningUntil (now s + TRANSITION_MS) s1).
    { split; [exact Hf |]. split; [unfold TRANSITION_MS; lia |].
      intros p Hp Hpt.
      destruct (goToIndex_accepted_timers s (currentIndex s) Ha Hi p Hp) as [Hb | [Hb | Hb]].
      - rewrite (Hidle p Hb) in Hpt. discriminate.
      - congruence.
      - lia. }
    assert (Hst : isAnimating st = true).
    { apply (run_transitioning (now s + TRANSITION_MS) acts s1 Hfw Htr). lia. }
    split; [exact Hst |].
    split; [intros j; apply goToIndex_rejected; left; exact Hst |].
    split; [apply goToPrev_busy; exact Hst |].
    split; [apply goToNext_busy; exact Hst |].
    split; [apply goToIndex_rejected; left; exact Hst | apply goToLast_busy; exact Hst].
  - intros Hret [_ Hw].
    assert (Hin : inWindow (renderedRange s) (currentIndex s)).
    { rewrite Hw. unfold inWindow, computeRange, CARD_BUFFER. simpl. lia. }
    destruct (goToIndex_slide_state s (currentIndex s) Ha Hi Hin) as (_ & Hrange & Htimer).
    fold r in Hrange, Htimer. fold s1 in Hrange, Htimer.
    specialize (Htimer Hret). split; [exact Htimer |].
    unfold advance. apply fire_releases.
    + unfold windowCurrent, entryCount. simpl. rewrite Hc, Hl, Hrange. split; [exact Hi | exact Hw].
    + right. exists (now s + TRANSITION_MS, SlideDone). split; [| reflexivity].
      apply list_elem_of_filter. split; [| exact Htimer].
      unfold isDue. simpl. rewrite Hn. lia.
Qed.

Lemma same_index_request_blocks_witness :
  (idle (sampleState 5) /\
   0 <= currentIndex (sampleState 5) < entryCount (sampleState 5)) /\
  isAnimating (stateOf (goToIndex (currentIndex (sampleState 5)) (sampleState 5))) = true /\
  goToIndex 0
    (run [Elapse 200; NextFrame; Input ClickPrev; Elapse 549]
       (stateOf (goToIndex (currentIndex (sampleState 5)) (sampleState 5)))) =
    (Ret tt,
     run [Elapse 200; NextFrame; Input ClickPrev; Elapse 549]
       (stateOf (goToIndex (currentIndex (sampleState 5)) (sampleState 5)))) /\
  (returned (goToIndex (currentIndex (sampleState 5)) (sampleState 5)) = true /\
   windowCurrent (sampleState 5)) /\
  isAnimating
    (advance TRANSITION_MS
       (stateOf (goToIndex (currentIndex (sampleState 5)) (sampleState 5)))) = false.
Proof.
  assert (Hidle : idle (sampleState 5)).
  { split; [reflexivity |]. apply Forall_forall. vm_compute. repeat constructor. }
  assert (Hi : 0 <= currentIndex (sampleState 5) < entryCount (sampleState 5))
    by (vm_compute; split; [discriminate | reflexivity]).
  assert (Hret : returned (goToIndex (currentIndex (sampleState 5)) (sampleState 5)) = true)
    by (vm_compute; reflexivity).
  assert (Hw : windowCurrent (sampleState 5)).
  { split; [exact Hi | vm_compute; reflexivity]. }
  destruct (same_index_request_blocks (sampleState 5) Hidle Hi) as (_ & Hf & _ & Hblock & Hrel).
  split; [auto |]. split; [exact Hf |].
  split.
  - assert (Hfw : Forall forwardInTime [Elapse 200; NextFrame; Input ClickPrev; Elapse 549])
      by (repeat constructor; simpl; lia).
    assert (Hel : elapsed [Elapse 200; NextFrame; Input ClickPrev; Elapse 549] < TRANSITION_MS)
      by reflexivity.
    destruct (Hblock _ Hfw Hel) as (_ & Hrej & _).
    exact (Hrej 0).
  - split; [auto |]. destruct (Hrel Hret Hw) as [_ Hdown]. exact Hdown.
Defined.


(** ** Keeping the index in the window *)

#[global] Instance keepsFocus_preorder : PreOrder keepsFocus.
Proof.
  split.
  - intros s. split; [reflexivity |]. split; [reflexivity | auto].
  - intros a b c (Hs1 & Hc1 & Hw1) (Hs2 & Hc2 & Hw2).
    split; [etransitivity; eassumption |]. split; [congruence | auto].
Qed.

Lemma keepsFocus_intro (s s' : State) :
  steady s s' -> sameRange s s' -> keepsFocus s s'.
Proof.
  intros (Hs & Hc & _) Hr. split; [exact Hs |]. split; [exact Hc |].
  intros [Hi Hw]. destruct Hs as [_ Hl]. unfold indexInWindow, entryCount in *.
  unfold sameRange in Hr. rewrite Hl, Hc, Hr. split; assumption.
Qed.

Lemma slideDone_focus (s : State) :
  keepsFocus s (snd (timerCallback SlideDone s)).
Proof.
  unfold timerCallback. rewrite bind_unfold.
  pose proof (updateRenderedCards_quiet false s) as [Hq _].
  pose proof (updateRenderedCards_range false s) as Hw.
  destruct (updateRenderedCards false s) as [[d|e] s1]; simpl in Hq, Hw.
  - assert (Hrest : keepsFocus s1
              (snd ((when d (updateSliderPosition false) ≫= fun _ =>
                     modify (set_isAnimating false)) s1))).
    { rewrite (bind_returns _ _ _ (returns_when _ _ (updateSliderPosition_returns false))).
      simpl.
      pose proof (respects_when quiet d _ (updateSliderPosition_quiet false) s1) as [Hq2 _].
      pose proof (respects_when sameRange d _ (updateSliderPosition_sameRange false) s1) as Hr2.
      apply (keepsFocus_intro s1 _ Hq2) in Hr2.
      destruct Hr2 as (Hs & Hc & Hk). split; [exact Hs |]. split; [exact Hc | exact Hk]. }
    destruct Hq as (Hs & Hc & _). destruct Hrest as (Hs' & Hc' & Hk').
    split; [etransitivity; eassumption |]. split; [congruence |].
    intros [Hi _]. apply Hk'. destruct Hs as [_ Hl].
    unfold indexInWindow, entryCount in *. rewrite Hl, Hc, Hw.
    split; [exact Hi |]. unfold inWindow, computeRange, CARD_BUFFER, entryCount. simpl. lia.
  - simpl. destruct Hq as (Hs & Hc & _). split; [exact Hs |]. split; [exact Hc |].
    intros [Hi _]. destruct Hs as [_ Hl].
    unfold indexInWindow, entryCount in *. rewrite Hl, Hc, Hw.
    split; [exact Hi |]. unfold inWindow, computeRange, CARD_BUFFER, entryCount. simpl. lia.
Qed.

Lemma uncaught_focus (s : State) (e : JSError) :
  keepsFocus s (set_console (console s ++ [Uncaught e]) s).
Proof. split; [split; reflexivity |]. split; [reflexivity | auto]. Qed.

Lemma timerCallback_focus (t : TimerTask) : respects keepsFocus (timerCallback t).
Proof.
  intros s. destruct (isTransition t) eqn:Etr.
  - destruct t; try discriminate; [apply slideDone_focus |].
    simpl. split; [split; reflexivity |]. split; [reflexivity | auto].
  - apply keepsFocus_intro;
      [apply (timerCallback_quiet t Etr s) | apply (timerCallback_sameRange t Etr s)].
Qed.

Lemma frameCallback_focus (t : FrameTask) : respects keepsFocus (frameCallback t).
Proof.
  intros s. apply keepsFocus_intro; [apply (frameCallback_quiet t s) |].
  revert s. change (respects sameRange (frameCallback t)). unfold frameCallback. frame.
Qed.

Lemma perform_focus (a : Action) (s : State) : passive a -> keepsFocus s (perform a s).
Proof.
  destruct a; simpl; intros Hp; try contradiction.
  - unfold advance.
    match goal with
    | |- keepsFocus s (foldl _ ?s0 _) =>
        transitivity s0; [split; [split; reflexivity |]; split; [reflexivity | auto] |]
    end.
    apply (respects_foldl keepsFocus). intros st p _.
    apply (respects_runCallback keepsFocus); [apply timerCallback_focus | apply uncaught_focus].
  - unfold runFrames.
    match goal with
    | |- keepsFocus s (foldl _ ?s0 _) =>
        transitivity s0; [split; [split; reflexivity |]; split; [reflexivity | auto] |]
    end.
    apply (respects_foldl keepsFocus). intros st p _.
    apply (respects_runCallback keepsFocus); [apply frameCallback_focus | apply uncaught_focus].
Qed.

Lemma run_focus (acts : list Action) (s : State) :
  Forall passive acts -> keepsFocus s (run acts s).
Proof.
  intros H. revert s. induction H as [|a acts Ha _ IH]; intros s; simpl.
  - reflexivity.
  - etransitivity; [apply perform_focus; exact Ha | apply IH].
Qed.

(** C7: when [reload] reads a non-empty array and returns, the store
    holds exactly the new entries, in order, through fresh references, and
    the current index is the last one; [goToLast] then returns, and leaves
    the current index on the last entry and inside the rendered window,
    where both stay while timers fire and frames are drawn. *)
Theorem reload_then_goToLast (entries : list Entry) (s s1 : State) :
  entries <> [] ->
  reload (Parsed (JArray entries)) s = (Ret tt, s1) ->
  let n := Z.of_nat (length entries) in
  let r := goToLast s1 in
  (forall i, entryAt s1 (Z.of_nat i) = assignIds entries !! i) /\
  (forall l, l ∈ getAllEntries s1 -> (length (heap s) <= l)%nat) /\
  getEntryCount s1 = n /\
  currentIndex s1 = n - 1 /\
  returned r = true /\
  getEntryCount (stateOf r) = n /\
  currentIndex (stateOf r) = n - 1 /\
  inWindow (renderedRange (stateOf r)) (currentIndex (stateOf r)) /\
  (forall acts, Forall passive acts ->
     let s3 := run acts (stateOf r) in
     getEntryCount s3 = n /\ currentIndex s3 = n - 1 /\
     inWindow (renderedRange s3) (currentIndex s3)).
Proof.
  intros Hne Hr n r.
  destruct (reload_array_state entries s s1 Hr) as (Hh & Hl & Hc & Hw & Hlab & _).
  fold n in Hc, Hw.
  assert (Hn : entryCount s1 = n).
  { unfold entryCount. rewrite Hl, length_seq. reflexivity. }
  assert (Hpos : 1 <= n).
  { unfold n. destruct entries; [contradiction | simpl; lia]. }
  assert (Hin : inWindow (renderedRange s1) (n - 1)).
  { rewrite Hw. unfold inWindow, computeRange, CARD_BUFFER. simpl. lia. }
  split; [intros i; apply (entryAt_loaded s1 (heap s)); assumption |].
  split.
  { intros l Hel. unfold getAllEntries in Hel. rewrite Hl in Hel.
    apply elem_of_seq in Hel. lia. }
  split; [exact Hn |]. split; [exact Hc |].
  assert (Hfinal : returned r = true /\ getEntryCount (stateOf r) = n /\
                   currentIndex (stateOf r) = n - 1 /\
                   inWindow (renderedRange (stateOf r)) (currentIndex (stateOf r))).
  { unfold r, goToLast. rewrite bind_gets, Hn.
    destruct (isAnimating s1) eqn:Ha.
    - rewrite goToIndex_rejected by (left; exact Ha). unfold stateOf, getEntryCount. simpl.
      rewrite Hc. auto.
    - assert (Hi : 0 <= n - 1 < entryCount s1) by lia.
      destruct (goToIndex_slide_state s1 (n - 1) Ha Hi Hin) as (Hret & Hrange & _).
      destruct (goToIndex_accepted_state s1 (n - 1) Ha Hi) as (_ & Hc2 & _ & Hl2 & _).
      split.
      { rewrite Hret, <- Hlab. unfold labelReadable. simpl. rewrite Hc. reflexivity. }
      split; [unfold getEntryCount, entryCount; rewrite Hl2; exact Hn |].
      split; [exact Hc2 |].
      rewrite Hrange, Hc2. exact Hin. }
  destruct Hfinal as (Hret & Hn2 & Hc2 & Hin2).
  split; [exact Hret |]. split; [exact Hn2 |]. split; [exact Hc2 |]. split; [exact Hin2 |].
  intros acts Hpassive s3.
  destruct (run_focus acts (stateOf r) Hpassive) as ([_ Hl3] & Hc3 & Hk3).
  fold s3 in Hl3, Hc3, Hk3.
  assert (Hn3 : getEntryCount s3 = n).
  { unfold getEntryCount, entryCount in *. rewrite Hl3. exact Hn2. }
  split; [exact Hn3 |]. split; [congruence |].
  apply Hk3. split; [| exact Hin2].
  unfold getEntryCount in Hn2. rewrite Hc2, Hn2. lia.
Qed.

Lemma reload_then_goToLast_witness :
  (sampleLog 3 <> [] /\
   reload (Parsed (JArray (sampleLog 3))) (sampleState 5) =
     (Ret tt, stateOf (reload (Parsed (JArray (sampleLog 3))) (sampleState 5)))) /\
  currentIndex
    (stateOf (goToLast (stateOf (reload (Parsed (JArray (sampleLog 3))) (sampleState 5)))))
    = 2.
Proof.
  assert (Hne : sampleLog 3 <> []) by discriminate.
  assert (Hr : reload (Parsed (JArray (sampleLog 3))) (sampleState 5) =
               (Ret tt, stateOf (reload (Parsed (JArray (sampleLog 3))) (sampleState 5))))
    by (vm_compute; reflexivity).
  split; [auto |].
  destruct (reload_then_goToLast (sampleLog 3) (sampleState 5) _ Hne Hr)
    as (_ & _ & _ & _ & _ & _ & Hc & _).
  exact Hc.
Defined.


(** ** Reachable states *)

#[global] Instance sameTransitions_preorder : PreOrder sameTransitions.
Proof.
  split; [intros s; reflexivity |].
  intros a b c H1 H2. unfold sameTransitions in *. congruence.
Qed.

#[global] Instance guardedStays_preorder : PreOrder guardedStays.
Proof. split; [intros s H; exact H | intros a b c H1 H2 H; auto]. Qed.

Lemma filter_enqueue_other (d : Z) (t : TimerTask) (q : list (Z * TimerTask)) :
  isTransition t = false ->
  filter (fun p => isTransition (snd p) = true) (enqueue d t q) =
  filter (fun p => isTransition (snd p) = true) q.
Proof.
  intros Ht. induction q as [|[d' t'] q IH]; simpl.
  - rewrite filter_cons_False by (simpl; congruence). reflexivity.
  - destruct (d' <=? d).
    + rewrite !filter_cons, IH. reflexivity.
    + rewrite (filter_cons_False _ (d, t)) by (simpl; congruence). reflexivity.
Qed.

Lemma length_filter_enqueue (d : Z) (t : TimerTask) (q : list (Z * TimerTask)) :
  isTransition t = true ->
  length (filter (fun p => isTransition (snd p) = true) (enqueue d t q)) =
  S (length (filter (fun p => isTransition (snd p) = true) q)).
Proof.
  intros Ht. induction q as [|[d' t'] q IH]; simpl.
  - rewrite filter_cons_True by exact Ht. reflexivity.
  - destruct (d' <=? d).
    + rewrite !filter_cons. destruct (decide _); simpl; rewrite IH; reflexivity.
    + rewrite (filter_cons_True _ (d, t)) by exact Ht. reflexivity.
Qed.

Lemma setTimeout_sameTransitions (t : TimerTask) (d : Z) :
  isTransition t = false -> respects sameTransitions (setTimeout t d).
Proof.
  intros Ht. unfold setTimeout. apply respects_modify. intros s.
  unfold sameTransitions, transitionTimers. simpl. apply filter_enqueue_other, Ht.
Qed.

Lemma set_headerEl_sameTransitions (el : HeaderEl) (v : TextEl) :
  respects sameTransitions (modify (set_headerEl el v)).
Proof. apply respects_modify. intros s. destruct el; frame_side. Qed.

#[global] Hint Resolve set_headerEl_sameTransitions : frame.

Lemma updateCardActiveStates_sameTransitions : respects sameTransitions updateCardActiveStates.
Proof. unfold updateCardActiveStates. frame. Qed.

Lemma animateText_sameTransitions (el : HeaderEl) (t : option string) :
  respects sameTransitions (animateText el t).
Proof. unfold animateText. frame. apply setTimeout_sameTransitions. reflexivity. Qed.

#[global] Hint Resolve updateCardActiveStates_sameTransitions animateText_sameTransitions : frame.

Lemma updateUI_sameTransitions : respects sameTransitions updateUI.
Proof. unfold updateUI. frame. Qed.

Lemma updateSliderPosition_sameTransitions (animate : bool) :
  respects sameTransitions (updateSliderPosition animate).
Proof. unfold updateSliderPosition. frame. Qed.

Lemma updateRenderedCards_sameTransitions (force : bool) :
  respects sameTransitions (updateRenderedCards force).
Proof. unfold updateRenderedCards. frame. Qed.

Lemma requestAnimationFrame_sameTransitions (t : FrameTask) :
  respects sameTransitions (requestAnimationFrame t).
Proof. unfold requestAnimationFrame. frame. Qed.

#[global] Hint Resolve updateUI_sameTransitions updateSliderPosition_sameTransitions
  updateRenderedCards_sameTransitions requestAnimationFrame_sameTransitions : frame.

Lemma timerCallback_sameTransitions (t : TimerTask) :
  respects sameTransitions (timerCallback t).
Proof. unfold timerCallback. frame. Qed.

Lemma frameCallback_sameTransitions (t : FrameTask) :
  respects sameTransitions (frameCallback t).
Proof. unfold frameCallback. frame. Qed.

(** A statement that keeps the guard and the pending transitions keeps a
    guarded state guarded. *)
Lemma guardedStays_intro {A : Type} (m : M A) :
  respects quiet m -> respects sameTransitions m -> respects guardedStays m.
Proof.
  intros Hq Ht s [Hlen Hnone].
  destruct (Hq s) as [(_ & _ & Ha & _) _]. specialize (Ht s).
  unfold sameTransitions in Ht. unfold guarded. rewrite Ht, Ha. auto.
Qed.

Lemma then_setTimeout (m : M unit) (t : TimerTask) (s : State) :
  respects sameTransitions m -> transitionTimers s = [] ->
  (length (transitionTimers (snd ((m ≫= fun _ => setTimeout t TRANSITION_MS) s))) <= 1)%nat.
Proof.
  intros Hm Hs. rewrite bind_unfold. specialize (Hm s). unfold sameTransitions in Hm.
  rewrite Hs in Hm.
  destruct (m s) as [[[]|e] s']; simpl in *; [| rewrite Hm; simpl; lia].
  unfold transitionTimers in *. simpl.
  destruct (isTransition t) eqn:Et.
  - rewrite length_filter_enqueue by exact Et. rewrite Hm. simpl. lia.
  - rewrite filter_enqueue_other by exact Et. rewrite Hm. simpl. lia.
Qed.

(** An accepted request finds no transition pending and queues at most
    one; a rejected one changes nothing. *)
Lemma goToIndex_guardedStays (index : Z) : respects guardedStays (goToIndex index).
Proof.
  intros s Hg.
  destruct (isAnimating s) eqn:Ha.
  { rewrite goToIndex_rejected by (left; exact Ha). exact Hg. }
  destruct (Z.ltb_spec index 0) as [Hneg | Hpos].
  { rewrite goToIndex_rejected by (right; left; exact Hneg). exact Hg. }
  destruct (Z.leb_spec (entryCount s) index) as [Hbig | Hsmall].
  { rewrite goToIndex_rejected by (right; right; exact Hbig). exact Hg. }
  destruct Hg as [Hlen Hnone].
  assert (Hi : 0 <= index < entryCount s) by lia.
  destruct (goToIndex_accepted_state s index Ha Hi) as (Hf & _).
  split; [| unfold stateOf in Hf; intros Hx; rewrite Hx in Hf; discriminate].
  specialize (Hnone Ha).
  unfold goToIndex. rewrite !bind_gets, Ha.
  replace (index <? 0) with false by lia.
  replace (index >=? entryCount s) with false by lia.
  cbn [orb]. rewrite !bind_modify, bind_gets.
  set (s0 := set_currentIndex index (set_isAnimating true s)).
  assert (H0 : transitionTimers s0 = []) by exact Hnone.
  destruct ((index >=? r_start (renderedRange s0)) && (index <=? r_end (renderedRange s0))).
  - rewrite (bind_returns _ _ _ updateCardActiveStates_returns).
    rewrite (bind_returns _ _ _ (updateSliderPosition_returns true)).
    apply then_setTimeout; [apply updateUI_sameTransitions |].
    rewrite (updateSliderPosition_sameTransitions true _).
    rewrite (updateCardActiveStates_sameTransitions s0). exact H0.
  - rewrite bind_gets, bind_modify.
    set (s0' := set_eventsSlider _ s0).
    rewrite bind_unfold.
    pose proof (updateRenderedCards_sameTransitions true s0') as Hr.
    unfold sameTransitions in Hr.
    destruct (updateRenderedCards true s0') as [[d|e] sc]; simpl in Hr.
    + rewrite bind_gets, bind_modify.
      apply then_setTimeout; [apply requestAnimationFrame_sameTransitions |].
      exact (eq_trans Hr H0).
    + simpl. rewrite Hr. change (transitionTimers s0') with (transitionTimers s0).
      rewrite H0. simpl. lia.
Qed.

#[global] Hint Resolve goToIndex_guardedStays : frame.

Lemma updateRenderedCards_guardedStays (force : bool) :
  respects guardedStays (updateRenderedCards force).
Proof. apply guardedStays_intro; auto with frame. Qed.

Lemma updateUI_guardedStays : respects guardedStays updateUI.
Proof. apply guardedStays_intro; auto with frame. Qed.

Lemma updateSliderPosition_guardedStays (animate : bool) :
  respects guardedStays (updateSliderPosition animate).
Proof. apply guardedStays_intro; auto with frame. Qed.

#[global] Hint Resolve updateRenderedCards_guardedStays updateUI_guardedStays
  updateSliderPosition_guardedStays : frame.

Lemma loadActivityLog_guardedStays (r : FetchResult) :
  respects guardedStays (loadActivityLog r).
Proof. unfold loadActivityLog. frame. Qed.

#[global] Hint Resolve loadActivityLog_guardedStays : frame.

Lemma init_guardedStays : respects guardedStays init.
Proof. unfold init, bindEvents. frame. Qed.

#[global] Hint Resolve init_guardedStays : frame.

Lemma startup_guardedStays (r : FetchResult) : respects guardedStays (startup r).
Proof. unfold startup. frame. Qed.

Lemma reload_guardedStays (r : FetchResult) : respects guardedStays (reload r).
Proof. unfold reload. frame. Qed.

Lemma addEntry_guardedStays (entry : loc) : respects guardedStays (addEntry entry).
Proof. unfold addEntry. frame. Qed.

Lemma goToPrev_guardedStays : respects guardedStays goToPrev.
Proof. unfold goToPrev. frame. Qed.

Lemma goToNext_guardedStays : respects guardedStays goToNext.
Proof. unfold goToNext. frame. Qed.

#[global] Hint Resolve goToPrev_guardedStays goToNext_guardedStays : frame.

Lemma filter_resize_transitions (q : list (Z * TimerTask)) :
  filter (fun p => isTransition (snd p) = true) (filter (fun p => isResizeSnap p = false) q) =
  filter (fun p => isTransition (snd p) = true) q.
Proof.
  induction q as [|[d t] q IH]; [reflexivity |].
  rewrite (filter_cons (fun p => isResizeSnap p = false)).
  destruct (decide (isResizeSnap (d, t) = false)) as [Hn | Hy].
  - rewrite !filter_cons, IH. reflexivity.
  - rewrite IH. rewrite filter_cons_False; [reflexivity |].
    simpl. unfold isResizeSnap in Hy. simpl in Hy. destruct t; simpl; congruence.
Qed.

Lemma resize_guardedStays :
  respects guardedStays
    (gets timers ≫= fun q =>
     modify (set_timers (filter (fun p => isResizeSnap p = false) q)) ≫= fun _ =>
     setTimeout ResizeSnap RESIZE_MS).
Proof.
  intros s [Hlen Hnone]. rewrite bind_gets, bind_modify.
  unfold setTimeout, modify, guarded, transitionTimers in *. simpl.
  rewrite filter_enqueue_other by reflexivity.
  rewrite filter_resize_transitions. auto.
Qed.

Lemma dispatch_guardedStays (ev : Event) : respects guardedStays (dispatch ev).
Proof.
  unfold dispatch.
  apply respects_bind; [typeclasses eauto | frame | intros on].
  destruct (negb on); [frame |].
  destruct ev; try (frame; fail).
  apply resize_guardedStays.
Qed.

Lemma uncaught_sameTransitions (s : State) (e : JSError) :
  sameTransitions s (set_console (console s ++ [Uncaught e]) s).
Proof. reflexivity. Qed.

Lemma fire_sameTransitions (tasks : list (Z * TimerTask)) (s : State) :
  sameTransitions s (foldl (fun st p => runCallback (timerCallback (snd p)) st) s tasks).
Proof.
  apply (respects_foldl sameTransitions). intros st p _.
  apply (respects_runCallback sameTransitions);
    [apply timerCallback_sameTransitions | apply uncaught_sameTransitions].
Qed.

Lemma fire_quiet (tasks : list (Z * TimerTask)) (s : State) :
  (forall p, p ∈ tasks -> isTransition (snd p) = false) ->
  quiet s (foldl (fun st p => runCallback (timerCallback (snd p)) st) s tasks).
Proof.
  intros H. apply (respects_foldl quiet). intros st p Hp.
  apply (respects_runCallback quiet); [| apply uncaught_quiet].
  apply timerCallback_quiet. exact (H p Hp).
Qed.

(** The due timers and the others share out the pending transitions. *)
Lemma transitions_split (t : Z) (q : list (Z * TimerTask)) :
  length (filter (fun p => isTransition (snd p) = true) q) =
  (length (filter (fun p => isTransition (snd p) = true)
             (filter (fun p => isDue t p = true) q)) +
   length (filter (fun p => isTransition (snd p) = true)
             (filter (fun p => isDue t p = false) q)))%nat.
Proof.
  induction q as [|p q IH]; [reflexivity |].
  rewrite (filter_cons (fun p => isDue t p = true)).
  rewrite (filter_cons (fun p => isDue t p = false)).
  destruct (isDue t p) eqn:Ed.
  - rewrite decide_True by reflexivity. rewrite decide_False by discriminate.
    rewrite !filter_cons. destruct (decide _); simpl; rewrite IH; reflexivity.
  - rewrite decide_False by discriminate. rewrite decide_True by reflexivity.
    rewrite !filter_cons. destruct (decide _); simpl; rewrite IH; lia.
Qed.

Lemma advance_guarded (dt : Z) (s : State) : guarded s -> guarded (advance dt s).
Proof.
  intros [Hlen Hnone]. unfold advance.
  set (t := now s + dt).
  set (due := filter (fun p => isDue t p = true) (timers s)).
  set (rest := filter (fun p => isDue t p = false) (timers s)).
  set (s0 := set_timers rest (set_now t s)).
  pose proof (fire_sameTransitions due s0) as Hsame.
  unfold sameTransitions in Hsame.
  change (transitionTimers s0) with (filter (fun p => isTransition (snd p) = true) rest) in Hsame.
  pose proof (transitions_split t (timers s)) as Hsplit.
  fold due rest in Hsplit. unfold transitionTimers in Hlen, Hnone.
  unfold guarded. rewrite Hsame. split; [lia |].
  intros Hdown.
  destruct (filter (fun p => isTransition (snd p) = true) due) as [|p0 l0] eqn:Edue.
  - assert (Hall : forall p, p ∈ due -> isTransition (snd p) = false).
    { intros p Hp. destruct (isTransition (snd p)) eqn:Etr; [| reflexivity].
      exfalso. apply (filter_nil_not_elem_of _ _ p Edue Etr Hp). }
    destruct (fire_quiet due s0 Hall) as [(_ & _ & Ha & _) _].
    rewrite Ha in Hdown. rewrite (Hnone Hdown) in Hsplit. simpl in Hsplit.
    apply length_zero_iff_nil. lia.
  - simpl in Hsplit. apply length_zero_iff_nil. lia.
Qed.

Lemma uncaught_guardedStays (s : State) (e : JSError) :
  guardedStays s (set_console (console s ++ [Uncaught e]) s).
Proof. intros H. exact H. Qed.

Lemma frameCallback_guardedStays (t : FrameTask) : respects guardedStays (frameCallback t).
Proof.
  apply guardedStays_intro; [apply frameCallback_quiet | apply frameCallback_sameTransitions].
Qed.

Lemma perform_guarded (a : Action) (s : State) : guarded s -> guarded (perform a s).
Proof.
  destruct a; simpl.
  - apply advance_guarded.
  - unfold runFrames. intros Hg.
    assert (H0 : guarded (set_frames [] s)) by exact Hg. revert H0.
    apply (respects_foldl guardedStays). intros st t _.
    apply (respects_runCallback guardedStays);
      [apply frameCallback_guardedStays | apply uncaught_guardedStays].
  - apply (respects_runCallback guardedStays);
      [apply dispatch_guardedStays | apply uncaught_guardedStays].
  - apply goToIndex_guardedStays.
  - apply goToIndex_guardedStays.
  - unfold goToLast, stateOf. rewrite bind_gets. apply goToIndex_guardedStays.
  - apply addEntry_guardedStays.
  - apply reload_guardedStays.
Qed.

(** In every state a page can reach, at most one transition is pending
    and none is when the guard is down. *)
Lemma reachable_guarded (s : State) : reachable s -> guarded s.
Proof.
  induction 1 as [s Hs | s r _ IH | s a _ IH].
  - destruct Hs as (_ & _ & _ & _ & Ht & _).
    unfold guarded, transitionTimers. rewrite Ht. simpl. split; [lia | reflexivity].
  - exact (startup_guardedStays r s IH).
  - exact (perform_guarded a s IH).
Qed.

(** On a reachable state the guard alone tells whether the controller is
    idle. *)
Lemma reachable_idle (s : State) : reachable s -> isAnimating s = false -> idle s.
Proof.
  intros Hr Ha. destruct (reachable_guarded s Hr) as [_ Hnone].
  split; [exact Ha |]. intros p Hp.
  destruct (isTransition (snd p)) eqn:Etr; [| reflexivity].
  exfalso. apply (filter_nil_not_elem_of _ _ p (Hnone Ha) Etr Hp).
Qed.

(** ** What a render builds *)

Lemma createNodeHTML_ret (entry : option Entry) (i : Z) (a : bool) (n : NodeView) :
  createNodeHTML entry i a = Ret n ->
  exists e t c l,
    entry = Some e /\ e_timestamp e = Some t /\
    getColor (typeConfigGet (e_type e)) = Ret c /\
    getLabel (typeConfigGet (e_type e)) = Ret l /\
    n = {| n_index := i; n_active := a; n_color := interpolate c;
           n_number := slice 5 (beforeSpace t); n_title := interpolate l |}.
Proof.
  unfold createNodeHTML. destruct entry as [e|]; [| discriminate].
  destruct (getColor _) as [c|] eqn:Ec; cbn [obind]; [| discriminate].
  destruct (e_timestamp e) as [t|] eqn:Et; cbn [obind]; [| discriminate].
  destruct (getLabel _) as [l|] eqn:El; cbn [obind]; [| discriminate].
  intros H. injection H as <-. exists e, t, c, l. repeat split; assumption.
Qed.

Lemma createCardHTML_ret (entry : option Entry) (i : Z) (a p n : bool) (c : CardView) :
  createCardHTML entry i a p n = Ret c ->
  exists e files col l,
    entry = Some e /\ e_files e = Some files /\
    getColor (typeConfigGet (e_type e)) = Ret col /\
    getLabel (typeConfigGet (e_type e)) = Ret l /\
    c = {| c_index := i; c_active := a; c_prev := p; c_next := n;
           c_number := "#" +:+ interpolate (e_id e);
           c_date := interpolate (e_timestamp e);
           c_color := interpolate col; c_label := interpolate l;
           c_title := e_title e; c_description := e_description e;
           c_files := files |}.
Proof.
  unfold createCardHTML. destruct entry as [e|]; [| discriminate].
  destruct (getColor _) as [col|] eqn:Ec; cbn [obind]; [| discriminate].
  destruct (getLabel _) as [l|] eqn:El; cbn [obind]; [| discriminate].
  destruct (e_files e) as [files|] eqn:Ef; cbn [obind]; [| discriminate].
  intros H. injection H as <-. exists e, files, col, l. repeat split; assumption.
Qed.

Lemma renderItems_cons (s : State) (i : Z) (rest : list Z)
    (ns : list NodeView) (cs : list CardView) :
  renderItems s (i :: rest) = Ret (ns, cs) ->
  exists n c ns' cs',
    createNodeHTML (entryAt s i) i (i =? currentIndex s) = Ret n /\
    createCardHTML (entryAt s i) i (i =? currentIndex s) (i =? currentIndex s - 1)
      (i =? currentIndex s + 1) = Ret c /\
    renderItems s rest = Ret (ns', cs') /\ ns = n :: ns' /\ cs = c :: cs'.
Proof.
  cbn [renderItems]. cbv zeta.
  destruct (createNodeHTML _ _ _) as [n|]; cbn [obind]; [| discriminate].
  destruct (createCardHTML _ _ _ _ _) as [c|]; cbn [obind]; [| discriminate].
  destruct (renderItems s rest) as [[ns' cs']|]; cbn [obind]; [| discriminate].
  intros H. injection H as <- <-. exists n, c, ns', cs'. repeat split; reflexivity.
Qed.

Lemma renderItems_indices (s : State) (idxs : list Z) (ns : list NodeView) (cs : list CardView) :
  renderItems s idxs = Ret (ns, cs) ->
  n_index <$> ns = idxs /\ c_index <$> cs = idxs.
Proof.
  revert ns cs. induction idxs as [|i rest IH]; intros ns cs H.
  - simpl in H. inversion H. split; reflexivity.
  - destruct (renderItems_cons s i rest ns cs H) as (n & c & ns' & cs' & En & Ec & Er & -> & ->).
    destruct (IH ns' cs' Er) as [Hn Hc].
    destruct (createNodeHTML_ret _ _ _ _ En) as (? & ? & ? & ? & _ & _ & _ & _ & ->).
    destruct (createCardHTML_ret _ _ _ _ _ _ Ec) as (? & ? & ? & ? & _ & _ & _ & _ & ->).
    rewrite !fmap_cons. cbn [n_index c_index]. rewrite Hn, Hc. split; reflexivity.
Qed.

(** What [updateRenderedCards] does when it does not skip. *)
Lemma updateRenderedCards_render (force : bool) (s : State) :
  negb force && range_eqb (computeRange (currentIndex s) CARD_BUFFER (entryCount s))
                  (renderedRange s) = false ->
  let w := computeRange (currentIndex s) CARD_BUFFER (entryCount s) in
  updateRenderedCards force s =
    match renderItems (set_renderedRange w s) (windowIndices w) with
    | Ret (ns, cs) =>
        (Ret true, set_cardsRow cs (set_timelineNodes ns (set_renderedRange w s)))
    | Throw e => (Throw e, set_renderedRange w s)
    end.
Proof.
  intros H. unfold updateRenderedCards. rewrite !bind_gets, H.
  rewrite bind_modify, bind_gets, bind_unfold. unfold lift, id, windowIndices.
  destruct (renderItems _ _) as [[ns cs]|e]; reflexivity.
Qed.

(** A run of [updateRenderedCards] that reports a re-render went through
    the loop. *)
Lemma updateRenderedCards_true (force : bool) (s : State) :
  fst (updateRenderedCards force s) = Ret true ->
  let w := computeRange (currentIndex s) CARD_BUFFER (entryCount s) in
  exists ns cs,
    renderItems (set_renderedRange w s) (windowIndices w) = Ret (ns, cs) /\
    snd (updateRenderedCards force s) =
      set_cardsRow cs (set_timelineNodes ns (set_renderedRange w s)).
Proof.
  intros H w.
  destruct (negb force && range_eqb (computeRange (currentIndex s) CARD_BUFFER (entryCount s))
              (renderedRange s)) eqn:E.
  - exfalso. apply andb_true_iff in E. destruct E as [Ef E].
    destruct force; [discriminate |]. apply range_eqb_eq in E.
    rewrite (updateRenderedCards_skip s E) in H. discriminate.
  - rewrite (updateRenderedCards_render force s E) in *. fold w in H |- *.
    destruct (renderItems (set_renderedRange w s) (windowIndices w)) as [[ns cs]|e];
      [| discriminate].
    exists ns, cs. split; reflexivity.
Qed.

Lemma renderItems_ext (s s' : State) (idxs : list Z) :
  sameStore s s' -> currentIndex s' = currentIndex s ->
  renderItems s' idxs = renderItems s idxs.
Proof.
  intros Hs Hc. induction idxs as [|i rest IH]; [reflexivity |].
  simpl. rewrite (entryAt_sameStore s s' i Hs), Hc, IH. reflexivity.
Qed.

(** Each rendered card shows the entry its index refers to. *)
Lemma renderItems_cards (s : State) (idxs : list Z) (ns : list NodeView) (cs : list CardView) :
  renderItems s idxs = Ret (ns, cs) ->
  forall k c, cs !! k = Some c ->
  exists i e, idxs !! k = Some i /\ entryAt s i = Some e /\
    c_index c = i /\ c_number c = "#" +:+ interpolate (e_id e) /\
    c_date c = interpolate (e_timestamp e) /\ c_title c = e_title e /\
    c_description c = e_description e /\ e_files e = Some (c_files c) /\
    c_active c = (i =? currentIndex s) /\ c_prev c = (i =? currentIndex s - 1) /\
    c_next c = (i =? currentIndex s + 1).
Proof.
  revert ns cs. induction idxs as [|i rest IH]; intros ns cs H k c Hk.
  - simpl in H. injection H as <- <-. destruct k; discriminate.
  - destruct (renderItems_cons s i rest ns cs H) as (n & c0 & ns' & cs' & En & Ec & Er & -> & ->).
    destruct k as [|k]; simpl in Hk.
    + injection Hk as <-.
      destruct (createCardHTML_ret _ _ _ _ _ _ Ec) as (e & files & col & l & Ee & Ef & _ & _ & ->).
      exists i, e. simpl.
      split; [reflexivity |]. split; [exact Ee |]. rewrite Ef. repeat split.
    + exact (IH ns' cs' Er k c Hk).
Qed.

(** ** Text without markup *)

Lemma plain_app (a b : string) : plain (a +:+ b) = plain a && plain b.
Proof.
  induction a as [|c a IH]; [reflexivity |].
  change (plain (String c (a +:+ b)) = plain (String c a) && plain b).
  cbn [plain]. rewrite IH. apply andb_assoc.
Qed.

Lemma plain_dropBytes (m : nat) (s : string) :
  plain s = true -> plain (dropBytes m s) = true.
Proof.
  revert s. induction m as [|m IH]; intros s H; [exact H |].
  destruct s as [|c r]; [reflexivity |]. simpl in *.
  apply andb_true_iff in H. apply IH, H.
Qed.

Lemma plain_lowSurrogate (r : string) :
  plain r = true -> plain (lowSurrogate r) = true.
Proof.
  destruct r as [|b2 [|b3 [|b4 r]]]; try reflexivity. intros H. cbn [plain] in H.
  apply andb_true_iff in H. destruct H as [_ H].
  apply andb_true_iff in H. destruct H as [_ H].
  apply andb_true_iff in H. destruct H as [H4 _].
  unfold lowSurrogate. cbn [plain]. rewrite H4.
  assert (Hm : (nat_of_ascii b3 mod 16 < 16)%nat) by (apply Nat.mod_upper_bound; lia).
  destruct (nat_of_ascii b3 mod 16)%nat as [|[|[|[|[|[|[|[|[|[|[|[|[|[|[|[|m]]]]]]]]]]]]]]]];
    try reflexivity.
  lia.
Qed.

Lemma plain_slice (n : nat) (s : string) :
  plain s = true -> plain (slice n s) = true.
Proof.
  revert s. induction n as [n IH] using lt_wf_ind. intros s H.
  destruct n as [|k]; [exact H |].
  destruct s as [|c r]; [reflexivity |].
  cbn [plain] in H. apply andb_true_iff in H. destruct H as [_ H].
  cbn [slice].
  destruct (utf8Width c) as [|[|[|[|[|w]]]]];
    try (apply IH; [lia | apply plain_dropBytes, H]).
  destruct k as [|k'].
  - rewrite plain_app, (plain_lowSurrogate r H), (plain_dropBytes 3 r H). reflexivity.
  - apply IH; [lia | apply plain_dropBytes, H].
Qed.

Lemma plain_beforeSpace (s : string) :
  plain s = true -> plain (beforeSpace s) = true.
Proof.
  induction s as [|c r IH]; [reflexivity |]. cbn [plain beforeSpace]. intros H.
  apply andb_true_iff in H. destruct H as [Hc Hr].
  destruct (Ascii.eqb c " "); [reflexivity |]. cbn [plain]. rewrite Hc, (IH Hr). reflexivity.
Qed.

(** The labels and colours of the registry hold no markup. *)
Lemma typeConfig_plain (k : string) (t : TypeInfo) :
  typeConfigGet k = OwnValue t -> plain (label t) = true /\ plain (color t) = true.
Proof.
  unfold typeConfigGet. destruct (ownProperty k typeConfig) as [t'|] eqn:E.
  - intros H. injection H as <-. unfold typeConfig in E. cbn [ownProperty] in E.
    repeat (destruct (String.eqb k _); [injection E as <-; split; reflexivity |]).
    discriminate.
  - destruct (bool_decide _); discriminate.
Qed.

Lemma getColor_plain (k : string) (c : option string) :
  getColor (typeConfigGet k) = Ret c -> plain (interpolate c) = true.
Proof.
  destruct (typeConfigGet k) as [t| |] eqn:E; simpl; intros H; [| | discriminate].
  - injection H as <-. apply (typeConfig_plain k t E).
  - injection H as <-. reflexivity.
Qed.

Lemma getLabel_plain (k : string) (l : option string) :
  getLabel (typeConfigGet k) = Ret l -> plain (interpolate l) = true.
Proof.
  destruct (typeConfigGet k) as [t| |] eqn:E; simpl; intros H; [| | discriminate].
  - injection H as <-. apply (typeConfig_plain k t E).
  - injection H as <-. reflexivity.
Qed.

Lemma plainEntry_inv (e : Entry) :
  plainEntry (Some e) = true ->
  plain (interpolate (e_id e)) = true /\ plain (interpolate (e_timestamp e)) = true /\
  plain (e_title e) = true /\ plain (e_description e) = true /\
  forallb plain (default [] (e_files e)) = true.
Proof.
  unfold plainEntry, plainText. intros H.
  apply andb_true_iff in H. destruct H as [Hid H].
  apply andb_true_iff in H. destruct H as [H Hfiles].
  apply andb_true_iff in H. destruct H as [H Hdesc].
  apply andb_true_iff in H. destruct H as [Hts Htitle].
  auto.
Qed.

Lemma createNodeHTML_plain (entry : option Entry) (i : Z) (a : bool) (n : NodeView) :
  plainEntry entry = true -> createNodeHTML entry i a = Ret n -> plainNode n = true.
Proof.
  intros Hp H. destruct (createNodeHTML_ret _ _ _ _ H) as (e & t & c & l & -> & Et & Ec & El & ->).
  destruct (plainEntry_inv e Hp) as (_ & Ht & _). rewrite Et in Ht. cbn [interpolate] in Ht.
  unfold plainNode. cbn [n_color n_number n_title].
  rewrite (getColor_plain _ _ Ec), (getLabel_plain _ _ El).
  rewrite (plain_slice 5 _ (plain_beforeSpace t Ht)). reflexivity.
Qed.

Lemma createCardHTML_plain (entry : option Entry) (i : Z) (a p n : bool) (c : CardView) :
  plainEntry entry = true -> createCardHTML entry i a p n = Ret c -> plainCard c = true.
Proof.
  intros Hp H.
  destruct (createCardHTML_ret _ _ _ _ _ _ H) as (e & files & col & l & -> & Ef & Ec & El & ->).
  destruct (plainEntry_inv e Hp) as (Hid & Hts & Htitle & Hdesc & Hfiles).
  rewrite Ef in Hfiles. change (default [] (Some files)) with files in Hfiles.
  unfold plainCard.
  cbn [c_number c_date c_color c_label c_title c_description c_files].
  rewrite plain_app, Hid, Hts, (getColor_plain _ _ Ec), (getLabel_plain _ _ El),
    Htitle, Hdesc, Hfiles. reflexivity.
Qed.

Lemma renderItems_plain (s : State) (idxs : list Z) (ns : list NodeView) (cs : list CardView) :
  Forall (fun i => plainEntry (entryAt s i) = true) idxs ->
  renderItems s idxs = Ret (ns, cs) ->
  Forall (fun c => plainCard c = true) cs /\ Forall (fun n => plainNode n = true) ns.
Proof.
  intros Hp. revert ns cs. induction Hp as [|i rest Hi _ IH]; intros ns cs H.
  - simpl in H. injection H as <- <-. split; constructor.
  - destruct (renderItems_cons s i rest ns cs H) as (n & c & ns' & cs' & En & Ec & Er & -> & ->).
    destruct (IH ns' cs' Er) as [Hc Hn].
    split; constructor;
      [exact (createCardHTML_plain _ _ _ _ _ _ Hi Ec) | exact Hc
      | exact (createNodeHTML_plain _ _ _ _ Hi En) | exact Hn].
Qed.

Lemma plainCard_refresh (ci : Z) (c : CardView) : plainCard (refreshCard ci c) = plainCard c.
Proof. reflexivity. Qed.

Lemma plainNode_refresh (ci : Z) (n : NodeView) : plainNode (refreshNode ci n) = plainNode n.
Proof. reflexivity. Qed.

Lemma plainStrips_refresh (ci : Z) (cards : list CardView) (nodes : list NodeView) :
  Forall (fun c => plainCard c = true) cards /\ Forall (fun n => plainNode n = true) nodes ->
  Forall (fun c => plainCard c = true) (refreshCard ci <$> cards) /\
  Forall (fun n => plainNode n = true) (refreshNode ci <$> nodes).
Proof.
  intros [Hc Hn]. split; apply Forall_fmap.
  - eapply Forall_impl; [exact Hc |]. intros c H. exact H.
  - eapply Forall_impl; [exact Hn |]. intros n H. exact H.
Qed.

(** The window lies inside the array. *)
Lemma window_in_array (ci n i : Z) :
  i ∈ windowIndices (computeRange ci CARD_BUFFER n) -> 0 <= i < n.
Proof.
  unfold windowIndices, computeRange, CARD_BUFFER. cbn [r_start r_end].
  rewrite elem_of_seqZ. lia.
Qed.

Lemma plainStore_window (s : State) :
  plainStore s ->
  Forall (fun i => plainEntry (entryAt s i) = true)
         (windowIndices (computeRange (currentIndex s) CARD_BUFFER (entryCount s))).
Proof.
  intros H. apply Forall_forall. intros i Hi. apply window_in_array in Hi.
  unfold plainStore in H. rewrite Forall_seqZ in H. apply H. lia.
Qed.

(** A re-render from entries without markup leaves strips without
    markup. *)
Lemma completed_render_plain (force : bool) (s : State) :
  plainStore s -> fst (updateRenderedCards force s) = Ret true ->
  plainStrips (snd (updateRenderedCards force s)).
Proof.
  intros Hp H. destruct (updateRenderedCards_true force s H) as (ns & cs & Hr & ->).
  unfold plainStrips. cbn [cardsRow timelineNodes set_cardsRow set_timelineNodes].
  apply (renderItems_plain _ _ _ _ (plainStore_window s Hp)).
  rewrite <- Hr. symmetry. apply renderItems_ext; [split |]; reflexivity.
Qed.

(** X1: when [updateRenderedCards] reports a re-render of entries that
    hold no markup, both strips hold one item per index of the new window,
    in order and without markup, and each card shows the number, date,
    title, description and files of the entry at its index, flagged from
    the current index. *)
Theorem completed_render_materializes_window (force : bool) (s : State) :
  plainStore s ->
  fst (updateRenderedCards force s) = Ret true ->
  let s' := stateOf (updateRenderedCards force s) in
  renderedRange s' = computeRange (currentIndex s) CARD_BUFFER (entryCount s) /\
  showsWindow s' /\ plainStrips s' /\ faithful s' /\
  length (cardsRow s') = length (timelineNodes s') /\
  (forall k c, cardsRow s' !! k = Some c ->
     exists e, entryAt s (r_start (renderedRange s') + Z.of_nat k) = Some e /\
       c_index c = r_start (renderedRange s') + Z.of_nat k /\
       c_number c = "#" +:+ interpolate (e_id e) /\
       c_date c = interpolate (e_timestamp e) /\ c_title c = e_title e /\
       c_description c = e_description e /\ e_files e = Some (c_files c) /\
       c_active c = (c_index c =? currentIndex s) /\
       c_prev c = (c_index c =? currentIndex s - 1) /\
       c_next c = (c_index c =? currentIndex s + 1)).
Proof.
  intros Hp H s'. pose proof (completed_render_plain force s Hp H) as Hplain.
  destruct (updateRenderedCards_true force s H) as (ns & cs & Hr & Hs).
  unfold s', stateOf. rewrite Hs in *. clear Hs s'.
  set (w := computeRange (currentIndex s) CARD_BUFFER (entryCount s)) in *.
  destruct (renderItems_indices _ _ _ _ Hr) as [Hn Hc].
  split; [reflexivity |]. split; [split; assumption |]. split; [exact Hplain |]. split.
  { unfold faithful. simpl. rewrite <- Hr. apply renderItems_ext; [split |]; reflexivity. }
  split.
  { simpl. rewrite <- (length_fmap c_index cs), <- (length_fmap n_index ns), Hn, Hc. reflexivity. }
  intros k c Hk. simpl in Hk.
  destruct (renderItems_cards _ _ _ _ Hr k c Hk) as (i & e & Hi & He & Hci & Hrest).
  unfold windowIndices in Hi. apply lookup_seqZ in Hi. destruct Hi as [-> _].
  exists e. simpl. rewrite Hci. split; [exact He |]. split; [reflexivity | exact Hrest].
Qed.

Lemma completed_render_materializes_window_witness :
  fst (updateRenderedCards true (sampleState 5)) = Ret true /\
  c_index <$> cardsRow (stateOf (updateRenderedCards true (sampleState 5))) = [1; 2; 3; 4].
Proof.
  assert (H : fst (updateRenderedCards true (sampleState 5)) = Ret true)
    by (vm_compute; reflexivity).
  assert (Hp : plainStore (sampleState 5))
    by (unfold plainStore; apply (bool_decide_unpack _); vm_compute; exact I).
  split; [exact H |].
  destruct (completed_render_materializes_window true (sampleState 5) Hp H)
    as (Hw & [Hc _] & _).
  rewrite Hc, Hw. vm_compute. reflexivity.
Defined.

Lemma completed_render_shows (force : bool) (s : State) :
  fst (updateRenderedCards force s) = Ret true ->
  showsWindow (snd (updateRenderedCards force s)).
Proof.
  intros H. destruct (updateRenderedCards_true force s H) as (ns & cs & Hr & ->).
  destruct (renderItems_indices _ _ _ _ Hr) as [Hn Hc]. split; assumption.
Qed.

(** ** Flags *)

(** In a strip without repeated indices, the items carrying a flag that
    is set exactly at index [t] are the one item at [t], if there is one. *)
Lemma flagged_indices {A : Type} (idx : A -> Z) (flag : A -> bool) (t : Z) (l : list A) :
  (forall x, x ∈ l -> flag x = (idx x =? t)) ->
  NoDup (idx <$> l) ->
  idx <$> filter (fun x => flag x = true) l =
  if bool_decide (t ∈ idx <$> l) then [t] else [].
Proof.
  induction l as [|x l IH]; intros Hflag Hnd; [reflexivity |].
  rewrite fmap_cons in Hnd. apply NoDup_cons in Hnd. destruct Hnd as [Hx Hnd].
  specialize (IH (fun y Hy => Hflag y (list_elem_of_further _ _ _ Hy)) Hnd).
  pose proof (Hflag x (list_elem_of_here _ _)) as Hfx.
  rewrite filter_cons. destruct (decide (flag x = true)) as [Ht | Hf].
  - rewrite Hfx in Ht. apply Z.eqb_eq in Ht. rewrite fmap_cons, IH, Ht.
    rewrite Ht in Hx. rewrite (bool_decide_eq_false_2 _ Hx).
    rewrite bool_decide_eq_true_2 by (rewrite fmap_cons, Ht; left). reflexivity.
  - rewrite Hfx in Hf. apply not_true_is_false in Hf. apply Z.eqb_neq in Hf.
    rewrite IH.
    replace (bool_decide (t ∈ idx <$> x :: l)) with (bool_decide (t ∈ idx <$> l));
      [reflexivity |].
    apply bool_decide_ext. rewrite fmap_cons, elem_of_cons. intuition congruence.
Qed.

Lemma refresh_showsWindow (s : State) (ci : Z) :
  showsWindow s ->
  showsWindow (set_timelineNodes (refreshNode ci <$> timelineNodes s)
                 (set_cardsRow (refreshCard ci <$> cardsRow s) s)).
Proof.
  intros [Hc Hn]. unfold showsWindow. simpl. rewrite <- !list_fmap_compose. split.
  - rewrite <- Hc. apply list_fmap_ext. intros _ c _. reflexivity.
  - rewrite <- Hn. apply list_fmap_ext. intros _ n _. reflexivity.
Qed.

(** After any completed run of [updateRenderedCards], the flags of every
    card and node are those of the current index. *)
Lemma updateRenderedCards_flags (force : bool) (s : State) :
  returned (updateRenderedCards force s) = true ->
  let s' := stateOf (updateRenderedCards force s) in
  (forall c, c ∈ cardsRow s' ->
     c_active c = (c_index c =? currentIndex s) /\
     c_prev c = (c_index c =? currentIndex s - 1) /\
     c_next c = (c_index c =? currentIndex s + 1)) /\
  (forall n, n ∈ timelineNodes s' -> n_active n = (n_index n =? currentIndex s)).
Proof.
  intros Hret s'.
  destruct (negb force && range_eqb (computeRange (currentIndex s) CARD_BUFFER (entryCount s))
              (renderedRange s)) eqn:E.
  - apply andb_true_iff in E. destruct E as [Ef E].
    destruct force; [discriminate |]. apply range_eqb_eq in E.
    unfold s', stateOf. rewrite (updateRenderedCards_skip s E). simpl. split.
    + intros c Hc. apply list_elem_of_fmap in Hc. destruct Hc as (c0 & -> & _).
      apply (refreshCard_flags (currentIndex s) c0).
    + intros n Hn. apply list_elem_of_fmap in Hn. destruct Hn as (n0 & -> & _). reflexivity.
  - unfold s', stateOf. unfold returned in Hret.
    rewrite (updateRenderedCards_render force s E) in *.
    set (w := computeRange (currentIndex s) CARD_BUFFER (entryCount s)) in *.
    destruct (renderItems (set_renderedRange w s) (windowIndices w)) as [[ns cs]|e] eqn:Er;
      [| discriminate].
    simpl. split.
    + intros c Hc. apply list_elem_of_lookup in Hc. destruct Hc as [k Hk].
      destruct (renderItems_cards _ _ _ _ Er k c Hk)
        as (i & e & _ & _ & Hi & _ & _ & _ & _ & _ & Ha & Hp & Hx).
      rewrite Hi. simpl in Ha, Hp, Hx. auto.
    + intros n Hn. clear Hret. revert ns cs Er Hn.
      induction (windowIndices w) as [|i rest IH]; intros ns cs Er Hn.
      * simpl in Er. injection Er as <- <-. inversion Hn.
      * destruct (renderItems_cons _ i rest ns cs Er)
          as (n0 & c0 & ns' & cs' & En & _ & Er' & -> & ->).
        apply elem_of_cons in Hn. destruct Hn as [-> | Hn].
        -- destruct (createNodeHTML_ret _ _ _ _ En) as (? & ? & ? & ? & _ & _ & _ & _ & ->).
           reflexivity.
        -- exact (IH ns' cs' Er' Hn).
Qed.

(** X2: after a completed run of [updateRenderedCards] over entries
    without markup, on strips that show the window and hold no markup
    (which a re-render makes true by itself), the strips again hold no
    markup and exactly one card and one node are active, the ones at the
    current index; the card just before it, if any is rendered, is the
    only one flagged prev, and likewise the card just after it. *)
Theorem exactly_one_active_item (force : bool) (s : State) :
  0 <= currentIndex s < entryCount s ->
  plainStore s ->
  returned (updateRenderedCards force s) = true ->
  (fst (updateRenderedCards force s) = Ret false -> showsWindow s /\ plainStrips s) ->
  let s' := stateOf (updateRenderedCards force s) in
  let ci := currentIndex s in
  plainStrips s' /\
  c_index <$> filter (fun c => c_active c = true) (cardsRow s') = [ci] /\
  n_index <$> filter (fun n => n_active n = true) (timelineNodes s') = [ci] /\
  c_index <$> filter (fun c => c_prev c = true) (cardsRow s') =
    (if bool_decide (r_start (renderedRange s') <= ci - 1) then [ci - 1] else []) /\
  c_index <$> filter (fun c => c_next c = true) (cardsRow s') =
    (if bool_decide (ci + 1 <= r_end (renderedRange s')) then [ci + 1] else []).
Proof.
  intros Hci Hplain Hret Hshow s' ci.
  destruct (updateRenderedCards_flags force s Hret) as [Hcards Hnodes].
  fold s' in Hcards, Hnodes.
  assert (Hw : renderedRange s' = computeRange ci CARD_BUFFER (entryCount s)).
  { unfold s', stateOf. apply updateRenderedCards_range. }
  assert (Hs : showsWindow s' /\ plainStrips s').
  { destruct (fst (updateRenderedCards force s)) as [[|]|e] eqn:Ef.
    - split; [apply (completed_render_shows force s Ef) |
              apply (completed_render_plain force s Hplain Ef)].
    - unfold s', stateOf. destruct (Hshow eq_refl) as [Hsh Hpl].
      destruct (negb force && range_eqb (computeRange (currentIndex s) CARD_BUFFER (entryCount s))
                  (renderedRange s)) eqn:E.
      + apply andb_true_iff in E. destruct E as [_ E]. apply range_eqb_eq in E.
        destruct force.
        * rewrite (updateRenderedCards_render true s eq_refl) in Ef.
          destruct (renderItems _ _) as [[??]|]; discriminate.
        * rewrite (updateRenderedCards_skip s E). simpl.
          split; [apply refresh_showsWindow, Hsh | apply plainStrips_refresh, Hpl].
      + rewrite (updateRenderedCards_render force s E) in Ef.
        destruct (renderItems _ _) as [[??]|]; discriminate.
    - unfold returned in Hret. rewrite Ef in Hret. discriminate. }
  destruct Hs as [[Hc Hn] Hpl'].
  split; [exact Hpl' |].
  assert (Hnd : NoDup (windowIndices (renderedRange s'))) by apply NoDup_seqZ.
  assert (Hin : forall t, t ∈ windowIndices (renderedRange s') <->
                  r_start (renderedRange s') <= t <= r_end (renderedRange s')).
  { intros t. unfold windowIndices. rewrite elem_of_seqZ. lia. }
  assert (Hbounds : r_start (renderedRange s') <= ci <= r_end (renderedRange s')).
  { rewrite Hw. unfold computeRange, CARD_BUFFER. simpl. lia. }
  split.
  { rewrite (flagged_indices c_index c_active ci); [| intros c H; apply Hcards, H | rewrite Hc; exact Hnd].
    rewrite Hc. rewrite bool_decide_eq_true_2 by (apply Hin; exact Hbounds). reflexivity. }
  split.
  { rewrite (flagged_indices n_index n_active ci); [| intros n H; apply Hnodes, H | rewrite Hn; exact Hnd].
    rewrite Hn. rewrite bool_decide_eq_true_2 by (apply Hin; exact Hbounds). reflexivity. }
  split.
  { rewrite (flagged_indices c_index c_prev (ci - 1)); [| intros c H; apply Hcards, H | rewrite Hc; exact Hnd].
    rewrite Hc.
    replace (bool_decide (ci - 1 ∈ windowIndices (renderedRange s')))
      with (bool_decide (r_start (renderedRange s') <= ci - 1)); [reflexivity |].
    apply bool_decide_ext. rewrite Hin. lia. }
  { rewrite (flagged_indices c_index c_next (ci + 1)); [| intros c H; apply Hcards, H | rewrite Hc; exact Hnd].
    rewrite Hc.
    replace (bool_decide (ci + 1 ∈ windowIndices (renderedRange s')))
      with (bool_decide (ci + 1 <= r_end (renderedRange s'))); [reflexivity |].
    apply bool_decide_ext. rewrite Hin. lia. }
Qed.

Lemma exactly_one_active_item_witness :
  (0 <= currentIndex (sampleState 5) < entryCount (sampleState 5) /\
   returned (updateRenderedCards false (sampleState 5)) = true /\
   showsWindow (sampleState 5) /\ plainStrips (sampleState 5)) /\
  c_index <$> filter (fun c => c_active c = true)
                (cardsRow (stateOf (updateRenderedCards false (sampleState 5)))) =
    [currentIndex (sampleState 5)].
Proof.
  assert (Hi : 0 <= currentIndex (sampleState 5) < entryCount (sampleState 5))
    by (vm_compute; split; [discriminate | reflexivity]).
  assert (Hr : returned (updateRenderedCards false (sampleState 5)) = true)
    by (vm_compute; reflexivity).
  assert (Hs : showsWindow (sampleState 5))
    by (split; vm_compute; reflexivity).
  assert (Hp : plainStore (sampleState 5))
    by (unfold plainStore; apply (bool_decide_unpack _); vm_compute; exact I).
  assert (Hq : plainStrips (sampleState 5))
    by (split; apply (bool_decide_unpack _); vm_compute; exact I).
  split; [auto |].
  destruct (exactly_one_active_item false (sampleState 5) Hi Hp Hr (fun _ => conj Hs Hq))
    as (_ & Ha & _).
  exact Ha.
Defined.

(** ** The skipped render against the forced one *)

Lemma refreshCard_built (ci ci' i : Z) (num date col lab title desc : string)
    (files : list string) :
  refreshCard ci'
    {| c_index := i; c_active := i =? ci; c_prev := i =? ci - 1; c_next := i =? ci + 1;
       c_number := num; c_date := date; c_color := col; c_label := lab;
       c_title := title; c_description := desc; c_files := files |} =
    {| c_index := i; c_active := i =? ci'; c_prev := i =? ci' - 1; c_next := i =? ci' + 1;
       c_number := num; c_date := date; c_color := col; c_label := lab;
       c_title := title; c_description := desc; c_files := files |}.
Proof.
  unfold refreshCard. simpl.
  destruct (i =? ci') eqn:E1; destruct (i =? ci' - 1) eqn:E2;
    destruct (i =? ci' + 1) eqn:E3; simpl; try reflexivity; lia.
Qed.

(** Rendering for another current index gives the same items with their
    flags refreshed. *)
Lemma renderItems_reindex (s : State) (ci' : Z) (idxs : list Z)
    (ns : list NodeView) (cs : list CardView) :
  renderItems s idxs = Ret (ns, cs) ->
  renderItems (set_currentIndex ci' s) idxs =
    Ret (refreshNode ci' <$> ns, refreshCard ci' <$> cs).
Proof.
  revert ns cs. induction idxs as [|i rest IH]; intros ns cs H.
  - simpl in H. injection H as <- <-. reflexivity.
  - destruct (renderItems_cons s i rest ns cs H) as (n & c & ns' & cs' & En & Ec & Er & -> & ->).
    destruct (createNodeHTML_ret _ _ _ _ En) as (e & t & col & l & Ee & Et & Hcol & Hl & ->).
    destruct (createCardHTML_ret _ _ _ _ _ _ Ec)
      as (e' & files & col' & l' & Ee' & Ef & Hcol' & Hl' & ->).
    rewrite Ee in Ee'. injection Ee' as <-.
    rewrite Hcol in Hcol'. injection Hcol' as <-.
    rewrite Hl in Hl'. injection Hl' as <-.
    cbn [renderItems]. cbv zeta.
    change (entryAt (set_currentIndex ci' s) i) with (entryAt s i).
    change (currentIndex (set_currentIndex ci' s)) with ci'.
    rewrite (IH ns' cs' Er), Ee. unfold createNodeHTML, createCardHTML.
    rewrite Hcol, Hl, Et, Ef. cbn [obind].
    rewrite !fmap_cons, refreshCard_built. reflexivity.
Qed.

(** X3: the skipped render is sound.  When the entries hold no markup
    and the strips are what a render of the rendered window would build,
    then after the current index moved to one with the same window,
    refreshing the flags in place leaves the page exactly as a forced
    re-render would, with strips that hold no markup. *)
Theorem skipped_render_equals_forced (s : State) (ci' : Z) :
  plainStore s -> faithful s ->
  computeRange ci' CARD_BUFFER (entryCount s) = renderedRange s ->
  fst (updateRenderedCards false (set_currentIndex ci' s)) = Ret false /\
  fst (updateRenderedCards true (set_currentIndex ci' s)) = Ret true /\
  stateOf (updateRenderedCards false (set_currentIndex ci' s)) =
  stateOf (updateRenderedCards true (set_currentIndex ci' s)) /\
  plainStrips (stateOf (updateRenderedCards true (set_currentIndex ci' s))).
Proof.
  intros Hplain Hf Hw.
  assert (Hpl : fst (updateRenderedCards true (set_currentIndex ci' s)) = Ret true ->
                plainStrips (stateOf (updateRenderedCards true (set_currentIndex ci' s))))
    by (apply (completed_render_plain true (set_currentIndex ci' s)); exact Hplain).
  revert Hpl. unfold faithful in Hf.
  pose proof (renderItems_reindex s ci' _ _ _ Hf) as Hre.
  rewrite (updateRenderedCards_skip (set_currentIndex ci' s)) by exact Hw.
  rewrite (updateRenderedCards_render true (set_currentIndex ci' s) eq_refl).
  cbv zeta.
  change (computeRange (currentIndex (set_currentIndex ci' s)) CARD_BUFFER
            (entryCount (set_currentIndex ci' s)))
    with (computeRange ci' CARD_BUFFER (entryCount s)).
  rewrite Hw.
  rewrite (renderItems_ext (set_currentIndex ci' s)
             (set_renderedRange (renderedRange s) (set_currentIndex ci' s)))
    by (try split; reflexivity).
  rewrite Hre. unfold stateOf. cbn [fst snd]. intros Hpl.
  split; [reflexivity |]. split; [reflexivity |].
  split; [destruct s; reflexivity | exact (Hpl eq_refl)].
Qed.

Lemma skipped_render_equals_forced_witness :
  (plainStore (sampleState 3) /\ faithful (sampleState 3) /\
   computeRange 0 CARD_BUFFER (entryCount (sampleState 3)) = renderedRange (sampleState 3)) /\
  stateOf (updateRenderedCards false (set_currentIndex 0 (sampleState 3))) =
  stateOf (updateRenderedCards true (set_currentIndex 0 (sampleState 3))).
Proof.
  assert (Hp : plainStore (sampleState 3))
    by (unfold plainStore; apply (bool_decide_unpack _); vm_compute; exact I).
  assert (Hf : faithful (sampleState 3)) by (vm_compute; reflexivity).
  assert (Hw : computeRange 0 CARD_BUFFER (entryCount (sampleState 3)) =
               renderedRange (sampleState 3)) by (vm_compute; reflexivity).
  split; [auto |].
  destruct (skipped_render_equals_forced (sampleState 3) 0 Hp Hf Hw) as (_ & _ & H & _).
  exact H.
Defined.

(** ** The slider *)

Lemma findActive_none (ci pos : Z) (cards : list CardView) :
  ci ∉ c_index <$> cards -> findActive ci pos cards = None.
Proof.
  revert pos. induction cards as [|c rest IH]; intros pos H; [reflexivity |].
  rewrite fmap_cons in H. apply not_elem_of_cons in H. destruct H as [Hc Hr].
  simpl. rewrite (IH (pos + 1) Hr).
  destruct (Z.eqb_spec (c_index c) ci) as [E | _]; [congruence | reflexivity].
Qed.

(** In a strip that holds the indices [a, a+1, ...] the card of index
    [ci] is at place [ci - a]. *)
Lemma findActive_window (ci pos a len : Z) (cards : list CardView) :
  c_index <$> cards = seqZ a len -> a <= ci < a + len ->
  findActive ci pos cards = Some (pos + (ci - a)).
Proof.
  revert pos a len. induction cards as [|c rest IH]; intros pos a len Hidx Hci.
  - rewrite seqZ_cons in Hidx by lia. discriminate.
  - rewrite seqZ_cons in Hidx by lia. rewrite fmap_cons in Hidx.
    injection Hidx as Hc Hrest. simpl.
    destruct (decide (ci = a)) as [-> | Hne].
    + rewrite findActive_none.
      * rewrite Hc, Z.eqb_refl. f_equal. lia.
      * rewrite Hrest, elem_of_seqZ. lia.
    + rewrite (IH (pos + 1) (Z.succ a) (Z.pred len) Hrest) by lia. f_equal. lia.
Qed.

Lemma updateSliderPosition_idle (animate : bool) (s : State) :
  findActive (currentIndex s) 0 (cardsRow s) = None ->
  updateSliderPosition animate s = (Ret tt, s).
Proof.
  intros H. unfold updateSliderPosition. rewrite !bind_gets.
  destruct (cardsRow s) as [|c rest]; [reflexivity |]. rewrite H. reflexivity.
Qed.

Lemma updateSliderPosition_found (animate : bool) (s : State) (k : Z) :
  findActive (currentIndex s) 0 (cardsRow s) = Some k ->
  updateSliderPosition animate s =
    (Ret tt, set_eventsSlider (sliderAt (k * (cardWidth s + GAP)) animate (eventsSlider s)) s).
Proof.
  intros H. unfold updateSliderPosition. rewrite !bind_gets.
  destruct (cardsRow s) as [|c rest]; [discriminate |]. rewrite H.
  rewrite !bind_gets. destruct animate; reflexivity.
Qed.

Lemma slider_at_rest (animate : bool) (s : State) :
  c_index <$> cardsRow s = windowIndices (renderedRange s) ->
  inWindow (renderedRange s) (currentIndex s) ->
  updateSliderPosition animate s =
    (Ret tt, set_eventsSlider (sliderAt (restingOffset s) animate (eventsSlider s)) s) /\
  sl_offset (sliderAt (restingOffset s) animate (eventsSlider s)) = restingOffset s.
Proof.
  intros Hidx [Hlo Hhi].
  assert (Hf : findActive (currentIndex s) 0 (cardsRow s) =
               Some (currentIndex s - r_start (renderedRange s))).
  { rewrite (findActive_window _ 0 _ _ _ Hidx) by lia. f_equal. }
  rewrite (updateSliderPosition_found animate s _ Hf).
  split; [reflexivity | destruct animate; reflexivity].
Qed.





(** ** Well-typed stores *)

#[global] Instance silent_preorder : PreOrder silent.
Proof. split; [intros s; reflexivity | intros a b c H1 H2; unfold silent in *; congruence]. Qed.

#[global] Instance sameWidth_preorder : PreOrder sameWidth.
Proof. split; [intros s; reflexivity | intros a b c H1 H2; unfold sameWidth in *; congruence]. Qed.

#[global] Instance sameScene_preorder : PreOrder sameScene.
Proof.
  split; [intros s; repeat split |].
  intros a b c (H1 & H2 & H3 & H4 & H5) (H1' & H2' & H3' & H4' & H5').
  repeat split; congruence.
Qed.

Lemma set_headerEl_scene (el : HeaderEl) (v : TextEl) :
  respects sameScene (modify (set_headerEl el v)).
Proof. apply respects_modify. intros s. destruct el; frame_side. Qed.

Lemma set_headerEl_silent (el : HeaderEl) (v : TextEl) :
  respects silent (modify (set_headerEl el v)).
Proof. apply respects_modify. intros s. destruct el; frame_side. Qed.

Lemma set_headerEl_sameWidth (el : HeaderEl) (v : TextEl) :
  respects sameWidth (modify (set_headerEl el v)).
Proof. apply respects_modify. intros s. destruct el; frame_side. Qed.

#[global] Hint Resolve set_headerEl_scene set_headerEl_silent set_headerEl_sameWidth : frame.

Lemma setTimeout_scene (t : TimerTask) (d : Z) : respects sameScene (setTimeout t d).
Proof. unfold setTimeout. frame. Qed.

Lemma setTimeout_silent (t : TimerTask) (d : Z) : respects silent (setTimeout t d).
Proof. unfold setTimeout. frame. Qed.

Lemma setTimeout_sameWidth (t : TimerTask) (d : Z) : respects sameWidth (setTimeout t d).
Proof. unfold setTimeout. frame. Qed.

#[global] Hint Resolve setTimeout_scene setTimeout_silent setTimeout_sameWidth : frame.

Lemma animateText_scene (el : HeaderEl) (t : option string) : respects sameScene (animateText el t).
Proof. unfold animateText. frame. Qed.

Lemma animateText_silent (el : HeaderEl) (t : option string) : respects silent (animateText el t).
Proof. unfold animateText. frame. Qed.

Lemma animateText_sameWidth (el : HeaderEl) (t : option string) :
  respects sameWidth (animateText el t).
Proof. unfold animateText. frame. Qed.

#[global] Hint Resolve animateText_scene animateText_silent animateText_sameWidth : frame.

Lemma updateUI_scene : respects sameScene updateUI.
Proof. unfold updateUI. frame. Qed.

Lemma updateUI_silent : respects silent updateUI.
Proof. unfold updateUI. frame. Qed.

Lemma updateUI_sameWidth : respects sameWidth updateUI.
Proof. unfold updateUI. frame. Qed.

Lemma updateCardActiveStates_silent : respects silent updateCardActiveStates.
Proof. unfold updateCardActiveStates. frame. Qed.

Lemma updateCardActiveStates_sameWidth : respects sameWidth updateCardActiveStates.
Proof. unfold updateCardActiveStates. frame. Qed.

#[global] Hint Resolve updateUI_scene updateUI_silent updateUI_sameWidth
  updateCardActiveStates_silent updateCardActiveStates_sameWidth : frame.

Lemma updateSliderPosition_silent (animate : bool) :
  respects silent (updateSliderPosition animate).
Proof. unfold updateSliderPosition. frame. Qed.

Lemma updateSliderPosition_sameWidth (animate : bool) :
  respects sameWidth (updateSliderPosition animate).
Proof. unfold updateSliderPosition. frame. Qed.

Lemma updateRenderedCards_silent (force : bool) : respects silent (updateRenderedCards force).
Proof. unfold updateRenderedCards. frame. Qed.

Lemma updateRenderedCards_sameWidth (force : bool) :
  respects sameWidth (updateRenderedCards force).
Proof. unfold updateRenderedCards. frame. Qed.

Lemma requestAnimationFrame_silent (t : FrameTask) : respects silent (requestAnimationFrame t).
Proof. unfold requestAnimationFrame. frame. Qed.

Lemma requestAnimationFrame_sameWidth (t : FrameTask) :
  respects sameWidth (requestAnimationFrame t).
Proof. unfold requestAnimationFrame. frame. Qed.

#[global] Hint Resolve updateSliderPosition_silent updateSliderPosition_sameWidth
  updateRenderedCards_silent updateRenderedCards_sameWidth
  requestAnimationFrame_silent requestAnimationFrame_sameWidth : frame.

Lemma goToIndex_silent (index : Z) : respects silent (goToIndex index).
Proof. unfold goToIndex. frame. Qed.

#[global] Hint Resolve goToIndex_silent : frame.

Lemma goToPrev_silent : respects silent goToPrev.
Proof. unfold goToPrev. frame. Qed.

Lemma goToNext_silent : respects silent goToNext.
Proof. unfold goToNext. frame. Qed.

#[global] Hint Resolve goToPrev_silent goToNext_silent : frame.

Lemma dispatch_silent (ev : Event) : respects silent (dispatch ev).
Proof. unfold dispatch. frame. Qed.

Lemma timerCallback_silent (t : TimerTask) : respects silent (timerCallback t).
Proof. unfold timerCallback. frame. Qed.

Lemma frameCallback_silent (t : FrameTask) : respects silent (frameCallback t).
Proof. unfold frameCallback. frame. Qed.

Lemma wellFormed_renderable (s : State) (i : Z) :
  wellFormed s -> 0 <= i < entryCount s -> renderable (entryAt s i) = true.
Proof.
  intros H Hi. unfold wellFormed in H. rewrite Forall_seqZ in H.
  specialize (H i ltac:(lia)). apply andb_true_iff in H. apply H.
Qed.

Lemma wellFormed_entry (s : State) (i : Z) :
  wellFormed s -> 0 <= i < entryCount s -> typeReadable (entryAt s i) = true.
Proof. intros H Hi. apply renderable_typeReadable, (wellFormed_renderable s i H Hi). Qed.

Lemma wellFormed_plainStore (s : State) : wellFormed s -> plainStore s.
Proof.
  unfold wellFormed, plainStore. intros H. eapply Forall_impl; [exact H |].
  intros i Hi. simpl in Hi. apply andb_true_iff in Hi. apply Hi.
Qed.

Lemma wellFormed_sameStore (s s' : State) :
  sameStore s s' -> wellFormed s -> wellFormed s'.
Proof.
  intros Hs H. unfold wellFormed in *. destruct Hs as [Hh Hl].
  unfold entryCount. rewrite Hl. fold (entryCount s).
  eapply Forall_impl; [exact H |]. intros i Hi. simpl in *.
  rewrite (entryAt_sameStore s s' i (conj Hh Hl)). exact Hi.
Qed.

Lemma sound_steady (s s' : State) : steady s s' -> sound s -> sound s'.
Proof.
  intros (Hs & Hc & _) [Hw Hi]. split; [exact (wellFormed_sameStore s s' Hs Hw) |].
  destruct Hs as [_ Hl]. unfold entryCount in *. rewrite Hl, Hc. exact Hi.
Qed.

(** The window never reaches outside the array, so on a well-formed store
    every entry the loop reads can be rendered. *)
Lemma updateRenderedCards_wellFormed (force : bool) (s : State) :
  wellFormed s -> returned (updateRenderedCards force s) = true.
Proof.
  intros Hw.
  destruct (negb force && range_eqb (computeRange (currentIndex s) CARD_BUFFER (entryCount s))
              (renderedRange s)) eqn:E.
  - apply andb_true_iff in E. destruct E as [Ef E]. destruct force; [discriminate |].
    apply range_eqb_eq in E. rewrite (updateRenderedCards_skip s E). reflexivity.
  - rewrite (updateRenderedCards_render force s E). cbv zeta.
    set (w := computeRange (currentIndex s) CARD_BUFFER (entryCount s)).
    destruct (renderItems_readable (set_renderedRange w s) (windowIndices w)) as (ns & cs & ->);
      [| reflexivity].
    unfold windowIndices. apply Forall_seqZ. intros i Hi.
    change (entryAt (set_renderedRange w s) i) with (entryAt s i).
    apply wellFormed_renderable; [exact Hw |]. unfold w, computeRange in Hi. simpl in Hi. lia.
Qed.

Lemma updateUI_sound (s : State) : sound s -> returned (updateUI s) = true.
Proof.
  intros [Hw Hi]. rewrite updateUI_returned.
  exact (wellFormed_entry s (currentIndex s) Hw Hi).
Qed.

Lemma goToIndex_jump (s : State) (index : Z) :
  isAnimating s = false -> 0 <= index < entryCount s ->
  ~ inWindow (renderedRange s) index ->
  goToIndex index s =
    (gets eventsSlider ≫= fun sl =>
     modify (set_eventsSlider
               {| sl_offset := sl_offset sl; sl_transitionNone := true;
                  sl_animated := sl_animated sl |}) ≫= fun _ =>
     updateRenderedCards true ≫= fun _ =>
     gets firstCardWidth ≫= fun w =>
     modify (set_eventsSlider
               {| sl_offset := (CARD_BUFFER - 1) * (w + GAP);
                  sl_transitionNone := false; sl_animated := false |}) ≫= fun _ =>
     requestAnimationFrame JumpFrame ≫= fun _ =>
     setTimeout JumpDone TRANSITION_MS)
      (set_currentIndex index (set_isAnimating true s)).
Proof.
  intros Ha Hi Hout. unfold goToIndex. rewrite !bind_gets, Ha.
  replace (index <? 0) with false by lia.
  replace (index >=? entryCount s) with false by lia.
  cbn [orb]. rewrite !bind_modify, bind_gets.
  change (renderedRange (set_currentIndex index (set_isAnimating true s)))
    with (renderedRange s).
  replace ((index >=? r_start (renderedRange s)) && (index <=? r_end (renderedRange s)))
    with false; [reflexivity |].
  symmetry. apply andb_false_iff. unfold inWindow in Hout.
  destruct (Z.geb_spec index (r_start (renderedRange s)));
    destruct (Z.leb_spec index (r_end (renderedRange s))); auto. lia.
Qed.

Lemma inWindow_dec (r : Range) (i : Z) : {inWindow r i} + {~ inWindow r i}.
Proof.
  unfold inWindow.
  destruct (Z_le_dec (r_start r) i); destruct (Z_le_dec i (r_end r)); auto; right; lia.
Qed.

(** On a well-formed store [goToIndex] returns, whatever integer it is
    asked. *)
Lemma goToIndex_wellFormed (s : State) (index : Z) :
  wellFormed s -> returned (goToIndex index s) = true.
Proof.
  intros Hw.
  destruct (isAnimating s) eqn:Ha.
  { rewrite goToIndex_rejected by (left; exact Ha). reflexivity. }
  destruct (Z.ltb_spec index 0) as [Hneg | Hpos].
  { rewrite goToIndex_rejected by (right; left; exact Hneg). reflexivity. }
  destruct (Z.leb_spec (entryCount s) index) as [Hbig | Hsmall].
  { rewrite goToIndex_rejected by (right; right; exact Hbig). reflexivity. }
  assert (Hi : 0 <= index < entryCount s) by lia.
  destruct (inWindow_dec (renderedRange s) index) as [Hin | Hout].
  - destruct (goToIndex_slide_state s index Ha Hi Hin) as (-> & _).
    exact (wellFormed_entry s index Hw Hi).
  - rewrite (goToIndex_jump s index Ha Hi Hout).
    rewrite bind_gets, bind_modify.
    set (s0 := set_eventsSlider _ _).
    assert (Hw0 : wellFormed s0) by (apply (wellFormed_sameStore s); [split; reflexivity | exact Hw]).
    pose proof (updateRenderedCards_wellFormed true s0 Hw0) as Hr.
    rewrite bind_unfold. unfold returned in Hr.
    destruct (updateRenderedCards true s0) as [[d|e] s1]; [| discriminate].
    reflexivity.
Qed.

(** ** Navigation on a well-formed store *)

Lemma safe_ret {A : Type} (a : A) : safe (mret a).
Proof. intros s H. split; [reflexivity | exact H]. Qed.

Lemma safe_gets {A : Type} (f : State -> A) : safe (gets f).
Proof. intros s H. split; [reflexivity | exact H]. Qed.

Lemma safe_bind {A B : Type} (m : M A) (f : A -> M B) :
  safe m -> (forall a, safe (f a)) -> safe (m ≫= f).
Proof.
  intros Hm Hf s H. rewrite bind_unfold. destruct (Hm s H) as [Hr Hw].
  destruct (m s) as [[a|e] s']; [exact (Hf a s' Hw) | discriminate].
Qed.

Lemma safe_when (b : bool) (m : M unit) : safe m -> safe (when b m).
Proof. intros H. destruct b; [exact H | apply safe_ret]. Qed.

Lemma safe_intro {A : Type} (m : M A) :
  (forall s, wellFormed s -> returned (m s) = true) -> respects sameStore m -> safe m.
Proof.
  intros Hr Hs s H. split; [exact (Hr s H) |].
  exact (wellFormed_sameStore s _ (Hs s) H).
Qed.

Lemma safe_goToIndex (index : Z) : safe (goToIndex index).
Proof.
  apply safe_intro; [intros s H; apply goToIndex_wellFormed, H | apply goToIndex_sameStore].
Qed.

Lemma safe_goToPrev : safe goToPrev.
Proof.
  unfold goToPrev. apply safe_bind; [apply safe_gets | intros ci].
  destruct (ci >? 0); [apply safe_goToIndex | apply safe_ret].
Qed.

Lemma safe_goToNext : safe goToNext.
Proof.
  unfold goToNext. apply safe_bind; [apply safe_gets | intros ci].
  apply safe_bind; [apply safe_gets | intros n].
  destruct (ci <? n - 1); [apply safe_goToIndex | apply safe_ret].
Qed.

Lemma safe_modify (f : State -> State) :
  (forall s, sameStore s (f s)) -> safe (modify f).
Proof.
  intros Hf. apply safe_intro; [reflexivity |]. intros s. apply Hf.
Qed.

Lemma safe_setTimeout (t : TimerTask) (d : Z) : safe (setTimeout t d).
Proof. apply safe_intro; [reflexivity | apply setTimeout_sameStore]. Qed.

Lemma safe_dispatch (ev : Event) : safe (dispatch ev).
Proof.
  unfold dispatch. apply safe_bind; [apply safe_gets | intros on].
  destruct (negb on); [apply safe_ret |].
  destruct ev.
  - apply safe_bind; [apply safe_gets | intros d]. apply safe_when, safe_goToPrev.
  - apply safe_bind; [apply safe_gets | intros d]. apply safe_when, safe_goToNext.
  - apply safe_bind; [apply safe_gets | intros nodes].
    destruct (bool_decide _); [apply safe_goToIndex | apply safe_ret].
  - apply safe_bind; [apply safe_when, safe_goToPrev | intros _; apply safe_when, safe_goToNext].
  - apply safe_modify. intros s. split; reflexivity.
  - apply safe_bind; [apply safe_gets | intros x0].
    destruct (Z.abs _ >? 50); [| apply safe_ret].
    destruct (_ >? 0); [apply safe_goToNext | apply safe_goToPrev].
  - destruct (deltaY >? 0); [apply safe_goToNext | apply safe_goToPrev].
  - apply safe_bind; [apply safe_gets | intros q].
    apply safe_bind; [apply safe_modify; intros s; split; reflexivity | intros _].
    apply safe_setTimeout.
Qed.

Lemma safe_timerCallback (t : TimerTask) : safe (timerCallback t).
Proof.
  destruct t; unfold timerCallback.
  - apply safe_modify. intros s. destruct el; split; reflexivity.
  - apply safe_bind.
    + apply safe_intro; [apply updateRenderedCards_wellFormed |].
      apply steady_sameStore, quiet_steady, updateRenderedCards_quiet.
    + intros d. apply safe_bind; [| intros _; apply safe_modify; intros s; split; reflexivity].
      apply safe_when. apply safe_intro; [intros s _; apply updateSliderPosition_returns |].
      apply steady_sameStore, quiet_steady, updateSliderPosition_quiet.
  - apply safe_modify. intros s. split; reflexivity.
  - apply safe_intro; [intros s _; apply updateSliderPosition_returns |].
    apply steady_sameStore, quiet_steady, updateSliderPosition_quiet.
Qed.

#[global] Instance orderly_preorder : PreOrder orderly.
Proof.
  split; [intros s H; split; [exact H | reflexivity] |].
  intros a b c H1 H2 Ha. destruct (H1 Ha) as [Hb E1]. destruct (H2 Hb) as [Hc E2].
  split; [exact Hc | congruence].
Qed.

(** A callback that returns, keeps store and index, and writes nothing. *)
Lemma orderly_callback (m : M unit) (s : State) :
  (sound s -> returned (m s) = true) ->
  sameStore s (snd (m s)) -> currentIndex (snd (m s)) = currentIndex s ->
  silent s (snd (m s)) ->
  orderly s (runCallback m s).
Proof.
  intros Hr Hs Hc Hq [Hw Hi]. specialize (Hr (conj Hw Hi)). unfold runCallback.
  destruct (m s) as [[[]|e] s']; [| discriminate]. simpl in *.
  split; [| exact Hq]. split; [exact (wellFormed_sameStore s s' Hs Hw) |].
  destruct Hs as [_ Hl]. unfold entryCount in *. rewrite Hl, Hc. exact Hi.
Qed.

Lemma timerCallback_orderly (t : TimerTask) (s : State) :
  orderly s (runCallback (timerCallback t) s).
Proof.
  destruct (timerCallback_focus t s) as (Hs & Hc & _).
  apply orderly_callback; [| exact Hs | exact Hc | apply timerCallback_silent].
  intros [Hw _]. apply (safe_timerCallback t s Hw).
Qed.

Lemma frameCallback_orderly (t : FrameTask) (s : State) :
  orderly s (runCallback (frameCallback t) s).
Proof.
  destruct (frameCallback_quiet t s) as [(Hs & Hc & _) _].
  apply orderly_callback; [| exact Hs | exact Hc | apply frameCallback_silent].
  intros Hsound. destruct t. unfold frameCallback.
  rewrite (bind_returns _ _ _ (updateSliderPosition_returns true)).
  apply updateUI_sound.
  apply (sound_steady s); [apply (updateSliderPosition_quiet true s) | exact Hsound].
Qed.

(** A request keeps the index in the array: it moves it only to an index
    it has checked. *)
Lemma goToIndex_orderly (index : Z) : respects orderly (goToIndex index).
Proof.
  intros s [Hw Hi].
  pose proof (goToIndex_sameStore index s) as Hs.
  pose proof (goToIndex_silent index s) as Hq.
  split; [| exact Hq]. split; [exact (wellFormed_sameStore s _ Hs Hw) |].
  destruct (isAnimating s) eqn:Ha.
  { rewrite goToIndex_rejected by (left; exact Ha). exact Hi. }
  destruct (Z.ltb_spec index 0) as [Hneg | Hpos].
  { rewrite goToIndex_rejected by (right; left; exact Hneg). exact Hi. }
  destruct (Z.leb_spec (entryCount s) index) as [Hbig | Hsmall].
  { rewrite goToIndex_rejected by (right; right; exact Hbig). exact Hi. }
  destruct (goToIndex_accepted_state s index Ha (conj Hpos Hsmall)) as (_ & Hc & _ & Hl & _).
  unfold stateOf in Hc, Hl. unfold entryCount. rewrite Hc, Hl. fold (entryCount s). lia.
Qed.

#[global] Hint Resolve goToIndex_orderly : frame.

Lemma goToPrev_orderly : respects orderly goToPrev.
Proof. unfold goToPrev. frame. Qed.

Lemma goToNext_orderly : respects orderly goToNext.
Proof. unfold goToNext. frame. Qed.

#[global] Hint Resolve goToPrev_orderly goToNext_orderly : frame.

Lemma setTimeout_orderly (t : TimerTask) (d : Z) : respects orderly (setTimeout t d).
Proof. unfold setTimeout. frame. Qed.

#[global] Hint Resolve setTimeout_orderly : frame.

Lemma dispatch_orderly (ev : Event) : respects orderly (dispatch ev).
Proof. unfold dispatch. frame. Qed.

Lemma perform_orderly (a : Action) (s : State) : navigates a -> orderly s (perform a s).
Proof.
  destruct a; simpl; intros Hn; try contradiction.
  - unfold advance.
    match goal with
    | |- orderly s (foldl _ ?s0 _) => transitivity s0; [intros H; split; [exact H | reflexivity] |]
    end.
    apply (respects_foldl orderly). intros st p _. apply timerCallback_orderly.
  - unfold runFrames.
    match goal with
    | |- orderly s (foldl _ ?s0 _) => transitivity s0; [intros H; split; [exact H | reflexivity] |]
    end.
    apply (respects_foldl orderly). intros st p _. apply frameCallback_orderly.
  - intros Hsound. destruct (safe_dispatch ev s (proj1 Hsound)) as [Hr _].
    unfold runCallback. pose proof (dispatch_orderly ev s Hsound) as Ho.
    unfold returned in Hr. destruct (dispatch ev s) as [[[]|e] s']; [exact Ho | discriminate].
  - apply goToIndex_orderly.
  - apply goToIndex_orderly.
  - unfold goToLast, stateOf. rewrite bind_gets. apply goToIndex_orderly.
Qed.

Lemma run_orderly (acts : list Action) (s : State) :
  Forall navigates acts -> orderly s (run acts s).
Proof.
  intros H. revert s. induction H as [|a acts Ha _ IH]; intros s; simpl.
  - reflexivity.
  - etransitivity; [apply perform_orderly; exact Ha | apply IH].
Qed.

(** ** Strips without markup *)

Lemma updateCardActiveStates_eq (s : State) :
  updateCardActiveStates s =
    (Ret tt,
     set_timelineNodes (refreshNode (currentIndex s) <$> timelineNodes s)
       (set_cardsRow (refreshCard (currentIndex s) <$> cardsRow s) s)).
Proof. reflexivity. Qed.


#[global] Instance staysClean_preorder : PreOrder staysClean.
Proof. split; [intros s H; exact H | intros a b c H1 H2 H; exact (H2 (H1 H))]. Qed.

Lemma set_headerEl_clean (el : HeaderEl) (v : TextEl) :
  respects staysClean (modify (set_headerEl el v)).
Proof. apply respects_modify. intros s. destruct el; frame_side. Qed.

#[global] Hint Resolve set_headerEl_clean : frame.

Lemma setTimeout_clean (t : TimerTask) (d : Z) : respects staysClean (setTimeout t d).
Proof. unfold setTimeout. frame. Qed.

Lemma requestAnimationFrame_clean (t : FrameTask) :
  respects staysClean (requestAnimationFrame t).
Proof. unfold requestAnimationFrame. frame. Qed.

#[global] Hint Resolve setTimeout_clean requestAnimationFrame_clean : frame.

Lemma animateText_clean (el : HeaderEl) (t : option string) :
  respects staysClean (animateText el t).
Proof. unfold animateText. frame. Qed.

#[global] Hint Resolve animateText_clean : frame.

Lemma updateUI_clean : respects staysClean updateUI.
Proof. unfold updateUI. frame. Qed.

Lemma updateSliderPosition_clean (animate : bool) :
  respects staysClean (updateSliderPosition animate).
Proof. unfold updateSliderPosition. frame. Qed.

(** The flags are refreshed in place: no text is written. *)
Lemma updateCardActiveStates_clean : respects staysClean updateCardActiveStates.
Proof.
  intros s [Hw Hp]. rewrite updateCardActiveStates_eq.
  split; [exact Hw |]. apply plainStrips_refresh, Hp.
Qed.

(** A render writes the text of entries of the array. *)
Lemma updateRenderedCards_clean (force : bool) :
  respects staysClean (updateRenderedCards force).
Proof.
  intros s [Hw Hp].
  split; [apply (wellFormed_sameStore s); [| exact Hw];
          apply steady_sameStore, quiet_steady, updateRenderedCards_quiet |].
  destruct (negb force && range_eqb (computeRange (currentIndex s) CARD_BUFFER (entryCount s))
              (renderedRange s)) eqn:E.
  - apply andb_true_iff in E. destruct E as [Ef E]. destruct force; [discriminate |].
    apply range_eqb_eq in E. rewrite (updateRenderedCards_skip s E).
    apply plainStrips_refresh, Hp.
  - rewrite (updateRenderedCards_render force s E). cbv zeta.
    set (w := computeRange (currentIndex s) CARD_BUFFER (entryCount s)).
    destruct (renderItems (set_renderedRange w s) (windowIndices w)) as [[ns cs]|e] eqn:Er;
      [| exact Hp].
    apply (renderItems_plain (set_renderedRange w s) (windowIndices w) ns cs); [| exact Er].
    exact (plainStore_window s (wellFormed_plainStore s Hw)).
Qed.

#[global] Hint Resolve updateUI_clean updateSliderPosition_clean
  updateCardActiveStates_clean updateRenderedCards_clean : frame.

Lemma goToIndex_clean (index : Z) : respects staysClean (goToIndex index).
Proof. unfold goToIndex. frame. Qed.

#[global] Hint Resolve goToIndex_clean : frame.

Lemma goToPrev_clean : respects staysClean goToPrev.
Proof. unfold goToPrev. frame. Qed.

Lemma goToNext_clean : respects staysClean goToNext.
Proof. unfold goToNext. frame. Qed.

#[global] Hint Resolve goToPrev_clean goToNext_clean : frame.

Lemma dispatch_clean (ev : Event) : respects staysClean (dispatch ev).
Proof. unfold dispatch. frame. Qed.

Lemma timerCallback_clean (t : TimerTask) : respects staysClean (timerCallback t).
Proof. destruct t; unfold timerCallback; frame. Qed.

Lemma frameCallback_clean (t : FrameTask) : respects staysClean (frameCallback t).
Proof. destruct t; unfold frameCallback; frame. Qed.

Lemma uncaught_clean (s : State) (e : JSError) :
  staysClean s (set_console (console s ++ [Uncaught e]) s).
Proof. intros H. exact H. Qed.

Lemma advance_clean (dt : Z) (s : State) : staysClean s (advance dt s).
Proof.
  unfold advance.
  match goal with
  | |- staysClean s (foldl _ ?s0 _) => transitivity s0; [intros H; exact H |]
  end.
  apply (respects_foldl staysClean). intros st p _.
  apply (respects_runCallback staysClean);
    [apply timerCallback_clean | apply uncaught_clean].
Qed.

Lemma runFrames_clean (s : State) : staysClean s (runFrames s).
Proof.
  unfold runFrames.
  match goal with
  | |- staysClean s (foldl _ ?s0 _) => transitivity s0; [intros H; exact H |]
  end.
  apply (respects_foldl staysClean). intros st p _.
  apply (respects_runCallback staysClean);
    [apply frameCallback_clean | apply uncaught_clean].
Qed.

Lemma perform_clean (a : Action) (s : State) :
  navigates a -> staysClean s (perform a s).
Proof.
  destruct a; simpl; intros Hn; try contradiction.
  - apply advance_clean.
  - apply runFrames_clean.
  - apply (respects_runCallback staysClean); [apply dispatch_clean | apply uncaught_clean].
  - apply goToIndex_clean.
  - apply goToIndex_clean.
  - unfold goToLast, stateOf. as_frame. frame.
Qed.

Lemma run_clean (acts : list Action) (s : State) :
  Forall navigates acts -> staysClean s (run acts s).
Proof.
  intros H. revert s. induction H as [|a acts Ha _ IH]; intros s; simpl.
  - reflexivity.
  - etransitivity; [apply perform_clean; exact Ha | apply IH].
Qed.

(** X6: on a page whose entries can all be rendered and hold no markup,
    and whose strips hold no markup, navigation never throws: [goToIndex]
    with any integer, [goToPrev], [goToNext], [goToFirst], [goToLast] and
    every input handler return; and from a current index inside the
    array, however the page navigates and whatever timers and frames run,
    the index stays inside the array, the strips stay without markup and
    no exception reaches the console. *)
Theorem navigation_never_throws (s : State) :
  wellFormed s -> plainStrips s ->
  (forall index : Z, returned (goToIndex index s) = true) /\
  returned (goToPrev s) = true /\ returned (goToNext s) = true /\
  returned (goToFirst s) = true /\ returned (goToLast s) = true /\
  (forall ev, returned (dispatch ev s) = true) /\
  (0 <= currentIndex s < entryCount s ->
   forall acts, Forall navigates acts ->
     let s' := run acts s in
     console s' = console s /\ wellFormed s' /\ plainStrips s' /\
     0 <= currentIndex s' < entryCount s').
Proof.
  intros Hw Hplain.
  split; [intros index; apply goToIndex_wellFormed, Hw |].
  split; [apply (safe_goToPrev s Hw) |].
  split; [apply (safe_goToNext s Hw) |].
  split; [apply goToIndex_wellFormed, Hw |].
  split; [unfold goToLast; rewrite bind_gets; apply goToIndex_wellFormed, Hw |].
  split; [intros ev; apply (safe_dispatch ev s Hw) |].
  intros Hi acts Hnav s'.
  destruct (run_orderly acts s Hnav (conj Hw Hi)) as [[Hw' Hi'] Hc].
  destruct (run_clean acts s Hnav (conj Hw Hplain)) as [_ Hplain'].
  auto.
Qed.

Lemma navigation_never_throws_witness :
  (wellFormed (sampleState 5) /\ plainStrips (sampleState 5) /\
   0 <= currentIndex (sampleState 5) < entryCount (sampleState 5)) /\
  returned (goToIndex 0 (sampleState 5)) = true /\
  console (run [CallGoToIndex 0; NextFrame; Elapse 750; Input (KeyDown "ArrowRight")]
             (sampleState 5)) = console (sampleState 5).
Proof.
  assert (Hw : wellFormed (sampleState 5))
    by (unfold wellFormed; apply (bool_decide_unpack _); vm_compute; exact I).
  assert (Hp : plainStrips (sampleState 5))
    by (split; apply (bool_decide_unpack _); vm_compute; exact I).
  assert (Hi : 0 <= currentIndex (sampleState 5) < entryCount (sampleState 5))
    by (vm_compute; split; [discriminate | reflexivity]).
  split; [auto |].
  destruct (navigation_never_throws (sampleState 5) Hw Hp) as (Hgo & _ & _ & _ & _ & _ & Hrun).
  split; [exact (Hgo 0) |].
  assert (Hnav : Forall navigates
            [CallGoToIndex 0; NextFrame; Elapse 750; Input (KeyDown "ArrowRight")])
    by (repeat constructor).
  destruct (Hrun Hi _ Hnav) as (Hc & _).
  exact Hc.
Defined.

(** ** Coming to rest *)

Lemma atRest_scene (s s' : State) :
  atRest s -> sameScene s s' -> currentIndex s' = currentIndex s -> atRest s'.
Proof.
  intros (Hs & Hin & Ho) (Hc & Hn & Hr & Hsl & Hw) Hci.
  unfold atRest, showsWindow, restingOffset in *. rewrite Hc, Hn, Hr, Hsl, Hw, Hci. auto.
Qed.

Lemma updateRenderedCards_false (force : bool) (s : State) :
  fst (updateRenderedCards force s) = Ret false ->
  computeRange (currentIndex s) CARD_BUFFER (entryCount s) = renderedRange s /\
  snd (updateRenderedCards force s) =
    set_timelineNodes (refreshNode (currentIndex s) <$> timelineNodes s)
      (set_cardsRow (refreshCard (currentIndex s) <$> cardsRow s) s).
Proof.
  intros H.
  destruct (negb force && range_eqb (computeRange (currentIndex s) CARD_BUFFER (entryCount s))
              (renderedRange s)) eqn:E.
  - apply andb_true_iff in E. destruct E as [Ef E]. destruct force; [discriminate |].
    apply range_eqb_eq in E. rewrite (updateRenderedCards_skip s E). auto.
  - rewrite (updateRenderedCards_render force s E) in H.
    destruct (renderItems _ _) as [[??]|]; discriminate.
Qed.

(** The end of a slide: the window is recomputed, and if it changed the
    strip is rebuilt and snapped to the current card. *)
Lemma slideDone_atRest (s : State) :
  sound s -> atRest s ->
  let s' := snd (timerCallback SlideDone s) in
  returned (timerCallback SlideDone s) = true /\
  atRest s' /\ windowCurrent s' /\ isAnimating s' = false /\ cardWidth s' = cardWidth s.
Proof.
  intros [Hw Hi] (Hshow & Hin & Hoff). cbv zeta.
  unfold timerCallback. rewrite bind_unfold.
  pose proof (updateRenderedCards_wellFormed false s Hw) as Hret.
  pose proof (updateRenderedCards_range false s) as Hrange.
  destruct (updateRenderedCards false s) as [[[|]|e] s1] eqn:E; [| | discriminate].
  - assert (Ht : fst (updateRenderedCards false s) = Ret true) by (rewrite E; reflexivity).
    destruct (updateRenderedCards_true false s Ht) as (ns & cs & Hr & Hs1).
    pose proof (completed_render_shows false s Ht) as Hshow1.
    rewrite E in Hs1, Hshow1. simpl in Hs1, Hshow1, Hrange.
    assert (Hc1 : currentIndex s1 = currentIndex s) by (rewrite Hs1; reflexivity).
    assert (Hn1 : entryCount s1 = entryCount s) by (rewrite Hs1; reflexivity).
    assert (Hw1 : cardWidth s1 = cardWidth s) by (rewrite Hs1; reflexivity).
    assert (Hin1 : inWindow (renderedRange s1) (currentIndex s1)).
    { rewrite Hrange, Hc1. unfold inWindow, computeRange, CARD_BUFFER. simpl. lia. }
    cbn [when]. rewrite bind_unfold.
    destruct Hshow1 as [Hcards Hnodes].
    destruct (slider_at_rest false s1 Hcards Hin1) as [Hsl _]. rewrite Hsl.
    simpl. split; [reflexivity |]. split.
    { split; [split; assumption |]. split; [exact Hin1 | reflexivity]. }
    split; [| split; [reflexivity | exact Hw1]].
    split; [simpl; rewrite Hc1; unfold entryCount in *; simpl; rewrite Hn1; exact Hi |].
    simpl. rewrite Hrange, Hc1. unfold entryCount in *. simpl. rewrite Hn1. reflexivity.
  - assert (Hf : fst (updateRenderedCards false s) = Ret false) by (rewrite E; reflexivity).
    destruct (updateRenderedCards_false false s Hf) as [Hwin Hs1].
    rewrite E in Hs1. simpl in Hs1. subst s1. simpl.
    split; [reflexivity |]. split.
    { split; [apply (refresh_showsWindow s (currentIndex s) Hshow) |].
      split; [exact Hin | exact Hoff]. }
    split; [| split; reflexivity]. split; [exact Hi | simpl; symmetry; exact Hwin].
Qed.

Lemma timerCallback_scene (t : TimerTask) :
  match t with SetText _ _ => True | _ => False end ->
  respects sameScene (timerCallback t).
Proof. destruct t; intros H; try contradiction. unfold timerCallback. frame. Qed.

(** At rest and in good order, every timer callback returns and leaves the
    page at rest and in good order; those that end a transition lower the
    guard, the others leave it. *)
Lemma timerCallback_atRest (t : TimerTask) (s : State) :
  sound s -> atRest s ->
  let s' := runCallback (timerCallback t) s in
  sound s' /\ atRest s' /\ console s' = console s /\
  currentIndex s' = currentIndex s /\ cardWidth s' = cardWidth s /\
  isAnimating s' = (if isTransition t then false else isAnimating s) /\
  (t = SlideDone \/ windowCurrent s -> windowCurrent s').
Proof.
  intros Hsound Hrest s'.
  destruct (timerCallback_orderly t s Hsound) as [Hsound' Hcon]. fold s' in Hsound', Hcon.
  destruct (timerCallback_focus t s) as (_ & Hci & _).
  assert (Hci' : currentIndex s' = currentIndex s).
  { unfold s', runCallback. destruct (timerCallback t s) as [[[]|e] s1]; exact Hci. }
  split; [exact Hsound' |].
  destruct t.
  - (* SetText *)
    assert (Hsc : sameScene s s').
    { apply (respects_runCallback sameScene);
        [apply timerCallback_scene; exact I | intros; repeat split]. }
    split; [exact (atRest_scene s s' Hrest Hsc Hci') |].
    split; [exact Hcon |]. split; [exact Hci' |]. split; [apply Hsc |].
    split; [unfold s'; simpl; destruct el; reflexivity |].
    intros [Hx | Hwc]; [discriminate |].
    destruct Hsc as (_ & _ & Hr & _). destruct Hsound as [_ Hi].
    destruct Hwc as [_ Hwc]. destruct Hsound' as [_ Hi'].
    split; [exact Hi' |]. rewrite Hr, Hci', Hwc. f_equal.
    unfold s'. simpl. destruct el; reflexivity.
  - (* SlideDone *)
    destruct (slideDone_atRest s Hsound Hrest) as (Hret & Hr & Hwc & Hf & Hw).
    unfold s', runCallback in *. unfold returned in Hret.
    destruct (timerCallback SlideDone s) as [[[]|e] s1]; [| discriminate]. simpl in *.
    auto 10.
  - (* JumpDone *)
    unfold s'. simpl. split; [exact Hrest |]. split; [reflexivity |].
    split; [reflexivity |]. split; [reflexivity |]. split; [reflexivity |].
    intros [Hx | Hwc]; [discriminate | exact Hwc].
  - (* ResizeSnap *)
    destruct Hrest as ([Hcards Hnodes] & Hin & Hoff).
    destruct (slider_at_rest false s Hcards Hin) as [Hsl _].
    unfold s', runCallback. simpl. rewrite Hsl. simpl.
    split; [split; [split; assumption |]; split; [exact Hin | reflexivity] |].
    split; [reflexivity |]. split; [reflexivity |]. split; [reflexivity |].
    split; [reflexivity |].
    intros [Hx | Hwc]; [discriminate | exact Hwc].
Qed.

(** Once the strip holds the window, a frame callback leaves the page at
    rest. *)
Lemma frameCallback_atRest (t : FrameTask) (s : State) :
  sound s -> showsWindow s -> inWindow (renderedRange s) (currentIndex s) ->
  let s' := runCallback (frameCallback t) s in
  sound s' /\ atRest s' /\ console s' = console s /\
  currentIndex s' = currentIndex s /\ cardWidth s' = cardWidth s /\
  (windowCurrent s -> windowCurrent s').
Proof.
  intros Hsound [Hcards Hnodes] Hin s'.
  destruct (frameCallback_orderly t s Hsound) as [Hsound' Hcon]. fold s' in Hsound', Hcon.
  destruct t. unfold s', runCallback, frameCallback in *.
  rewrite (bind_returns _ _ _ (updateSliderPosition_returns true)) in *.
  destruct (slider_at_rest true s Hcards Hin) as [Hsl Hoff]. rewrite Hsl in *. simpl in *.
  set (s1 := set_eventsSlider _ s) in *.
  assert (Hrest1 : atRest s1).
  { split; [split; assumption |]. split; [exact Hin | exact Hoff]. }
  pose proof (updateUI_scene s1) as Hsc.
  pose proof (updateUI_quiet s1) as [([_ Hl] & Hci & _) _].
  pose proof (updateUI_sound s1) as Hret.
  assert (Hs1 : sound s1) by exact Hsound. specialize (Hret Hs1). unfold returned in Hret.
  destruct (updateUI s1) as [[[]|e] s2]; [| discriminate]. simpl in *.
  split; [exact Hsound' |]. split; [exact (atRest_scene s1 s2 Hrest1 Hsc Hci) |].
  split; [exact Hcon |]. split; [exact Hci |]. split; [apply Hsc |].
  intros [Hi Hwc]. destruct Hsc as (_ & _ & Hr & _). destruct Hsound' as [_ Hi'].
  split; [exact Hi' |]. rewrite Hr, Hci. unfold entryCount in *.
  rewrite Hl. exact Hwc.
Qed.

Lemma fire_atRest (tasks : list (Z * TimerTask)) (s : State) :
  sound s -> atRest s ->
  let s' := foldl (fun st p => runCallback (timerCallback (snd p)) st) s tasks in
  sound s' /\ atRest s' /\ console s' = console s /\
  currentIndex s' = currentIndex s /\ cardWidth s' = cardWidth s /\
  ((windowCurrent s /\
    (isAnimating s = false \/ exists p, p ∈ tasks /\ isTransition (snd p) = true)) \/
   (exists d, (d, SlideDone) ∈ tasks) ->
   windowCurrent s' /\ isAnimating s' = false).
Proof.
  revert s. induction tasks as [|p tasks IH]; intros s Hsound Hrest; simpl.
  - split; [exact Hsound |]. split; [exact Hrest |]. repeat (split; [reflexivity |]).
    intros [[Hwc [Hf | (p & Hp & _)]] | (d & Hd)]; [auto | inversion Hp | inversion Hd].
  - destruct (timerCallback_atRest (snd p) s Hsound Hrest)
      as (Hsound1 & Hrest1 & Hcon1 & Hci1 & Hw1 & Hf1 & Hwc1).
    destruct (IH _ Hsound1 Hrest1) as (Hsound' & Hrest' & Hcon' & Hci' & Hw' & Hfin).
    split; [exact Hsound' |]. split; [exact Hrest' |].
    split; [congruence |]. split; [congruence |]. split; [congruence |].
    intros Hcase. apply Hfin.
    destruct Hcase as [[Hwc Hdown] | (d & Hd)].
    + left. split; [apply Hwc1; right; exact Hwc |].
      destruct (isTransition (snd p)) eqn:Etr; [left; exact Hf1 |].
      destruct Hdown as [Hf | (q & Hq & Hqt)]; [left; congruence |].
      apply elem_of_cons in Hq. destruct Hq as [-> | Hq]; [congruence |].
      right. exists q. auto.
    + apply elem_of_cons in Hd. destruct Hd as [<- | Hd].
      * left. simpl in *. split; [apply Hwc1; left; reflexivity | left; exact Hf1].
      * right. exists d. exact Hd.
Qed.

Lemma draw_atRest (tasks : list FrameTask) (s : State) :
  sound s -> showsWindow s -> inWindow (renderedRange s) (currentIndex s) ->
  atRest s \/ tasks <> [] ->
  let s' := foldl (fun st t => runCallback (frameCallback t) st) s tasks in
  sound s' /\ atRest s' /\ console s' = console s /\
  currentIndex s' = currentIndex s /\ cardWidth s' = cardWidth s /\
  (windowCurrent s -> windowCurrent s').
Proof.
  revert s. induction tasks as [|t tasks IH]; intros s Hsound Hshow Hin Hcase; simpl.
  - destruct Hcase as [Hrest | Hne]; [| contradiction].
    split; [exact Hsound |]. split; [exact Hrest |]. repeat (split; [reflexivity |]). auto.
  - destruct (frameCallback_atRest t s Hsound Hshow Hin)
      as (Hsound1 & Hrest1 & Hcon1 & Hci1 & Hw1 & Hwc1).
    pose proof Hrest1 as (Hshow1 & Hin1 & _).
    destruct (IH _ Hsound1 Hshow1 Hin1 (or_introl Hrest1))
      as (Hsound' & Hrest' & Hcon' & Hci' & Hw' & Hwc').
    split; [exact Hsound' |]. split; [exact Hrest' |].
    split; [congruence |]. split; [congruence |]. split; [congruence |]. auto.
Qed.

Lemma goToIndex_sameWidth (index : Z) : respects sameWidth (goToIndex index).
Proof. unfold goToIndex. frame. Qed.

(** How an accepted request leaves a well-formed page whose strip holds the
    window: either at rest with the end of the slide queued, or with the
    new window rendered, a frame pending and the end of the jump queued. *)
Lemma goToIndex_accepted_scene (s : State) (index : Z) :
  isAnimating s = false -> wellFormed s -> showsWindow s ->
  0 <= index < entryCount s ->
  let s1 := snd (goToIndex index s) in
  returned (goToIndex index s) = true /\
  sound s1 /\ showsWindow s1 /\ inWindow (renderedRange s1) (currentIndex s1) /\
  currentIndex s1 = index /\ console s1 = console s /\ cardWidth s1 = cardWidth s /\
  now s1 = now s /\ isAnimating s1 = true /\
  ((atRest s1 /\ (now s + TRANSITION_MS, SlideDone) ∈ timers s1) \/
   (windowCurrent s1 /\ frames s1 <> [] /\ (now s + TRANSITION_MS, JumpDone) ∈ timers s1)).
Proof.
  intros Ha Hw Hshow Hi s1.
  destruct (goToIndex_accepted_state s index Ha Hi) as (Hf & Hc & Hh & Hl & Hn).
  unfold stateOf in *. fold s1 in Hf, Hc, Hh, Hl, Hn.
  pose proof (goToIndex_silent index s) as Hcon. fold s1 in Hcon.
  pose proof (goToIndex_sameWidth index s) as Hwid. fold s1 in Hwid.
  pose proof (goToIndex_wellFormed s index Hw) as Hret.
  assert (Hn1 : entryCount s1 = entryCount s) by (unfold entryCount; rewrite Hl; reflexivity).
  assert (Hsound1 : sound s1).
  { split; [apply (wellFormed_sameStore s); [split; assumption | exact Hw] |].
    rewrite Hc, Hn1. exact Hi. }
  split; [exact Hret |]. split; [exact Hsound1 |].
  cut (showsWindow s1 /\ inWindow (renderedRange s1) index /\
       ((atRest s1 /\ (now s + TRANSITION_MS, SlideDone) ∈ timers s1) \/
        (windowCurrent s1 /\ frames s1 <> [] /\
         (now s + TRANSITION_MS, JumpDone) ∈ timers s1))).
  { intros (H1 & H2 & H3). rewrite Hc. auto 10. }
  destruct (inWindow_dec (renderedRange s) index) as [Hin | Hout].
  - destruct (goToIndex_slide_state s index Ha Hi Hin) as (_ & Hrange & Htimer).
    unfold stateOf in *. fold s1 in Hrange, Htimer. specialize (Htimer Hret).
    assert (Hrest : atRest s1).
    { unfold s1. rewrite (goToIndex_slide s index Ha Hi Hin).
      set (s0 := set_currentIndex index (set_isAnimating true s)).
      rewrite bind_unfold, updateCardActiveStates_eq.
      set (sa := set_timelineNodes _ _).
      assert (Hshowa : showsWindow sa) by (apply (refresh_showsWindow s0 index Hshow)).
      destruct Hshowa as [Hca Hna].
      destruct (slider_at_rest true sa Hca Hin) as [Hsl Hoff].
      rewrite bind_unfold, Hsl.
      set (sb := set_eventsSlider _ sa) in *.
      assert (Hrestb : atRest sb).
      { split; [split; assumption |]. split; [exact Hin | exact Hoff]. }
      pose proof (updateUI_scene sb) as Hsc.
      pose proof (updateUI_quiet sb) as [(_ & Hci & _) _].
      rewrite bind_unfold.
      destruct (updateUI sb) as [[[]|e] sc]; simpl in *.
      + apply (atRest_scene sb); [exact Hrestb | | exact Hci].
        destruct Hsc as (H1 & H2 & H3 & H4 & H5). repeat split; assumption.
      + exact (atRest_scene sb sc Hrestb Hsc Hci). }
    pose proof Hrest as (Hs1 & _ & _).
    split; [exact Hs1 |]. split; [rewrite Hrange; exact Hin |]. left. auto.
  - unfold s1 in *. rewrite (goToIndex_jump s index Ha Hi Hout) in *.
    set (s0 := set_currentIndex index (set_isAnimating true s)) in *.
    rewrite bind_gets, bind_modify in *.
    set (s0' := set_eventsSlider _ s0) in *.
    assert (Hw0 : wellFormed s0') by (apply (wellFormed_sameStore s); [split; reflexivity | exact Hw]).
    pose proof (updateRenderedCards_wellFormed true s0' Hw0) as Hr.
    pose proof (updateRenderedCards_range true s0') as Hrange.
    pose proof (updateRenderedCards_quiet true s0') as [([_ Hlr] & Hcr & _ & Hnr & _) _].
    rewrite bind_unfold in *.
    destruct (updateRenderedCards true s0') as [[[|]|e] sr] eqn:E; [| | discriminate].
    + pose proof (completed_render_shows true s0') as Hshowr. rewrite E in Hshowr.
      specialize (Hshowr eq_refl). simpl in Hshowr, Hrange, Hlr, Hcr, Hnr.
      rewrite bind_gets, bind_modify in *. simpl in *.
      assert (Hin : inWindow (renderedRange sr) index).
      { rewrite Hrange. unfold inWindow, computeRange, CARD_BUFFER. simpl.
        unfold entryCount in *. simpl. lia. }
      split; [exact Hshowr |]. split; [exact Hin |]. right.
      split; [| split].
      * split; [simpl; rewrite Hcr; unfold entryCount in *; simpl; rewrite Hlr; exact Hi |].
        simpl. rewrite Hrange, Hcr. unfold entryCount. simpl. rewrite Hlr. reflexivity.
      * intros Hnil. apply app_eq_nil in Hnil. destruct Hnil as [_ Hnil]. discriminate.
      * apply elem_of_enqueue. left. rewrite Hnr. reflexivity.
    + exfalso. rewrite (updateRenderedCards_render true s0' eq_refl) in E.
      destruct (renderItems _ _) as [[??]|]; discriminate.
Qed.

Lemma draw_sameTransitions (tasks : list FrameTask) (s : State) :
  sameTransitions s (foldl (fun st t => runCallback (frameCallback t) st) s tasks).
Proof.
  apply (respects_foldl sameTransitions). intros st t _.
  apply (respects_runCallback sameTransitions);
    [apply frameCallback_sameTransitions | apply uncaught_sameTransitions].
Qed.

Lemma idle_guarded (s : State) : idle s -> guarded s.
Proof.
  intros [_ Hnone]. unfold guarded.
  assert (H : transitionTimers s = []).
  { unfold transitionTimers. induction (timers s) as [|p q IH]; [reflexivity |].
    rewrite filter_cons. rewrite decide_False.
    - apply IH. intros p' Hp'. apply Hnone. apply elem_of_cons. right. exact Hp'.
    - rewrite (Hnone p); [discriminate | apply elem_of_cons; left; reflexivity]. }
  rewrite H. simpl. split; [lia | reflexivity].
Qed.

Lemma guarded_idle (s : State) : guarded s -> isAnimating s = false -> idle s.
Proof.
  intros [_ Hnone] Ha. split; [exact Ha |]. intros p Hp.
  destruct (isTransition (snd p)) eqn:Etr; [| reflexivity].
  exfalso. apply (filter_nil_not_elem_of _ _ p (Hnone Ha) Etr Hp).
Qed.

(** An accepted request, one frame and one transition time on. *)
Lemma request_settles (s : State) (index : Z) :
  idle s -> wellFormed s -> showsWindow s ->
  0 <= index < entryCount s ->
  let r := goToIndex index s in
  let s' := run [NextFrame; Elapse TRANSITION_MS] (stateOf r) in
  returned r = true /\ isAnimating (stateOf r) = true /\
  guarded s' /\ isAnimating s' = false /\ sound s' /\
  currentIndex s' = index /\ windowCurrent s' /\ atRest s' /\
  console s' = console s.
Proof.
  intros Hidle Hw Hshow Hi r s'.
  pose proof Hidle as [Ha _].
  destruct (goToIndex_accepted_scene s index Ha Hw Hshow Hi)
    as (Hret & Hsound1 & Hshow1 & Hin1 & Hc1 & Hcon1 & Hwid1 & Hn1 & Hf1 & Hcase).
  pose proof (goToIndex_guardedStays index s (idle_guarded s Hidle)) as Hg1.
  set (s1 := snd (goToIndex index s)) in *.
  assert (Hg' : guarded s').
  { unfold s', run, r, stateOf. simpl. fold s1.
    apply advance_guarded. apply (perform_guarded NextFrame). exact Hg1. }
  split; [exact Hret |]. split; [exact Hf1 |].
  (* the frame *)
  set (s2 := runFrames s1).
  assert (Hframe : sound s2 /\ atRest s2 /\ console s2 = console s1 /\
                   currentIndex s2 = currentIndex s1 /\ cardWidth s2 = cardWidth s1 /\
                   (windowCurrent s1 -> windowCurrent s2)).
  { unfold s2, runFrames.
    apply (draw_atRest (frames s1) (set_frames [] s1)); [exact Hsound1 | exact Hshow1 | exact Hin1 |].
    destruct Hcase as [[Hrest _] | (_ & Hne & _)]; [left; exact Hrest | right; exact Hne]. }
  destruct Hframe as (Hsound2 & Hrest2 & Hcon2 & Hc2 & Hwid2 & Hwc2).
  assert (Htr2 : transitionTimers s2 = transitionTimers s1).
  { pose proof (draw_sameTransitions (frames s1) (set_frames [] s1)) as H.
    exact H. }
  pose proof (runFrames_quiet s1) as [(_ & _ & _ & Hn2 & _) _]. fold s2 in Hn2.
  (* the timers *)
  assert (Hdue : forall k, isTransition k = true ->
            (now s + TRANSITION_MS, k) ∈ timers s1 ->
            (now s + TRANSITION_MS, k) ∈
              filter (fun p => isDue (now s2 + TRANSITION_MS) p = true) (timers s2)).
  { intros k Hk Hin.
    assert (Hin2 : (now s + TRANSITION_MS, k) ∈ transitionTimers s2).
    { rewrite Htr2. unfold transitionTimers. apply list_elem_of_filter. auto. }
    unfold transitionTimers in Hin2. apply list_elem_of_filter in Hin2.
    apply list_elem_of_filter. split; [| apply Hin2].
    unfold isDue. simpl. rewrite Hn2, Hn1. apply Z.leb_le. lia. }
  assert (Hfire : sound s' /\ atRest s' /\ console s' = console s2 /\
                  currentIndex s' = currentIndex s2 /\ cardWidth s' = cardWidth s2 /\
                  windowCurrent s' /\ isAnimating s' = false).
  { unfold s', run, r, stateOf. simpl. fold s1 s2. unfold advance.
    set (t := now s2 + TRANSITION_MS).
    set (due := filter (fun p => isDue t p = true) (timers s2)).
    set (s0 := set_timers _ _).
    destruct (fire_atRest due s0 Hsound2 Hrest2) as (H1 & H2 & H3 & H4 & H5 & H6).
    split; [exact H1 |]. split; [exact H2 |]. split; [exact H3 |].
    split; [exact H4 |]. split; [exact H5 |]. apply H6.
    destruct Hcase as [[_ Htimer] | (Hwc & _ & Htimer)].
    - right. exists (now s + TRANSITION_MS). exact (Hdue SlideDone eq_refl Htimer).
    - left. split; [exact (Hwc2 Hwc) |]. right.
      exists (now s + TRANSITION_MS, JumpDone). split; [| reflexivity].
      exact (Hdue JumpDone eq_refl Htimer). }
  destruct Hfire as (Hsound' & Hrest' & Hcon' & Hc' & _ & Hwc' & Hf').
  split; [exact Hg' |]. split; [exact Hf' |]. split; [exact Hsound' |].
  split; [congruence |]. split; [exact Hwc' |]. split; [exact Hrest' | congruence].
Qed.

(** X7. An accepted request comes to rest: from an idle page whose
    entries can all be rendered and hold no markup, and whose strips hold
    the rendered window and no markup, a request for any integer index of
    the log is accepted, and one animation frame and 750 ms later the
    guard is down with no transition pending, the requested index is
    current, the rendered window is the one computed for it and is what
    the strips hold, without markup, the slider rests on the current card,
    and nothing was written to the console. *)
Theorem accepted_request_comes_to_rest (s : State) (index : Z) :
  idle s -> wellFormed s -> plainStrips s -> showsWindow s ->
  0 <= index < entryCount s ->
  let r := goToIndex index s in
  let s' := run [NextFrame; Elapse TRANSITION_MS] (stateOf r) in
  returned r = true /\ isAnimating (stateOf r) = true /\
  idle s' /\ currentIndex s' = index /\ windowCurrent s' /\ atRest s' /\
  wellFormed s' /\ plainStrips s' /\ console s' = console s.
Proof.
  intros Hidle Hw Hplain Hshow Hi r s'.
  destruct (request_settles s index Hidle Hw Hshow Hi)
    as (Hret & Hup & Hg & Hdown & [Hw' _] & Hci & Hwc & Hrest & Hcon).
  fold r in Hret, Hup. fold s' in Hg, Hdown, Hw', Hci, Hwc, Hrest, Hcon.
  assert (Hclean : clean s').
  { apply (run_clean [NextFrame; Elapse TRANSITION_MS]); [repeat constructor |].
    apply goToIndex_clean. split; assumption. }
  split; [exact Hret |]. split; [exact Hup |].
  split; [exact (guarded_idle s' Hg Hdown) |].
  split; [exact Hci |]. split; [exact Hwc |]. split; [exact Hrest |].
  split; [exact Hw' |]. split; [apply Hclean | exact Hcon].
Qed.

Lemma accepted_request_comes_to_rest_witness :
  let s := sampleState 5 in
  let s' := run [NextFrame; Elapse TRANSITION_MS] (stateOf (goToIndex 0 s)) in
  returned (goToIndex 0 s) = true /\ isAnimating (stateOf (goToIndex 0 s)) = true /\
  idle s' /\ currentIndex s' = 0 /\ windowCurrent s' /\ atRest s' /\
  wellFormed s' /\ plainStrips s' /\ console s' = console s.
Proof.
  apply (accepted_request_comes_to_rest (sampleState 5) 0).
  - split; [reflexivity |]. intros p Hp. vm_compute in Hp.
    repeat (apply elem_of_cons in Hp; destruct Hp as [-> | Hp]; [reflexivity |]).
    inversion Hp.
  - unfold wellFormed. apply (bool_decide_unpack _). vm_compute. exact I.
  - split; apply (bool_decide_unpack _); vm_compute; exact I.
  - split; vm_compute; reflexivity.
  - vm_compute. split; [discriminate | reflexivity].
Defined.

(** ** The first entry of a page *)

#[global] Instance staysBlank_preorder : PreOrder staysBlank.
Proof. split; [intros s H; exact H | intros a b c H1 H2 H; exact (H2 (H1 H))]. Qed.

Lemma set_headerEl_blank (el : HeaderEl) (v : TextEl) :
  respects staysBlank (modify (set_headerEl el v)).
Proof. apply respects_modify. intros s. destruct el; frame_side. Qed.

#[global] Hint Resolve set_headerEl_blank : frame.

Lemma setTimeout_blank (t : TimerTask) (d : Z) : respects staysBlank (setTimeout t d).
Proof. unfold setTimeout. frame. Qed.

#[global] Hint Resolve setTimeout_blank : frame.

Lemma animateText_blank (el : HeaderEl) (t : option string) :
  respects staysBlank (animateText el t).
Proof. unfold animateText. frame. Qed.

#[global] Hint Resolve animateText_blank : frame.

Lemma updateUI_blank : respects staysBlank updateUI.
Proof. unfold updateUI. frame. Qed.

Lemma updateSliderPosition_blank (animate : bool) :
  respects staysBlank (updateSliderPosition animate).
Proof. unfold updateSliderPosition. frame. Qed.

Lemma updateCardActiveStates_blank : respects staysBlank updateCardActiveStates.
Proof.
  intros s (Hn & Hc & Hr & Hcards & Hnodes). rewrite updateCardActiveStates_eq.
  unfold blank. simpl. rewrite Hcards, Hnodes. auto.
Qed.

(** The window of the only entry is [0..0], which is what [renderedRange]
    holds from the start: the unforced render skips. *)
Lemma updateRenderedCards_blank : respects staysBlank (updateRenderedCards false).
Proof.
  intros s Hb. pose proof Hb as (Hn & Hc & Hr & Hcards & Hnodes).
  rewrite updateRenderedCards_skip by (rewrite Hn, Hc, Hr; reflexivity).
  unfold blank. simpl. rewrite Hcards, Hnodes. auto.
Qed.

#[global] Hint Resolve updateUI_blank updateSliderPosition_blank
  updateCardActiveStates_blank updateRenderedCards_blank : frame.

Lemma timerCallback_blank (t : TimerTask) : respects staysBlank (timerCallback t).
Proof. destruct t; unfold timerCallback; frame. Qed.

Lemma frameCallback_blank (t : FrameTask) : respects staysBlank (frameCallback t).
Proof. destruct t; unfold frameCallback; frame. Qed.

Lemma uncaught_blank (s : State) (e : JSError) :
  staysBlank s (set_console (console s ++ [Uncaught e]) s).
Proof. intros H. exact H. Qed.

(** On a one-entry page with the window [0..0] an accepted request for
    index 0 takes the branch that does not re-render. *)
Lemma goToIndex_first_blank (s : State) :
  isAnimating s = false -> entryCount s = 1 ->
  renderedRange s = {| r_start := 0; r_end := 0 |} ->
  cardsRow s = [] -> timelineNodes s = [] ->
  blank (snd (goToIndex 0 s)).
Proof.
  intros Ha Hn Hr Hcards Hnodes.
  rewrite (goToIndex_slide s 0 Ha) by (try rewrite Hr; split; simpl; lia).
  set (s0 := set_currentIndex 0 (set_isAnimating true s)).
  assert (Hb0 : blank s0) by (unfold blank; simpl; auto).
  revert Hb0. change (staysBlank s0 (snd ((updateCardActiveStates ≫= fun _ =>
     updateSliderPosition true ≫= fun _ =>
     updateUI ≫= fun _ =>
     setTimeout SlideDone TRANSITION_MS) s0))).
  as_frame. frame.
Qed.

(** The only index [goToIndex] accepts on such a page is 0. *)
Lemma goToIndex_blank (index : Z) : respects staysBlank (goToIndex index).
Proof.
  intros s Hb. pose proof Hb as (Hn & Hc & Hr & Hcards & Hnodes).
  destruct (isAnimating s) eqn:Ha;
    [rewrite goToIndex_rejected by (left; exact Ha); exact Hb |].
  destruct (decide (0 <= index < entryCount s)) as [Hi | Hi];
    [| rewrite goToIndex_rejected by (right; lia); exact Hb].
  assert (index = 0) as -> by lia.
  apply goToIndex_first_blank; assumption.
Qed.

#[global] Hint Resolve goToIndex_blank : frame.

Lemma goToPrev_blank : respects staysBlank goToPrev.
Proof. unfold goToPrev. frame. Qed.

Lemma goToNext_blank : respects staysBlank goToNext.
Proof. unfold goToNext. frame. Qed.

#[global] Hint Resolve goToPrev_blank goToNext_blank : frame.

Lemma dispatch_blank (ev : Event) : respects staysBlank (dispatch ev).
Proof. unfold dispatch. frame. Qed.

Lemma advance_blank (dt : Z) (s : State) : staysBlank s (advance dt s).
Proof.
  unfold advance.
  match goal with
  | |- staysBlank s (foldl _ ?s0 _) => transitivity s0; [intros H; exact H |]
  end.
  apply (respects_foldl staysBlank). intros st p _.
  apply (respects_runCallback staysBlank);
    [apply timerCallback_blank | apply uncaught_blank].
Qed.

Lemma runFrames_blank (s : State) : staysBlank s (runFrames s).
Proof.
  unfold runFrames.
  match goal with
  | |- staysBlank s (foldl _ ?s0 _) => transitivity s0; [intros H; exact H |]
  end.
  apply (respects_foldl staysBlank). intros st p _.
  apply (respects_runCallback staysBlank);
    [apply frameCallback_blank | apply uncaught_blank].
Qed.

Lemma perform_blank (a : Action) (s : State) :
  navigates a -> staysBlank s (perform a s).
Proof.
  destruct a; simpl; intros Hn; try contradiction.
  - apply advance_blank.
  - apply runFrames_blank.
  - apply (respects_runCallback staysBlank); [apply dispatch_blank | apply uncaught_blank].
  - apply goToIndex_blank.
  - apply goToIndex_blank.
  - unfold goToLast, stateOf. as_frame. frame.
Qed.

(** X8. A page whose only entry was never rendered stays that way:
    with one entry in the array, the window [0..0] recorded and both
    strips empty, no click, key, swipe, wheel or resize event, no call of
    [goToIndex] with an integer, of [goToFirst] or of [goToLast] and no
    timer or frame ever renders the entry, although it is the current one
    throughout. *)
Theorem unrendered_single_entry_stays_unrendered (s : State) (acts : list Action) :
  blank s -> Forall navigates acts ->
  let s' := run acts s in
  cardsRow s' = [] /\ timelineNodes s' = [] /\
  getEntryCount s' = 1 /\ currentIndex s' = 0 /\
  getCurrentEntry s' = getCurrentEntry s /\
  renderedRange s' = {| r_start := 0; r_end := 0 |}.
Proof.
  intros Hb Hnav s'.
  assert (Hb' : blank s').
  { unfold s'. clear s'. revert s Hb.
    induction Hnav as [|a acts Ha _ IH]; intros s Hb; simpl; [exact Hb |].
    apply IH. apply (perform_blank a s Ha Hb). }
  destruct Hb' as (Hn' & Hc' & Hr' & Hcards' & Hnodes').
  destruct Hb as (_ & Hc & _).
  destruct (run_sameStore acts s Hnav) as [_ Hl]. fold s' in Hl.
  repeat (split; [assumption |]).
  split; [| exact Hr'].
  unfold getCurrentEntry, refAt. rewrite Hc', Hc, Hl. reflexivity.
Qed.

Lemma unrendered_single_entry_stays_unrendered_witness :
  blank (sampleState 1) /\
  cardsRow (run [CallGoToIndex 0; NextFrame; Elapse 750; Input (Wheel 1); Input Resize;
                 Elapse 100; CallGoToLast] (sampleState 1)) = [].
Proof.
  assert (Hb : blank (sampleState 1)) by (vm_compute; repeat split; reflexivity).
  split; [exact Hb |].
  assert (Hnav : Forall navigates
            [CallGoToIndex 0; NextFrame; Elapse 750; Input (Wheel 1); Input Resize;
             Elapse 100; CallGoToLast]) by (repeat constructor).
  destruct (unrendered_single_entry_stays_unrendered (sampleState 1) _ Hb Hnav) as (H & _).
  exact H.
Defined.

Lemma entryCount_one (s : State) (l : nat) : activityLog s = [l] -> entryCount s = 1.
Proof. intros H. unfold entryCount. rewrite H. reflexivity. Qed.

(** X9. A log of one entry is loaded but not shown: [init] makes the
    entry current and its unforced render finds the window [0..0] already
    recorded in [renderedRange], so nothing is put in the strips; when
    the entry's type can be looked up the handler still returns, installs
    the listeners and reports one loaded entry. *)
Theorem one_entry_log_is_loaded_but_not_rendered (e : Entry) (s : State) :
  renderedRange s = {| r_start := 0; r_end := 0 |} ->
  cardsRow s = [] -> timelineNodes s = [] ->
  let r := startup (Parsed (JArray [e])) s in
  let s' := stateOf r in
  blank s' /\
  entryAt s' 0 = Some (withIdStatus e "001") /\
  (typeReadable (Some e) = true ->
   returned r = true /\ listening s' = true /\
   console s' = console s ++ [loadedMessage 1]).
Proof.
  intros Hr Hcards Hnodes r s'. unfold s', r, stateOf, startup. clear r s'.
  rewrite bind_unfold, loadActivityLog_array. cbn [length seq].
  set (s1 := set_activityLog _ _).
  assert (Hn1 : entryCount s1 = 1) by (apply (entryCount_one s1 (length (heap s))); reflexivity).
  assert (He1 : forall st, sameStore s1 st ->
            entryAt st 0 = Some (withIdStatus e "001")).
  { intros st Hst. rewrite (entryAt_sameStore s1 st 0 Hst).
    exact (entryAt_loaded s1 (heap s) [e] 0 eq_refl eq_refl). }
  rewrite bind_gets, Hn1. cbn [Z.eqb]. unfold init.
  rewrite bind_gets, Hn1, bind_modify. change (1 - 1) with 0.
  set (s2 := set_currentIndex 0 s1).
  assert (Hb2 : blank s2) by (unfold blank; simpl; auto).
  pose proof (updateRenderedCards_blank s2 Hb2) as Hb3.
  pose proof Hb2 as (Hn2 & Hc2 & Hr2 & _).
  rewrite bind_unfold.
  rewrite updateRenderedCards_skip in * by (rewrite Hn2, Hc2, Hr2; reflexivity).
  cbn [fst snd] in *. cbv beta iota.
  set (s3 := set_timelineNodes _ _) in *.
  assert (Hst3 : sameStore s1 s3) by (split; reflexivity).
  assert (Hcon3 : console s3 = console s) by reflexivity.
  assert (Hci3 : currentIndex s3 = 0) by reflexivity.
  pose proof (updateUI_blank s3 Hb3) as Hb4.
  pose proof (updateUI_quiet s3) as [(Hst4 & _) _].
  pose proof (updateUI_silent s3) as Hcon4.
  pose proof (updateUI_returned s3) as Hret4.
  rewrite bind_unfold.
  destruct (updateUI s3) as [[[]|err] s4]; cbn [fst snd] in *.
  - pose proof Hb4 as (_ & _ & _ & Hcards4 & _).
    rewrite bind_unfold, updateSliderPosition_idle by (rewrite Hcards4; reflexivity).
    unfold bindEvents. rewrite bind_modify, bind_gets. simpl.
    split; [exact Hb4 |].
    split; [apply He1; etransitivity; [exact Hst3 | exact Hst4] |].
    intros _. split; [reflexivity |]. split; [reflexivity |].
    unfold silent in Hcon4. rewrite Hcon4, Hcon3. reflexivity.
  - split; [exact Hb4 |].
    split; [apply He1; etransitivity; [exact Hst3 | exact Hst4] |].
    intros Ht. exfalso. unfold returned in Hret4. simpl in Hret4.
    unfold labelReadable in Hret4. rewrite Hci3 in Hret4. simpl in Hret4.
    rewrite (He1 s3 Hst3) in Hret4. simpl in Hret4, Ht.
    destruct (typeConfigGet (e_type e)); discriminate.
Qed.

Lemma one_entry_log_is_loaded_but_not_rendered_witness :
  blank (stateOf (startup (Parsed (JArray [rawEntry "setup" "First"])) (pageLoad 500))).
Proof.
  destruct (one_entry_log_is_loaded_but_not_rendered (rawEntry "setup" "First") (pageLoad 500)
              eq_refl eq_refl eq_refl) as [H _].
  exact H.
Defined.

(** X10. The first entry added to an empty page is stored and made
    current but not rendered: on a page with no entries, no transition
    under way, the window [0..0] in [renderedRange] and empty strips (the
    state a failed start-up leaves), [addEntry] takes the branch of
    [goToIndex] that only animates, so both strips stay empty. *)
Theorem entry_added_to_empty_page_is_not_rendered (entry : nat) (s : State) :
  activityLog s = [] -> isAnimating s = false ->
  renderedRange s = {| r_start := 0; r_end := 0 |} ->
  cardsRow s = [] -> timelineNodes s = [] ->
  let s' := stateOf (addEntry entry s) in
  blank s' /\ getCurrentEntry s' = Some entry /\ getAllEntries s' = [entry] /\
  isAnimating s' = true.
Proof.
  intros Hl Ha Hr Hcards Hnodes s'.
  destruct (addEntry_store s entry) as [_ Hlog]. fold s' in Hlog. rewrite Hl in Hlog.
  destruct (addEntry_index s entry) as [Hci _]. fold s' in Hci. specialize (Hci Ha).
  assert (Hb : blank s' /\ isAnimating s' = true).
  { unfold s', addEntry, stateOf.
    rewrite !bind_gets, bind_modify, bind_gets, bind_modify, bind_gets.
    set (st := set_activityLog _ _).
    assert (Hn : entryCount st = 1).
    { apply (entryCount_one st entry). unfold st. simpl. rewrite Hl. reflexivity. }
    rewrite Hn. change (1 - 1) with 0.
    split; [apply goToIndex_first_blank; assumption |].
    destruct (goToIndex_accepted_state st 0 Ha) as (Hf & _); [lia | exact Hf]. }
  destruct Hb as [Hb Hf].
  split; [exact Hb |]. split; [| split; [exact Hlog | exact Hf]].
  destruct Hb as (_ & Hc & _). unfold getCurrentEntry, refAt. rewrite Hc, Hlog. reflexivity.
Qed.

Lemma entry_added_to_empty_page_is_not_rendered_witness :
  let s := snd (newObject (rawEntry "docs" "Late") (stateOf (startup FetchRejected (pageLoad 500)))) in
  cardsRow (stateOf (addEntry 0%nat s)) = [] /\
  getCurrentEntry (stateOf (addEntry 0%nat s)) = Some 0%nat.
Proof.
  intros s.
  destruct (entry_added_to_empty_page_is_not_rendered 0%nat s
              eq_refl eq_refl eq_refl eq_refl eq_refl) as ((_ & _ & _ & H & _) & Hc & _).
  split; [exact H | exact Hc].
Defined.

(** ** Reloading *)

(** X11. A failed fetch is not soft for [reload]: the store is emptied,
    the current index becomes -1, the forced render empties both strips
    and records the window [0..-1], and [updateUI] then throws on the
    missing entry after having asked for the entry number 000, so the
    promise of [reload] is rejected and [updateSliderPosition] never
    runs; afterwards [goToIndex] with any integer changes nothing. *)
Theorem failed_reload_empties_page_and_throws (r : FetchResult) (s : State) :
  fetchFailed r = true ->
  let res := reload r s in
  let s' := stateOf res in
  fst res = Throw TypeError /\
  getEntryCount s' = 0 /\ currentIndex s' = -1 /\ getCurrentEntry s' = None /\
  renderedRange s' = {| r_start := 0; r_end := -1 |} /\
  cardsRow s' = [] /\ timelineNodes s' = [] /\
  console s' = console s ++ [loadFailed] /\
  eventsSlider s' = eventsSlider s /\ isAnimating s' = isAnimating s /\
  timers s' =
    (if String.eqb (el_text (entryNumber s)) "000" then timers s
     else enqueue (now s + TEXT_MS) (SetText EntryNumber (Some "000")) (timers s)) /\
  forall index, goToIndex index s' = (Ret tt, s').
Proof.
  intros Hr res s'.
  assert (H : fst res = Throw TypeError /\
    entryCount s' = 0 /\ currentIndex s' = -1 /\
    renderedRange s' = {| r_start := 0; r_end := -1 |} /\
    cardsRow s' = [] /\ timelineNodes s' = [] /\
    console s' = console s ++ [loadFailed] /\
    eventsSlider s' = eventsSlider s /\ isAnimating s' = isAnimating s /\
    timers s' =
      (if String.eqb (el_text (entryNumber s)) "000" then timers s
       else enqueue (now s + TEXT_MS) (SetText EntryNumber (Some "000")) (timers s)) /\
    activityLog s' = []).
  { unfold s', res, stateOf, reload.
    rewrite bind_unfold, (loadActivityLog_failed r s Hr).
    cbv beta iota. rewrite bind_gets, !bind_modify.
    set (s1 := set_renderedRange _ _).
    rewrite bind_unfold, (updateRenderedCards_render true s1 eq_refl).
    cbv zeta. change (computeRange (currentIndex s1) CARD_BUFFER (entryCount s1))
      with {| r_start := 0; r_end := -1 |}.
    change (windowIndices {| r_start := 0; r_end := -1 |}) with (@nil Z).
    cbn [renderItems]. cbv beta iota.
    set (s2 := set_cardsRow _ _).
    assert (Hu : updateUI s2 =
      (Throw TypeError,
       if String.eqb (el_text (entryNumber s)) "000" then s2
       else set_timers (enqueue (now s + TEXT_MS) (SetText EntryNumber (Some "000")) (timers s))
              (set_entryNumber {| el_text := el_text (entryNumber s); el_shown := false |} s2))).
    { unfold updateUI. rewrite !bind_gets. unfold id. rewrite bind_unfold.
      unfold animateText. rewrite bind_gets.
      change (headerEl EntryNumber s2) with (entryNumber s).
      change (pad3 (currentIndex s2 + 1)) with "000". cbn [sameText].
      destruct (String.eqb (el_text (entryNumber s)) "000"); reflexivity. }
    rewrite bind_unfold, Hu. cbv beta iota. cbn [fst snd].
    destruct (String.eqb (el_text (entryNumber s)) "000");
      repeat (split; [reflexivity |]); reflexivity. }
  destruct H as (H1 & H2 & H3 & H4 & H5 & H6 & H7 & H8 & H9 & H10 & H11).
  split; [exact H1 |]. split; [exact H2 |]. split; [exact H3 |].
  split; [unfold getCurrentEntry, refAt; rewrite H3; reflexivity |].
  repeat (split; [assumption |]).
  intros index. apply goToIndex_rejected. lia.
Qed.

Lemma failed_reload_empties_page_and_throws_witness :
  fst (reload JsonRejected (sampleState 5)) = Throw TypeError /\
  cardsRow (stateOf (reload JsonRejected (sampleState 5))) = [].
Proof.
  destruct (failed_reload_empties_page_and_throws JsonRejected (sampleState 5) eq_refl)
    as (H1 & _ & _ & _ & _ & H2 & _).
  split; [exact H1 | exact H2].
Defined.

(** ** Start-up *)

Lemma plain_pretty_N_go (x : N) (s : string) :
  plain s = true -> plain (pretty_N_go x s) = true.
Proof.
  revert s. induction (N.lt_wf_0 x) as [x _ IH]. intros s Hs.
  destruct (decide (x = 0)%N) as [-> | Hx]; [rewrite pretty_N_go_0; exact Hs |].
  rewrite pretty_N_go_step by lia. apply IH; [apply N.div_lt; lia |].
  cbn [plain]. rewrite Hs.
  unfold pretty_N_char. repeat case_match; reflexivity.
Qed.

(** An id the script assigns is made of digits. *)
Lemma plain_pad3 (n : Z) : plain (pad3 n) = true.
Proof.
  unfold pad3, padStart. rewrite plain_app.
  assert (Hz : forall k, plain (replicate_char k "0") = true)
    by (induction k as [|k IH]; [reflexivity | exact IH]).
  rewrite Hz. cbn [andb].
  unfold jsString, pretty, pretty_Z. destruct n as [|p|p]; [reflexivity | |].
  - unfold pretty, pretty_positive, pretty, pretty_N. rewrite decide_False by discriminate.
    apply plain_pretty_N_go. reflexivity.
  - rewrite plain_app. unfold pretty, pretty_positive, pretty, pretty_N.
    rewrite decide_False by discriminate. rewrite plain_pretty_N_go by reflexivity. reflexivity.
Qed.

Lemma presentable_withIdStatus (e : Entry) (n : Z) :
  renderable (Some e) && plainText e = true ->
  renderable (Some (withIdStatus e (pad3 n))) &&
  plainEntry (Some (withIdStatus e (pad3 n))) = true.
Proof.
  intros H. apply andb_true_iff in H. destruct H as [Hr Hp].
  apply andb_true_iff. split; [exact Hr |].
  unfold plainEntry. cbn [e_id withIdStatus interpolate]. rewrite plain_pad3. exact Hp.
Qed.

Lemma wellFormed_loaded (s : State) (h entries : list Entry) :
  heap s = h ++ assignIds entries ->
  activityLog s = seq (length h) (length entries) ->
  Forall (fun e => renderable (Some e) && plainText e = true) entries ->
  wellFormed s.
Proof.
  intros Hh Hl Hty. unfold wellFormed. rewrite Forall_seqZ. intros i Hi.
  assert (Hn : entryCount s = Z.of_nat (length entries))
    by (unfold entryCount; rewrite Hl, length_seq; reflexivity).
  replace i with (Z.of_nat (Z.to_nat i)) by lia.
  rewrite (entryAt_loaded s h entries _ Hh Hl), lookup_assignIds.
  destruct (entries !! Z.to_nat i) as [e|] eqn:E.
  - rewrite Forall_forall in Hty. apply presentable_withIdStatus.
    apply (Hty e). apply (list_elem_of_lookup_2 _ _ _ E).
  - apply lookup_ge_None in E. lia.
Qed.

(** X12. Start-up on a log of two or more entries that can be rendered
    (each has a type that can be looked up, a timestamp and files) and
    whose text holds no markup: the handler returns, the newest entry is
    current, the window computed for it is rendered in both strips,
    without markup, the slider is set on its card without animation, the
    listeners are installed and the only console output is the message
    that reports the number of entries. *)
Theorem startup_shows_newest_entries (entries : list Entry) (s : State) :
  (2 <= length entries)%nat ->
  Forall (fun e => renderable (Some e) && plainText e = true) entries ->
  renderedRange s = {| r_start := 0; r_end := 0 |} ->
  let r := startup (Parsed (JArray entries)) s in
  let n := Z.of_nat (length entries) in
  let s' := stateOf r in
  returned r = true /\ listening s' = true /\
  getEntryCount s' = n /\ currentIndex s' = n - 1 /\
  renderedRange s' = {| r_start := Z.max 0 (n - 4); r_end := n - 1 |} /\
  atRest s' /\ plainStrips s' /\ sl_animated (eventsSlider s') = false /\
  wellFormed s' /\ isAnimating s' = isAnimating s /\
  console s' = console s ++ [loadedMessage n].
Proof.
  intros Hlen Hty Hr r n s'. unfold s', r, stateOf, startup. clear r s'.
  rewrite bind_unfold, loadActivityLog_array. cbv beta iota.
  set (s1 := set_activityLog _ _).
  assert (Hn1 : entryCount s1 = n)
    by (unfold entryCount, s1; simpl; rewrite length_seq; reflexivity).
  assert (Hw1 : wellFormed s1) by (apply (wellFormed_loaded s1 (heap s) entries); auto).
  rewrite bind_gets, Hn1. replace (n =? 0) with false by lia.
  unfold init. rewrite bind_gets, Hn1, bind_modify.
  set (s2 := set_currentIndex (n - 1) s1).
  assert (Hw2 : wellFormed s2) by exact Hw1.
  assert (Hn2 : entryCount s2 = n) by exact Hn1.
  assert (E : negb false && range_eqb (computeRange (currentIndex s2) CARD_BUFFER (entryCount s2))
                (renderedRange s2) = false).
  { change (renderedRange s2) with (renderedRange s). rewrite Hr, Hn2.
    unfold range_eqb, computeRange. simpl.
    replace (Z.min (n - 1) (n - 1 + CARD_BUFFER) =? 0) with false by (unfold CARD_BUFFER; lia).
    apply andb_false_r. }
  pose proof (updateRenderedCards_wellFormed false s2 Hw2) as Hret3.
  pose proof (completed_render_shows false s2) as Hshow3.
  pose proof (completed_render_plain false s2 (wellFormed_plainStore s2 Hw2)) as Hpl3.
  pose proof (updateRenderedCards_range false s2) as Hr3.
  pose proof (updateRenderedCards_silent false s2) as Hcon3.
  pose proof (updateRenderedCards_quiet false s2) as [(Hst3 & Hci3 & Hf3 & _) _].
  rewrite bind_unfold.
  rewrite (updateRenderedCards_render false s2 E) in *. cbv zeta in *.
  destruct (renderItems _ _) as [[ns cs]|err]; [| discriminate].
  cbn [fst snd] in *. cbv beta iota.
  set (s3 := set_cardsRow _ _) in *. specialize (Hshow3 eq_refl).
  specialize (Hpl3 eq_refl).
  assert (Hsound3 : sound s3).
  { apply (sound_steady s2); [repeat split; assumption || reflexivity |].
    split; [exact Hw2 |]. rewrite Hn2. simpl. lia. }
  pose proof (updateUI_sound s3 Hsound3) as Hret4.
  pose proof (updateUI_scene s3) as (Hc4 & Hnd4 & Hr4 & Hsl4 & Hwd4).
  pose proof (updateUI_silent s3) as Hcon4.
  pose proof (updateUI_quiet s3) as [(Hst4 & Hci4 & Hf4 & _) _].
  rewrite bind_unfold.
  destruct (updateUI s3) as [[[]|err] s4]; [| discriminate]. cbn [fst snd] in *.
  assert (Hshow4 : showsWindow s4).
  { unfold showsWindow. rewrite Hc4, Hnd4, Hr4. exact Hshow3. }
  assert (Hrange4 : renderedRange s4 = {| r_start := Z.max 0 (n - 4); r_end := n - 1 |}).
  { rewrite Hr4, Hr3, Hn2. unfold computeRange, CARD_BUFFER. simpl. f_equal; lia. }
  assert (Hin4 : inWindow (renderedRange s4) (currentIndex s4)).
  { rewrite Hrange4, Hci4, Hci3. unfold inWindow. simpl. lia. }
  destruct Hshow4 as [Hcards4 Hnodes4].
  destruct (slider_at_rest false s4 Hcards4 Hin4) as [Hsl Hoff].
  rewrite bind_unfold, Hsl. cbv beta iota.
  unfold bindEvents. rewrite bind_modify, bind_gets. simpl.
  split; [reflexivity |]. split; [reflexivity |].
  split; [unfold getEntryCount, entryCount in *; simpl; destruct Hst4 as [_ ->]; destruct Hst3 as [_ ->]; exact Hn2 |].
  split; [rewrite Hci4, Hci3; reflexivity |].
  split; [exact Hrange4 |].
  split; [split; [split; assumption | split; [exact Hin4 | exact Hoff]] |].
  split; [unfold plainStrips; simpl; rewrite Hc4, Hnd4; exact Hpl3 |].
  split; [reflexivity |].
  split; [apply (wellFormed_sameStore s2);
           [transitivity s3; [exact Hst3 | transitivity s4; [exact Hst4 | split; reflexivity]]
           | exact Hw2] |].
  split; [rewrite Hf4, Hf3; reflexivity |].
  unfold silent in *. rewrite Hcon4, Hcon3. reflexivity.
Qed.

Lemma startup_shows_newest_entries_witness :
  let r := startup (Parsed (JArray (sampleLog 6))) (pageLoad 500) in
  returned r = true /\ currentIndex (stateOf r) = 5 /\
  renderedRange (stateOf r) = {| r_start := 2; r_end := 5 |} /\
  sl_offset (eventsSlider (stateOf r)) = 3 * 524.
Proof.
  assert (Hty : Forall (fun e => renderable (Some e) && plainText e = true) (sampleLog 6))
    by (apply (bool_decide_unpack _); vm_compute; exact I).
  destruct (startup_shows_newest_entries (sampleLog 6) (pageLoad 500)
              ltac:(simpl; lia) Hty eq_refl)
    as (H1 & _ & _ & H2 & H3 & (_ & _ & H4) & _).
  split; [exact H1 |]. split; [exact H2 |]. split; [exact H3 |].
  rewrite H4. unfold restingOffset. rewrite H2, H3. reflexivity.
Defined.

(** ** Header and controls *)

#[global] Instance sameHeader_preorder : PreOrder sameHeader.
Proof.
  split; [intros s; split; reflexivity |].
  intros a b c [H1 H2] [H3 H4]. split; congruence.
Qed.

#[global] Instance sameControls_preorder : PreOrder sameControls.
Proof.
  split; [intros s; repeat split; reflexivity |].
  intros a b c (H1 & H2 & H3) (H4 & H5 & H6). repeat split; congruence.
Qed.

Lemma updateCardActiveStates_sameHeader : respects sameHeader updateCardActiveStates.
Proof. unfold updateCardActiveStates. frame. Qed.

Lemma updateCardActiveStates_sameControls : respects sameControls updateCardActiveStates.
Proof. unfold updateCardActiveStates. frame. Qed.

#[global] Hint Resolve updateCardActiveStates_sameHeader
  updateCardActiveStates_sameControls : frame.

Lemma updateRenderedCards_sameHeader (force : bool) :
  respects sameHeader (updateRenderedCards force).
Proof. unfold updateRenderedCards. frame. Qed.

Lemma updateRenderedCards_sameControls (force : bool) :
  respects sameControls (updateRenderedCards force).
Proof. unfold updateRenderedCards. frame. Qed.

Lemma updateSliderPosition_sameHeader (animate : bool) :
  respects sameHeader (updateSliderPosition animate).
Proof. unfold updateSliderPosition. frame. Qed.

Lemma updateSliderPosition_sameControls (animate : bool) :
  respects sameControls (updateSliderPosition animate).
Proof. unfold updateSliderPosition. frame. Qed.

#[global] Hint Resolve updateRenderedCards_sameHeader updateRenderedCards_sameControls
  updateSliderPosition_sameHeader updateSliderPosition_sameControls : frame.

Lemma timerCallback_sameHeader (t : TimerTask) :
  isSetText t = false -> respects sameHeader (timerCallback t).
Proof. destruct t; intros H; try discriminate; unfold timerCallback; frame. Qed.

Lemma set_headerEl_sameControls (el : HeaderEl) (v : TextEl) :
  respects sameControls (modify (set_headerEl el v)).
Proof. apply respects_modify. intros s. destruct el; frame_side. Qed.

#[global] Hint Resolve set_headerEl_sameControls : frame.

Lemma timerCallback_sameControls (t : TimerTask) : respects sameControls (timerCallback t).
Proof. destruct t; unfold timerCallback; frame. Qed.

Lemma fire_sameControls (tasks : list (Z * TimerTask)) (s : State) :
  sameControls s (foldl (fun st p => runCallback (timerCallback (snd p)) st) s tasks).
Proof.
  apply (respects_foldl sameControls). intros st p _.
  apply (respects_runCallback sameControls); [apply timerCallback_sameControls |].
  intros; repeat split.
Qed.

(** What one due timer does to a header element. *)
Lemma timer_header (el : HeaderEl) (t : TimerTask) (s : State) :
  headerEl el (runCallback (timerCallback t) s) =
    match t with
    | SetText el' x =>
        if sameEl el' el then {| el_text := textContentOf x; el_shown := true |}
        else headerEl el s
    | _ => headerEl el s
    end.
Proof.
  assert (Hother : isSetText t = false ->
            headerEl el (runCallback (timerCallback t) s) = headerEl el s).
  { intros Ht.
    cut (sameHeader s (runCallback (timerCallback t) s)).
    { intros [H1 H2]. destruct el; simpl; assumption. }
    apply (respects_runCallback sameHeader);
      [apply timerCallback_sameHeader, Ht | intros; split; reflexivity]. }
  destruct t as [el' x | | |]; try (apply Hother; reflexivity).
  destruct el, el'; reflexivity.
Qed.

(** The due timers that set [el] all set it to [x]. *)
Definition setsOnly (el : HeaderEl) (x : option string) (tasks : list (Z * TimerTask)) : Prop :=
  forall p y, p ∈ tasks -> snd p = SetText el y -> y = x.

Lemma fire_header_kept (el : HeaderEl) (x : option string)
    (tasks : list (Z * TimerTask)) (s : State) :
  setsOnly el x tasks ->
  headerEl el s = {| el_text := textContentOf x; el_shown := true |} ->
  headerEl el (foldl (fun st p => runCallback (timerCallback (snd p)) st) s tasks) =
    {| el_text := textContentOf x; el_shown := true |}.
Proof.
  revert s. induction tasks as [|p tasks IH]; intros s Hall Hs; simpl; [exact Hs |].
  apply IH.
  - intros q y Hq. apply Hall. right. exact Hq.
  - rewrite timer_header. destruct (snd p) as [el' y | | |] eqn:Ep; try exact Hs.
    destruct el', el; simpl; try exact Hs;
      (rewrite (Hall p y); [reflexivity | left | exact Ep]).
Qed.

Lemma fire_header_set (el : HeaderEl) (x : option string)
    (tasks : list (Z * TimerTask)) (s : State) (d : Z) :
  setsOnly el x tasks -> (d, SetText el x) ∈ tasks ->
  headerEl el (foldl (fun st p => runCallback (timerCallback (snd p)) st) s tasks) =
    {| el_text := textContentOf x; el_shown := true |}.
Proof.
  revert s. induction tasks as [|p tasks IH]; intros s Hall Hin; [inversion Hin |].
  simpl.
  assert (Hrest : setsOnly el x tasks) by (intros q y Hq; apply Hall; right; exact Hq).
  apply elem_of_cons in Hin. destruct Hin as [<- | Hin].
  - apply fire_header_kept; [exact Hrest |].
    rewrite timer_header. destruct el; reflexivity.
  - apply IH; assumption.
Qed.

Lemma fire_header_none (el : HeaderEl) (tasks : list (Z * TimerTask)) (s : State) :
  (forall p y, p ∈ tasks -> snd p <> SetText el y) ->
  headerEl el (foldl (fun st p => runCallback (timerCallback (snd p)) st) s tasks) =
    headerEl el s.
Proof.
  revert s. induction tasks as [|p tasks IH]; intros s Hnone; simpl; [reflexivity |].
  rewrite IH by (intros q y Hq; apply Hnone; right; exact Hq).
  rewrite timer_header. destruct (snd p) as [el' y | | |] eqn:Ep; try reflexivity.
  destruct el', el; simpl; try reflexivity;
    (exfalso; apply (Hnone p y); [left | exact Ep]).
Qed.

Lemma animateText_eq (el : HeaderEl) (newText : option string) (s : State) :
  animateText el newText s = (Ret tt, textAnimated el newText s).
Proof.
  unfold animateText, textAnimated. rewrite bind_gets.
  destruct (sameText _ _); [reflexivity |]. destruct el; reflexivity.
Qed.

Lemma updateUI_eq (s : State) (e : Entry) (l : option string) :
  entryAt s (currentIndex s) = Some e ->
  getLabel (typeConfigGet (e_type e)) = Ret l ->
  let ci := currentIndex s in
  updateUI s =
    (Ret tt,
     set_nextBtn_disabled (ci =? entryCount s - 1)
       (set_prevBtn_disabled (ci =? 0)
          (set_counterCurrent ("#" +:+ pad3 (ci + 1))
             (textAnimated EntryType l
                (textAnimated EntryNumber (Some (pad3 (ci + 1))) s))))).
Proof.
  intros He Hl ci. unfold updateUI. rewrite !bind_gets. unfold id.
  rewrite bind_unfold, animateText_eq. cbv beta iota.
  rewrite He, Hl. rewrite bind_unfold. unfold lift. cbv beta iota.
  rewrite bind_unfold, animateText_eq. cbv beta iota.
  rewrite !bind_modify. reflexivity.
Qed.

Lemma sameText_true (t : string) (x : option string) :
  sameText t x = true -> t = textContentOf x.
Proof.
  destruct x as [n|]; simpl; [| discriminate]. intros H. apply String.eqb_eq, H.
Qed.

Lemma elem_of_textAnimated (el : HeaderEl) (x : option string) (s : State) (p : Z * TimerTask) :
  p ∈ timers (textAnimated el x s) <->
  p ∈ timers s \/
  (sameText (el_text (headerEl el s)) x = false /\ p = (now s + TEXT_MS, SetText el x)).
Proof.
  unfold textAnimated. destruct (sameText _ _).
  - split; [auto | intros [H | [H _]]; [exact H | discriminate]].
  - destruct el; simpl; rewrite elem_of_enqueue; split.
    + intros [H | H]; auto.
    + intros [H | [_ H]]; auto.
    + intros [H | H]; auto.
    + intros [H | [_ H]]; auto.
Qed.

(** After the text animation, 200 ms on, an element shows the text it was
    asked to show, as long as no earlier text change for it was pending. *)
Lemma header_settles (el : HeaderEl) (x : option string) (s1 : State) :
  (forall p y, p ∈ timers s1 -> snd p = SetText el y ->
     y = x /\ fst p = now s1 + TEXT_MS /\
     sameText (el_text (headerEl el s1)) x = false) ->
  (sameText (el_text (headerEl el s1)) x = false ->
   (now s1 + TEXT_MS, SetText el x) ∈ timers s1) ->
  el_text (headerEl el (advance TEXT_MS s1)) = textContentOf x.
Proof.
  intros Hall Hset. unfold advance.
  set (t := now s1 + TEXT_MS).
  set (due := filter (fun p => isDue t p = true) (timers s1)).
  set (s0 := set_timers _ _).
  assert (Hs0 : headerEl el s0 = headerEl el s1) by (destruct el; reflexivity).
  assert (Hdue : setsOnly el x due).
  { intros p y Hp Hy. apply list_elem_of_filter in Hp. destruct Hp as [_ Hp].
    apply (Hall p y Hp Hy). }
  destruct (sameText (el_text (headerEl el s1)) x) eqn:Esame.
  - rewrite fire_header_none, Hs0; [apply sameText_true, Esame |].
    intros p y Hp Hy. apply list_elem_of_filter in Hp. destruct Hp as [_ Hp].
    destruct (Hall p y Hp Hy) as (_ & _ & H). discriminate.
  - rewrite (fire_header_set el x due s0 t Hdue); [reflexivity |].
    apply list_elem_of_filter. split; [| exact (Hset eq_refl)].
    unfold isDue, t. simpl. apply Z.leb_le. lia.
Qed.

Lemma textAnimated_text (el el' : HeaderEl) (x : option string) (s : State) :
  el_text (headerEl el' (textAnimated el x s)) = el_text (headerEl el' s).
Proof. unfold textAnimated. destruct (sameText _ _); [reflexivity |]. destruct el, el'; reflexivity. Qed.

Lemma textAnimated_now (el : HeaderEl) (x : option string) (s : State) :
  now (textAnimated el x s) = now s.
Proof. unfold textAnimated. destruct (sameText _ _); [reflexivity |]. destruct el; reflexivity. Qed.

(** X13. What [updateUI] shows: when the current entry exists, its type
    can be looked up and no earlier text change is still pending, the
    call returns with the counter set to "#" and the padded one-based
    index, the previous button disabled exactly at the first entry and
    the next button exactly at the last; and 200 ms later the header
    shows that padded index and the label of the entry's type, whatever
    other timers fire meanwhile. *)
Theorem header_shows_current_entry (s : State) (e : Entry) (l : option string) :
  entryAt s (currentIndex s) = Some e ->
  getLabel (typeConfigGet (e_type e)) = Ret l ->
  (forall p, p ∈ timers s -> isSetText (snd p) = false) ->
  let ci := currentIndex s in
  let s' := advance TEXT_MS (stateOf (updateUI s)) in
  returned (updateUI s) = true /\
  el_text (entryNumber s') = pad3 (ci + 1) /\
  el_text (entryType s') = textContentOf l /\
  counterCurrent s' = "#" +:+ pad3 (ci + 1) /\
  prevBtn_disabled s' = (ci =? 0) /\
  nextBtn_disabled s' = (ci =? entryCount s - 1).
Proof.
  intros He Hl Hnone ci s'.
  pose proof (updateUI_eq s e l He Hl) as Heq. cbv zeta in Heq. fold ci in Heq.
  unfold s', stateOf, returned. rewrite Heq. cbn [fst snd]. clear s' Heq.
  set (num := pad3 (ci + 1)).
  set (sa := textAnimated EntryNumber (Some num) s).
  set (sb := textAnimated EntryType l sa).
  set (s1 := set_nextBtn_disabled _ _).
  assert (Hnow : now s1 = now s)
    by (unfold s1; simpl; unfold sb, sa; rewrite !textAnimated_now; reflexivity).
  assert (Htext : forall el, el_text (headerEl el s1) = el_text (headerEl el s)).
  { intros el. transitivity (el_text (headerEl el sb)); [destruct el; reflexivity |].
    unfold sb, sa. rewrite !textAnimated_text. reflexivity. }
  assert (Htimers : forall p, p ∈ timers s1 <->
            p ∈ timers s \/
            (sameText (el_text (entryNumber s)) (Some num) = false /\
             p = (now s + TEXT_MS, SetText EntryNumber (Some num))) \/
            (sameText (el_text (entryType s)) l = false /\
             p = (now s + TEXT_MS, SetText EntryType l))).
  { intros p. change (timers s1) with (timers sb). unfold sb.
    rewrite elem_of_textAnimated. unfold sa at 1. rewrite elem_of_textAnimated.
    unfold sa. rewrite textAnimated_text, textAnimated_now. simpl. tauto. }
  split; [reflexivity |].
  split.
  { change (entryNumber (advance TEXT_MS s1)) with (headerEl EntryNumber (advance TEXT_MS s1)).
    change num with (textContentOf (Some num)).
    apply header_settles.
    - intros p y Hp Hy. apply Htimers in Hp.
      destruct Hp as [Hp | [[Hs ->] | [_ ->]]].
      + specialize (Hnone p Hp). rewrite Hy in Hnone. discriminate.
      + simpl in Hy. injection Hy as <-. rewrite Hnow, Htext. auto.
      + discriminate.
    - rewrite Htext, Hnow. intros Hs. apply Htimers. right. left. auto. }
  split.
  { change (entryType (advance TEXT_MS s1)) with (headerEl EntryType (advance TEXT_MS s1)).
    apply header_settles.
    - intros p y Hp Hy. apply Htimers in Hp.
      destruct Hp as [Hp | [[_ ->] | [Hs ->]]].
      + specialize (Hnone p Hp). rewrite Hy in Hnone. discriminate.
      + discriminate.
      + simpl in Hy. injection Hy as <-. rewrite Hnow, Htext. auto.
    - rewrite Htext, Hnow. intros Hs. apply Htimers. right. right. auto. }
  assert (Hc : sameControls s1 (advance TEXT_MS s1)).
  { unfold advance.
    match goal with
    | |- sameControls s1 (foldl _ ?s0 _) => transitivity s0; [repeat split |]
    end.
    apply fire_sameControls. }
  destruct Hc as (H1 & H2 & H3). rewrite H1, H2, H3. repeat split.
Qed.

Lemma header_shows_current_entry_witness :
  let s := set_currentIndex 1 (advance TEXT_MS (sampleState 5)) in
  el_text (entryNumber (advance TEXT_MS (stateOf (updateUI s)))) = "002" /\
  prevBtn_disabled (advance TEXT_MS (stateOf (updateUI s))) = false.
Proof.
  intros s.
  assert (He : entryAt s (currentIndex s) =
               Some (withIdStatus (rawEntry "feature" "Entry 1") "002"))
    by (vm_compute; reflexivity).
  assert (Hnone : forall p, p ∈ timers s -> isSetText (snd p) = false).
  { intros p Hp. vm_compute in Hp.
    repeat (apply elem_of_cons in Hp; destruct Hp as [-> | Hp]; [reflexivity |]).
    inversion Hp. }
  destruct (header_shows_current_entry s _ (Some "Feature") He eq_refl Hnone)
    as (_ & H1 & _ & _ & H2 & _).
  split; [exact H1 | exact H2].
Defined.

(** ** The debounced resize handler *)

#[global] Instance still_preorder : PreOrder still.
Proof.
  split.
  - intros s. split; [reflexivity | repeat split].
  - intros a b c (H1 & H2 & H3 & H4) (H5 & H6 & H7 & H8).
    split; [etransitivity; eassumption |]. repeat split; congruence.
Qed.















(** ** Identifiers *)

Lemma digitValue_char (d : N) :
  (d < 10)%N -> digitValue (pretty_N_char d) = Some (Z.of_N d).
Proof.
  intros H.
  assert (d = 0 \/ d = 1 \/ d = 2 \/ d = 3 \/ d = 4 \/ d = 5 \/ d = 6 \/ d = 7 \/
          d = 8 \/ d = 9)%N as Hd by lia.
  repeat (destruct Hd as [-> | Hd]; [reflexivity |]). subst d. reflexivity.
Qed.

(** Reading back the digits [pretty_N_go] writes in front of [s]. *)
Lemma parseDigits_go (x : N) :
  exists k : Z, 0 <= k /\ forall acc s,
    parseDigits acc (pretty_N_go x s) = parseDigits (acc * 10 ^ k + Z.of_N x) s.
Proof.
  induction (N.lt_wf_0 x) as [x _ IH].
  destruct (decide (x = 0)%N) as [-> | Hx].
  - exists 0. split; [lia |]. intros acc s. rewrite pretty_N_go_0. f_equal. lia.
  - destruct (IH (x `div` 10)%N) as (k & Hk & Hgo); [apply N.div_lt; lia |].
    exists (k + 1). split; [lia |]. intros acc s.
    rewrite pretty_N_go_step by lia. rewrite Hgo. cbn [parseDigits].
    rewrite digitValue_char by (apply N.mod_lt; lia).
    f_equal. rewrite Z.pow_add_r by lia.
    rewrite (N.div_mod x 10) at 3 by lia.
    rewrite N2Z.inj_add, N2Z.inj_mul. change (Z.of_N 10) with 10. lia.
Qed.

Lemma parseDigits_jsString (n : Z) :
  0 <= n -> parseDigits 0 (jsString n) = Some n.
Proof.
  intros Hn. unfold jsString, pretty, pretty_Z.
  destruct n as [|p|p]; [reflexivity | | lia].
  unfold pretty, pretty_positive, pretty, pretty_N.
  rewrite decide_False by discriminate.
  destruct (parseDigits_go (N.pos p)) as (k & _ & Hgo).
  rewrite Hgo. simpl. reflexivity.
Qed.

Lemma parseDigits_zeros (k : nat) (s : string) :
  parseDigits 0 (replicate_char k "0" +:+ s) = parseDigits 0 s.
Proof. induction k as [|k IH]; [reflexivity | exact IH]. Qed.

Lemma pad3_nonempty (n : Z) : pad3 n <> EmptyString.
Proof.
  unfold pad3, padStart.
  destruct (jsString n) as [|c r] eqn:E; [discriminate |].
  destruct (replicate_char _ _); discriminate.
Qed.

Lemma idNumber_pad3 (e : Entry) (n : Z) :
  0 <= n -> idNumber (withIdStatus e (pad3 n)) = Some n.
Proof.
  intros Hn. unfold idNumber. cbn [e_id withIdStatus].
  pose proof (pad3_nonempty n) as Hne.
  destruct (pad3 n) as [|c r] eqn:E; [contradiction |].
  rewrite <- E. unfold pad3, padStart.
  rewrite parseDigits_zeros. apply parseDigits_jsString, Hn.
Qed.

(** X15. The identifiers given by [loadActivityLog] can be read back:
    the id of the entry at index [i] is a string of decimal digits whose
    value is [i + 1], for a log of any length, so no two entries of a
    loaded log have the same id. *)
Theorem loaded_ids_read_back_and_differ (entries : list Entry) (s : State) :
  let s' := stateOf (loadActivityLog (Parsed (JArray entries)) s) in
  (forall i e, entryAt s' i = Some e -> idNumber e = Some (i + 1)) /\
  (forall i j e e', entryAt s' i = Some e -> entryAt s' j = Some e' ->
     e_id e = e_id e' -> i = j).
Proof.
  intros s'.
  assert (Hread : forall i e, entryAt s' i = Some e -> idNumber e = Some (i + 1)).
  { intros i e He.
    assert (Hi : 0 <= i).
    { destruct (Z.ltb_spec i 0) as [Hneg | Hpos]; [| exact Hpos].
      unfold entryAt, refAt in He. replace (i <? 0) with true in He by lia. discriminate. }
    unfold s', stateOf in He. rewrite loadActivityLog_array in He. cbn [snd] in He.
    replace i with (Z.of_nat (Z.to_nat i)) in He by lia.
    rewrite (entryAt_loaded (set_activityLog (seq (length (heap s)) (length entries))
               (set_heap (heap s ++ assignIds entries) s))
               (heap s) entries (Z.to_nat i) eq_refl eq_refl) in He.
    rewrite lookup_assignIds in He.
    destruct (entries !! Z.to_nat i) as [e0|]; [| discriminate].
    injection He as <-. rewrite idNumber_pad3 by lia. f_equal. lia. }
  split; [exact Hread |].
  intros i j e e' He He' Hid.
  pose proof (Hread i e He) as Hi. pose proof (Hread j e' He') as Hj.
  unfold idNumber in Hi, Hj. rewrite Hid in Hi. rewrite Hi in Hj.
  injection Hj as Hj. lia.
Qed.

Lemma loaded_ids_read_back_and_differ_witness :
  entryAt (stateOf (loadActivityLog (Parsed (JArray (sampleLog 3))) (pageLoad 500))) 2 =
    Some (withIdStatus (rawEntry "feature" "Entry 2") "003") /\
  idNumber (withIdStatus (rawEntry "feature" "Entry 2") "003") = Some (2 + 1).
Proof.
  assert (He : entryAt (stateOf (loadActivityLog (Parsed (JArray (sampleLog 3)))
                                   (pageLoad 500))) 2 =
               Some (withIdStatus (rawEntry "feature" "Entry 2") "003"))
    by (vm_compute; reflexivity).
  split; [exact He |].
  exact (proj1 (loaded_ids_read_back_and_differ (sampleLog 3) (pageLoad 500)) 2 _ He).
Defined.

(** ** Node labels *)

Lemma beforeSpace_app (a rest : string) :
  noSpace a = true ->
  rest = EmptyString \/ (exists t, rest = String " " t) ->
  beforeSpace (a +:+ rest) = a.
Proof.
  intros Ha Hrest. induction a as [|c a IH]; simpl in *.
  - destruct Hrest as [-> | [t ->]]; reflexivity.
  - apply andb_true_iff in Ha. destruct Ha as [Hc Ha].
    destruct (Ascii.eqb c " "); [discriminate |]. rewrite (IH Ha). reflexivity.
Qed.

Lemma noSpace_app (a b : string) :
  noSpace a = true -> noSpace b = true -> noSpace (a +:+ b) = true.
Proof.
  intros Ha Hb. induction a as [|c a IH]; simpl in *; [exact Hb |].
  apply andb_true_iff in Ha. destruct Ha as [Hc Ha].
  rewrite Hc, (IH Ha). reflexivity.
Qed.

Lemma append_assoc3 (a b c : string) : a +:+ (b +:+ c) = (a +:+ b) +:+ c.
Proof.
  induction a as [|x a IH]; [reflexivity |].
  change (String x (a +:+ (b +:+ c)) = String x ((a +:+ b) +:+ c)).
  f_equal. exact IH.
Qed.

Lemma slice_ascii (k : nat) (c : ascii) (r : string) :
  (nat_of_ascii c <? 128)%nat = true -> slice (S k) (String c r) = slice k r.
Proof.
  intros H. cbn [slice]. unfold utf8Width.
  replace (nat_of_ascii c <? 192)%nat with true
    by (symmetry; apply Nat.ltb_lt; apply Nat.ltb_lt in H; lia).
  destruct k; reflexivity.
Qed.

(** X16. The label of a timeline node is the month and day: for a
    timestamp made of a year of four ASCII characters, a hyphen, a
    month-and-day part and then either nothing or a space and the time
    (the [YYYY-MM-DD HH:MM] format of the README), with no space inside
    the date and no markup in the month-and-day part, the node of an
    entry of a registered type shows the month-and-day part, with the
    colour and label of the type, and nothing in it is markup. *)
Theorem node_label_is_month_and_day
    (e : Entry) (index : Z) (isActive : bool) (t : TypeInfo) (year md rest : string) :
  String.length year = 4%nat -> isAscii year = true ->
  noSpace year = true -> noSpace md = true -> plain md = true ->
  rest = EmptyString \/ (exists time, rest = String " " time) ->
  e_timestamp e = Some (year +:+ "-" +:+ md +:+ rest) ->
  typeConfigGet (e_type e) = OwnValue t ->
  let node := {| n_index := index; n_active := isActive; n_color := color t;
                 n_number := md; n_title := label t |} in
  createNodeHTML (Some e) index isActive = Ret node /\ plainNode node = true.
Proof.
  intros Hlen Hasc Hy Hmd Hplain Hrest Hts Hty node. split.
  - unfold createNodeHTML. rewrite Hty, Hts.
    cbn [getColor getLabel obind interpolate].
    assert (Hdate : noSpace (year +:+ String "-" md) = true)
      by (apply noSpace_app; [exact Hy | exact Hmd]).
    change (year +:+ "-" +:+ md +:+ rest) with (year +:+ (String "-" md +:+ rest)).
    rewrite append_assoc3, (beforeSpace_app _ rest Hdate Hrest).
    destruct year as [|c1 [|c2 [|c3 [|c4 [|c5 year]]]]]; try discriminate.
    cbn [isAscii] in Hasc.
    apply andb_true_iff in Hasc. destruct Hasc as [H1 Hasc].
    apply andb_true_iff in Hasc. destruct Hasc as [H2 Hasc].
    apply andb_true_iff in Hasc. destruct Hasc as [H3 Hasc].
    apply andb_true_iff in Hasc. destruct Hasc as [H4 _].
    change (String c1 (String c2 (String c3 (String c4 "")))%string +:+ String "-" md)
      with (String c1 (String c2 (String c3 (String c4 (String "-" md))))).
    rewrite (slice_ascii 4 c1 _ H1), (slice_ascii 3 c2 _ H2), (slice_ascii 2 c3 _ H3),
      (slice_ascii 1 c4 _ H4), (slice_ascii 0 "-" md eq_refl).
    reflexivity.
  - destruct (typeConfig_plain _ t Hty) as [Hl Hc].
    unfold plainNode, node. cbn [n_color n_number n_title]. rewrite Hl, Hc, Hplain. reflexivity.
Qed.

Lemma node_label_is_month_and_day_witness :
  createNodeHTML (Some (rawEntry "fix" "Patch")) 7 true =
    Ret {| n_index := 7; n_active := true; n_color := "#ff3366";
           n_number := "10-24"; n_title := "Bug Fix" |}.
Proof.
  apply (node_label_is_month_and_day (rawEntry "fix" "Patch") 7 true
           (mkTypeInfo "Bug Fix" "#ff3366") "2024" "10-24" " 09:00");
    try reflexivity.
  right. exists "09:00". reflexivity.
Defined.

(** ** Adding entries *)

(** Writing the id of the object handed to [addEntry] leaves every
    object of the store renderable and without markup, the object itself
    included when its own text is so. *)
Lemma presentable_alter (h : list Entry) (entry l : nat) (e : Entry) (n : Z) :
  h !! entry = Some e ->
  renderable (Some e) && plainText e = true ->
  l = entry \/ renderable (h !! l) && plainEntry (h !! l) = true ->
  let h' := alter (fun e => withIdStatus e (pad3 n)) entry h in
  renderable (h' !! l) && plainEntry (h' !! l) = true.
Proof.
  intros He Hp Hl h'. unfold h'. rewrite list_lookup_alter.
  destruct (decide (entry = l)) as [<- | Hne].
  - rewrite He. apply presentable_withIdStatus, Hp.
  - destruct Hl as [-> | Hl]; [contradiction | exact Hl].
Qed.

Lemma addEntry_eq (entry : nat) (s : State) :
  addEntry entry s =
    goToIndex (entryCount s)
      (set_activityLog (activityLog s ++ [entry])
         (set_heap (alter (fun e => withIdStatus e (pad3 (entryCount s + 1))) entry (heap s)) s)).
Proof.
  unfold addEntry. rewrite !bind_gets, bind_modify, bind_gets, bind_modify, bind_gets.
  set (st := set_activityLog _ _).
  replace (entryCount st - 1) with (entryCount s); [reflexivity |].
  rewrite (entryCount_snoc s st entry) by reflexivity. lia.
Qed.

(** X17. An entry added to a page that shows its window is shown: on
    an idle page whose entries can all be rendered and hold no markup and
    whose strips hold the rendered window and no markup, [addEntry] of an
    object that has a type that can be looked up, a timestamp and files,
    and whose text holds no markup, returns, and one frame and 750 ms
    later the page is idle again with the new entry current, the window
    computed for it rendered in the strips, without markup, and the
    slider on its card. *)
Theorem added_entry_is_shown (entry : nat) (e : Entry) (s : State) :
  idle s -> wellFormed s -> plainStrips s -> showsWindow s ->
  heap s !! entry = Some e -> renderable (Some e) && plainText e = true ->
  let r := addEntry entry s in
  let s' := run [NextFrame; Elapse TRANSITION_MS] (stateOf r) in
  returned r = true /\ idle s' /\
  getEntryCount s' = entryCount s + 1 /\ currentIndex s' = entryCount s /\
  getCurrentEntry s' = Some entry /\
  renderedRange s' =
    {| r_start := Z.max 0 (entryCount s - CARD_BUFFER); r_end := entryCount s |} /\
  atRest s' /\ plainStrips s' /\ console s' = console s.
Proof.
  intros Hidle Hw Hplain Hshow He Hty r s'. unfold s', r. clear r s'.
  rewrite addEntry_eq.
  set (st := set_activityLog _ _).
  assert (Hn : entryCount st = entryCount s + 1)
    by (apply (entryCount_snoc s st entry); reflexivity).
  assert (Hwt : wellFormed st).
  { unfold wellFormed. rewrite Forall_seqZ, Hn. intros i Hi.
    unfold entryAt, refAt. replace (i <? 0) with false by lia.
    change (activityLog st) with (activityLog s ++ [entry]).
    change (heap st) with
      (alter (fun e => withIdStatus e (pad3 (entryCount s + 1))) entry (heap s)).
    destruct (decide (i < entryCount s)) as [Hlt | Hge].
    - rewrite lookup_app_l by (unfold entryCount in Hlt; lia).
      assert (Hi' : renderable (entryAt s i) && plainEntry (entryAt s i) = true).
      { unfold wellFormed in Hw. rewrite Forall_seqZ in Hw. apply Hw. lia. }
      unfold entryAt, refAt in Hi'. replace (i <? 0) with false in Hi' by lia.
      destruct (activityLog s !! Z.to_nat i) as [l|]; [| exact Hi']. simpl in *.
      apply (presentable_alter (heap s) entry l e _ He Hty). right. exact Hi'.
    - rewrite lookup_app_r by (unfold entryCount in Hge; lia).
      replace (Z.to_nat i - length (activityLog s))%nat with 0%nat
        by (unfold entryCount in *; lia).
      simpl. apply (presentable_alter (heap s) entry entry e _ He Hty). left. reflexivity. }
  assert (Hidle_t : idle st) by exact Hidle.
  assert (Hshow_t : showsWindow st) by exact Hshow.
  assert (Hplain_t : plainStrips st) by exact Hplain.
  destruct (request_settles st (entryCount s) Hidle_t Hwt Hshow_t ltac:(unfold entryCount in *; lia))
    as (Hret & _ & Hg' & Hf' & _ & Hci' & [_ Hwc'] & Hrest' & Hcon').
  pose proof (guarded_idle _ Hg' Hf') as Hidle'.
  set (s1 := stateOf (goToIndex (entryCount s) st)) in *.
  set (s' := run [NextFrame; Elapse TRANSITION_MS] s1) in *.
  assert (Hclean : clean s').
  { apply (run_clean [NextFrame; Elapse TRANSITION_MS]); [repeat constructor |].
    apply goToIndex_clean. split; assumption. }
  assert (Hstore : sameStore st s').
  { transitivity s1; [apply goToIndex_sameStore |].
    apply run_sameStore. repeat constructor. }
  assert (Hn' : entryCount s' = entryCount s + 1).
  { destruct Hstore as [_ Hl]. unfold entryCount in *. rewrite Hl. exact Hn. }
  split; [exact Hret |]. split; [exact Hidle' |]. split; [exact Hn' |].
  split; [exact Hci' |].
  split.
  { unfold getCurrentEntry, refAt. rewrite Hci'. destruct Hstore as [_ ->].
    destruct (Z.ltb_spec (entryCount s) 0) as [Hneg | _]; [unfold entryCount in Hneg; lia |].
    change (activityLog st) with (activityLog s ++ [entry]).
    unfold entryCount. rewrite Nat2Z.id.
    rewrite lookup_app_r by lia. rewrite Nat.sub_diag. reflexivity. }
  split; [| split; [exact Hrest' | split; [apply Hclean | exact Hcon']]].
  rewrite Hwc', Hci', Hn'. unfold computeRange, CARD_BUFFER. f_equal; unfold entryCount; lia.
Qed.

Lemma added_entry_is_shown_witness :
  let s := snd (newObject (rawEntry "docs" "Late") (advance TRANSITION_MS (sampleState 5))) in
  let s' := run [NextFrame; Elapse TRANSITION_MS] (stateOf (addEntry 5%nat s)) in
  currentIndex s' = 5 /\ renderedRange s' = {| r_start := 2; r_end := 5 |} /\
  getCurrentEntry s' = Some 5%nat.
Proof.
  intros s.
  assert (Hidle : idle s).
  { split; [reflexivity |]. intros p Hp. vm_compute in Hp.
    repeat (apply elem_of_cons in Hp; destruct Hp as [-> | Hp]; [reflexivity |]).
    inversion Hp. }
  assert (Hw : wellFormed s)
    by (unfold wellFormed; apply (bool_decide_unpack _); vm_compute; exact I).
  assert (Hp : plainStrips s)
    by (split; apply (bool_decide_unpack _); vm_compute; exact I).
  assert (Hshow : showsWindow s) by (split; vm_compute; reflexivity).
  destruct (added_entry_is_shown 5%nat (rawEntry "docs" "Late") s Hidle Hw Hp Hshow
              eq_refl eq_refl) as (_ & _ & _ & H1 & H2 & H3 & _).
  split; [exact H1 |]. split; [exact H3 | exact H2].
Defined.

(** ** Transitions in reachable states *)

(** X18. Transitions never overlap: in every state the page can reach
    from the start of the script, by the start-up handler, calls of the
    exported API (including [addEntry] and [reload]), input events,
    timers and frames, at most one end-of-transition timer is pending,
    and one is pending only while [isAnimating] is set. *)
Theorem transitions_never_overlap (s : State) :
  reachable s ->
  (length (transitionTimers s) <= 1)%nat /\
  (transitionTimers s <> [] -> isAnimating s = true) /\
  (isAnimating s = false -> idle s).
Proof.
  intros Hr. destruct (reachable_guarded s Hr) as [Hlen Hnone].
  split; [exact Hlen |]. split.
  - intros Hne. destruct (isAnimating s); [reflexivity |].
    exfalso. apply Hne, Hnone. reflexivity.
  - apply guarded_idle. split; assumption.
Qed.

Lemma transitions_never_overlap_witness :
  (length (transitionTimers (perform (CallGoToIndex 0) (sampleState 5))) <= 1)%nat.
Proof.
  apply (transitions_never_overlap (perform (CallGoToIndex 0) (sampleState 5))).
  apply reachable_perform. unfold sampleState.
  apply reachable_startup. apply reachable_start.
  repeat split; reflexivity.
Defined.

(** ** Clicking a node *)

#[global] Instance sameStrips_preorder : PreOrder sameStrips.
Proof.
  split; [intros s; split; reflexivity |].
  intros a b c [H1 H2] [H3 H4]. split; congruence.
Qed.

Lemma set_headerEl_sameStrips (el : HeaderEl) (v : TextEl) :
  respects sameStrips (modify (set_headerEl el v)).
Proof. apply respects_modify. intros s. destruct el; frame_side. Qed.

#[global] Hint Resolve set_headerEl_sameStrips : frame.

Lemma setTimeout_sameStrips (t : TimerTask) (d : Z) : respects sameStrips (setTimeout t d).
Proof. unfold setTimeout. frame. Qed.

#[global] Hint Resolve setTimeout_sameStrips : frame.

Lemma animateText_sameStrips (el : HeaderEl) (t : option string) :
  respects sameStrips (animateText el t).
Proof. unfold animateText. frame. Qed.

#[global] Hint Resolve animateText_sameStrips : frame.

Lemma updateUI_sameStrips : respects sameStrips updateUI.
Proof. unfold updateUI. frame. Qed.

Lemma updateSliderPosition_sameStrips (animate : bool) :
  respects sameStrips (updateSliderPosition animate).
Proof. unfold updateSliderPosition. frame. Qed.

#[global] Hint Resolve updateUI_sameStrips updateSliderPosition_sameStrips : frame.

(** The sliding branch keeps the items of both strips and recomputes
    their flags. *)
Lemma goToIndex_slide_strips (s : State) (index : Z) :
  isAnimating s = false -> 0 <= index < entryCount s ->
  inWindow (renderedRange s) index ->
  cardsRow (snd (goToIndex index s)) = refreshCard index <$> cardsRow s /\
  timelineNodes (snd (goToIndex index s)) = refreshNode index <$> timelineNodes s.
Proof.
  intros Ha Hi Hin. rewrite (goToIndex_slide s index Ha Hi Hin).
  set (s0 := set_currentIndex index (set_isAnimating true s)).
  rewrite bind_unfold, updateCardActiveStates_eq. cbv beta iota.
  set (sa := set_timelineNodes _ _).
  cut (sameStrips sa (snd ((updateSliderPosition true ≫= fun _ =>
         updateUI ≫= fun _ => setTimeout SlideDone TRANSITION_MS) sa))).
  { intros [H1 H2]. rewrite H1, H2. split; reflexivity. }
  as_frame. frame.
Qed.

(** X19. Clicking a timeline node never re-renders: on an idle page
    with listeners installed, whose window is the one computed for the
    current index and whose node strip holds it, a click on the node of
    index [i] makes [i] current and raises the guard, keeps the rendered
    window and the items of both strips, only recomputing their
    active/prev/next flags, and queues the end of the slide 750 ms on
    when the call returns. *)
Theorem clicked_node_slides_without_rerender (s : State) (i : Z) :
  listening s = true -> isAnimating s = false -> windowCurrent s ->
  n_index <$> timelineNodes s = windowIndices (renderedRange s) ->
  i ∈ n_index <$> timelineNodes s ->
  let r := dispatch (ClickNode i) s in
  let s' := stateOf r in
  currentIndex s' = i /\ isAnimating s' = true /\
  renderedRange s' = renderedRange s /\
  cardsRow s' = refreshCard i <$> cardsRow s /\
  timelineNodes s' = refreshNode i <$> timelineNodes s /\
  (returned r = true -> (now s + TRANSITION_MS, SlideDone) ∈ timers s').
Proof.
  intros Hl Ha [Hci Hwc] Hnodes Hin r s'.
  assert (Hr : r = goToIndex i s).
  { unfold r, dispatch. rewrite bind_gets, Hl. cbn [negb]. rewrite bind_gets.
    rewrite bool_decide_eq_true_2 by exact Hin. reflexivity. }
  unfold s'. rewrite Hr. clear r s' Hr.
  rewrite Hnodes in Hin. unfold windowIndices in Hin. apply elem_of_seqZ in Hin.
  assert (Hw : inWindow (renderedRange s) i) by (unfold inWindow; lia).
  assert (Hi : 0 <= i < entryCount s).
  { rewrite Hwc in Hin. unfold computeRange, CARD_BUFFER in Hin. simpl in Hin. lia. }
  destruct (goToIndex_accepted_state s i Ha Hi) as (Hf & Hc & _).
  destruct (goToIndex_slide_state s i Ha Hi Hw) as (_ & Hrange & Htimer).
  destruct (goToIndex_slide_strips s i Ha Hi Hw) as [Hcards Hnds].
  unfold stateOf in *. auto 10.
Qed.

Lemma clicked_node_slides_without_rerender_witness :
  let s := advance TRANSITION_MS (sampleState 5) in
  currentIndex (stateOf (dispatch (ClickNode 2) s)) = 2 /\
  renderedRange (stateOf (dispatch (ClickNode 2) s)) = renderedRange s.
Proof.
  intros s.
  assert (Hwc : windowCurrent s) by (split; [vm_compute; split; [discriminate | reflexivity] | vm_compute; reflexivity]).
  assert (Hin : 2 ∈ n_index <$> timelineNodes s).
  { replace (n_index <$> timelineNodes s) with [1; 2; 3; 4] by (vm_compute; reflexivity).
    apply elem_of_cons. right. apply elem_of_cons. left. reflexivity. }
  destruct (clicked_node_slides_without_rerender s 2 eq_refl eq_refl Hwc
              ltac:(vm_compute; reflexivity) Hin) as (H1 & _ & H2 & _).
  split; [exact H1 | exact H2].
Defined.
